(** * Flight booking backend: seat inventory and booking transactions

    A shallow embedding of [src/backend/flight_api.py] (the pricing and
    refund helpers, [update_flight_inventory], the [checkout] and
    [cancel_booking] endpoints and the [cleanup_expired_bookings] job),
    followed by the properties the specification states about them.

    Modelling conventions.
    - Python [int] and SQLite INTEGER are [Z].
    - Python [float] and SQLite REAL are exact rationals [Q]: the tier
      comparisons, the price formula and [round(x, 2)] are computed on the
      exact value, and [round] rounds half to even at the requested decimal
      place.  Binary rounding error of IEEE-754 doubles is outside the model.
    - A [datetime] is the number of microseconds (the resolution of Python's
      [datetime]) since a fixed origin; a stored [departure_time] is taken
      as a well-formed ISO string, i.e. as the datetime it parses to.
    - [datetime.now()], [uuid.uuid4()], [secrets.token_hex] and
      [random.random()] are inputs of the operation that reads them.
    - A sqlite3 connection is a pair of the committed database and the view
      of the open transaction; [commit] publishes the view, [rollback]
      discards it.  Exceptions keep the connection state they were raised
      in, as in Python. *)

From Stdlib Require Import ZArith QArith Qround List String Ascii Bool Lia Lqa.
From Stdlib Require Import DecimalString.
Import ListNotations.

Local Open Scope string_scope.
Local Open Scope Z_scope.

(** ** Exceptions and results *)

(** The exceptions the modelled code raises: FastAPI's [HTTPException],
    Python's [ZeroDivisionError] and [sqlite3.IntegrityError]. *)
Inductive exn : Type :=
| HTTPException (status_code : Z) (detail : string)
| ZeroDivisionError
| IntegrityError (msg : string).

Inductive result (A : Type) : Type :=
| Ok (a : A)
| Raise (e : exn).
Arguments Ok {A} a.
Arguments Raise {A} e.

(** [str(n)] for an integer, as used by f-strings. *)
Definition str_int (n : Z) : string := NilZero.string_of_int (Z.to_int n).

(** [str(e)]: Starlette prints an [HTTPException] as ["status: detail"]. *)
Definition str_exn (e : exn) : string :=
  match e with
  | HTTPException c d => str_int c ++ ": " ++ d
  | ZeroDivisionError => "division by zero"
  | IntegrityError m => m
  end.

(** ** Numbers *)

(** [a / b] on Python integers (true division). *)
Definition py_truediv (a b : Z) : result Q :=
  if b =? 0 then Raise ZeroDivisionError
  else Ok (inject_Z a / inject_Z b)%Q.

Definition Qlt_bool (x y : Q) : bool := negb (Qle_bool y x).

(** Nearest integer, ties to the even neighbour. *)
Definition round_half_even (x : Q) : Z :=
  let f := Qfloor x in
  let r := (x - inject_Z f)%Q in
  if Qlt_bool r 0.5 then f
  else if Qlt_bool 0.5 r then f + 1
  else if Z.even f then f else f + 1.

(** [round(x, ndigits)] for [ndigits >= 0]. *)
Definition round (x : Q) (ndigits : Z) : Q :=
  let scale := inject_Z (10 ^ ndigits) in
  (inject_Z (round_half_even (x * scale)) / scale)%Q.

(** [(departure_time - datetime.now()).total_seconds() / 3600]: the
    difference of two datetimes is a whole number of microseconds. *)
Definition hours_between (departure_time now : Z) : Q :=
  (inject_Z (departure_time - now) / 1000000 / 3600)%Q.

(** ** Helper functions of the backend *)

(** [calculate_dynamic_price] (lines 417-450); [now] is the value
    [datetime.now()] returns inside the call. *)
Definition calculate_dynamic_price (base_price : Q) (seats_remaining total_seats : Z)
    (demand_factor : Q) (departure_time now : Z) : result Q :=
  let total_seats := if total_seats <=? 0 then 1 else total_seats in
  match py_truediv seats_remaining total_seats with
  | Raise e => Raise e
  | Ok remaining_percentage =>
      let seat_factor :=
        (if Qle_bool remaining_percentage 0.05 then 0.60
         else if Qle_bool remaining_percentage 0.10 then 0.40
         else if Qle_bool remaining_percentage 0.20 then 0.20
         else if Qle_bool remaining_percentage 0.50 then 0.10
         else 0.0)%Q in
      let hours_until_departure := hours_between departure_time now in
      let time_factor :=
        (if Qlt_bool hours_until_departure 0 then 0
         else if Qlt_bool hours_until_departure 6 then 0.30
         else if Qlt_bool hours_until_departure 24 then 0.20
         else if Qlt_bool hours_until_departure 72 then 0.10
         else 0.05)%Q in
      let final_price := (base_price * (1 + seat_factor + time_factor) * demand_factor)%Q in
      Ok (round final_price 2)
  end.

(** [calculate_refund] (lines 452-476). *)
Definition calculate_refund (price_paid : Q) (departure_time now : Z) : Q * string :=
  let hours_until := hours_between departure_time now in
  let '(refund_pct, policy) :=
    if Qlt_bool 72 hours_until then (0.90%Q, "More than 72 hours before departure")
    else if Qlt_bool 48 hours_until then (0.80%Q, "48-72 hours before departure")
    else if Qlt_bool 24 hours_until then (0.60%Q, "24-48 hours before departure")
    else if Qlt_bool 6 hours_until then (0.40%Q, "6-24 hours before departure")
    else if Qlt_bool 0 hours_until then (0.20%Q, "Less than 6 hours before departure")
    else (0.0%Q, "Flight already departed - no refund") in
  let refund_amount := round (price_paid * refund_pct) 2 in
  (refund_amount, policy).

(** ** The database (schema of [init_schema], lines 150-285)

    Each table is the list of its rows in insertion order.  Columns that the
    modelled code only writes and never reads back (creation and update
    timestamps, [payment_date], [cancellation_date], [gateway_response],
    the descriptive columns of a flight) are left out, and so is
    [airport_lookup]: the joins on it keep every flight whose airport codes
    satisfy the table's foreign keys. *)

Module User.
Inductive role_t := ADMIN | CUSTOMER.
Record row := { id : Z; username : string; role : role_t }.
Definition role_eqb (a b : role_t) : bool :=
  match a, b with ADMIN, ADMIN | CUSTOMER, CUSTOMER => true | _, _ => false end.
End User.

Module Flight.
Inductive status_t := SCHEDULED | BOARDING | DEPARTED | ARRIVED | CANCELLED.
Record row := {
  id : Z;
  base_price : Q;
  total_seats : Z;
  seats_remaining : Z;
  demand_factor : Q;
  departure_time : Z;
  status : status_t }.
Definition status_str (s : status_t) : string :=
  match s with
  | SCHEDULED => "SCHEDULED" | BOARDING => "BOARDING" | DEPARTED => "DEPARTED"
  | ARRIVED => "ARRIVED" | CANCELLED => "CANCELLED"
  end.
Definition is_scheduled (s : status_t) : bool :=
  match s with SCHEDULED => true | _ => false end.
End Flight.

Module Booking.
Inductive status_t := PENDING | CONFIRMED | CANCELLED | REFUNDED.
Record row := {
  id : Z;
  user_id : Z;
  flight_id : Z;
  pnr : string;
  price_paid : Q;
  booking_date : string;
  status : status_t;
  payment_reference : option string;
  contact_email : string;
  contact_phone : string;
  refund_amount : option Q }.
Definition status_eqb (a b : status_t) : bool :=
  match a, b with
  | PENDING, PENDING | CONFIRMED, CONFIRMED
  | CANCELLED, CANCELLED | REFUNDED, REFUNDED => true
  | _, _ => false
  end.
End Booking.

Module Passenger.
Inductive seat_type_t := WINDOW | AISLE | MIDDLE.
Inductive passenger_type_t := ADULT | CHILD | INFANT.
Record row := {
  booking_id : Z;
  flight_id : Z;
  seat_number : string;
  seat_type : seat_type_t;
  full_name : string;
  date_of_birth : option string;
  passport_number : option string;
  passenger_type : passenger_type_t }.
End Passenger.

Module PriceHistory.
Record row := {
  flight_id : Z;
  recorded_price : Q;
  demand_factor : Q;
  seats_remaining : Z }.
End PriceHistory.

Module Payment.
Inductive method_t := UPI | CARD | WALLET | NETBANKING.
Inductive status_t := SUCCESS | FAILED | PENDING | REFUNDED.
Record row := {
  booking_id : Z;
  payment_reference : string;
  payment_method : method_t;
  amount_paid : Q;
  payment_status : status_t }.
End Payment.

Module CancelledBooking.
Record row := {
  pnr : string;
  user_id : Z;
  flight_id : Z;
  price_paid : Q;
  refund_amount : Q;
  cancellation_reason : option string }.
End CancelledBooking.

(** The tables, and the AUTOINCREMENT counter of [booking] (its
    [sqlite_sequence] entry), the only generated id the code reads back. *)
Record DB := {
  user : list User.row;
  flight : list Flight.row;
  booking : list Booking.row;
  booking_seq : Z;
  passenger : list Passenger.row;
  flight_price_history : list PriceHistory.row;
  payment : list Payment.row;
  cancelled_booking : list CancelledBooking.row }.

Definition set_flight (db : DB) (t : list Flight.row) : DB :=
  {| user := user db; flight := t; booking := booking db; booking_seq := booking_seq db;
     passenger := passenger db; flight_price_history := flight_price_history db;
     payment := payment db; cancelled_booking := cancelled_booking db |}.

Definition set_booking (db : DB) (t : list Booking.row) (seq : Z) : DB :=
  {| user := user db; flight := flight db; booking := t; booking_seq := seq;
     passenger := passenger db; flight_price_history := flight_price_history db;
     payment := payment db; cancelled_booking := cancelled_booking db |}.

Definition set_passenger (db : DB) (t : list Passenger.row) : DB :=
  {| user := user db; flight := flight db; booking := booking db; booking_seq := booking_seq db;
     passenger := t; flight_price_history := flight_price_history db;
     payment := payment db; cancelled_booking := cancelled_booking db |}.

Definition set_flight_price_history (db : DB) (t : list PriceHistory.row) : DB :=
  {| user := user db; flight := flight db; booking := booking db; booking_seq := booking_seq db;
     passenger := passenger db; flight_price_history := t;
     payment := payment db; cancelled_booking := cancelled_booking db |}.

Definition set_payment (db : DB) (t : list Payment.row) : DB :=
  {| user := user db; flight := flight db; booking := booking db; booking_seq := booking_seq db;
     passenger := passenger db; flight_price_history := flight_price_history db;
     payment := t; cancelled_booking := cancelled_booking db |}.

Definition set_cancelled_booking (db : DB) (t : list CancelledBooking.row) : DB :=
  {| user := user db; flight := flight db; booking := booking db; booking_seq := booking_seq db;
     passenger := passenger db; flight_price_history := flight_price_history db;
     payment := payment db; cancelled_booking := t |}.

(** ** Connections and transactions *)

Record conn := { committed : DB; work : DB }.

(** A computation on a connection that returns or raises. *)
Definition M (A : Type) : Type := conn -> result A * conn.

Definition ret {A} (a : A) : M A := fun c => (Ok a, c).

Definition bind {A B} (m : M A) (k : A -> M B) : M B :=
  fun c => match m c with
           | (Ok a, c') => k a c'
           | (Raise e, c') => (Raise e, c')
           end.

Definition raise {A} (e : exn) : M A := fun c => (Raise e, c).

(** [try: m  except Exception as e: handler e]. *)
Definition try_except {A} (m : M A) (handler : exn -> M A) : M A :=
  fun c => match m c with
           | (Ok a, c') => (Ok a, c')
           | (Raise e, c') => handler e c'
           end.

Definition lift {A} (r : result A) : M A := fun c => (r, c).

Declare Scope conn_scope.
Delimit Scope conn_scope with conn.
Notation "x <- m ;; k" := (bind m (fun x => k))
  (at level 100, m at next level, right associativity) : conn_scope.
Notation "m ;; k" := (bind m (fun _ => k))
  (at level 100, right associativity) : conn_scope.
Local Open Scope conn_scope.

(** A SELECT reads the transaction's view; an INSERT or UPDATE replaces it
    or raises without changing it (statements are atomic). *)
Definition query {A} (q : DB -> A) : M A := fun c => (Ok (q (work c)), c).

Definition execute (stmt : DB -> result DB) : M unit :=
  fun c => match stmt (work c) with
           | Ok db' => (Ok tt, {| committed := committed c; work := db' |})
           | Raise e => (Raise e, c)
           end.

Definition commit : M unit :=
  fun c => (Ok tt, {| committed := work c; work := work c |}).

Definition rollback : M unit :=
  fun c => (Ok tt, {| committed := committed c; work := committed c |}).

(** [with get_db() as conn: body] (lines 122-135): a fresh connection on the
    database; an exception leaving the body is rolled back and re-raised,
    and the connection is closed, which drops whatever was not committed. *)
Definition get_db {A} (body : M A) (db : DB) : result A * DB :=
  let '(r, c) := try_except body (fun e => rollback ;; raise e)
                   {| committed := db; work := db |} in
  (r, committed c).

(** ** SQL statements *)

Definition select_flight (flight_id : Z) (db : DB) : option Flight.row :=
  find (fun f => Flight.id f =? flight_id) (flight db).

(** The CHECK constraints of [flight] that mention [seats_remaining] or
    [demand_factor], the columns the inventory UPDATE writes. *)
Definition flight_checks (f : Flight.row) : bool :=
  Qle_bool 0.5 (Flight.demand_factor f) && Qle_bool (Flight.demand_factor f) 2.0
  && (0 <=? Flight.seats_remaining f) && (Flight.seats_remaining f <=? Flight.total_seats f).

Definition with_inventory (f : Flight.row) (seats_remaining : Z) (demand_factor : Q)
  : Flight.row :=
  {| Flight.id := Flight.id f; Flight.base_price := Flight.base_price f;
     Flight.total_seats := Flight.total_seats f;
     Flight.seats_remaining := seats_remaining;
     Flight.demand_factor := demand_factor;
     Flight.departure_time := Flight.departure_time f;
     Flight.status := Flight.status f |}.

Definition inventory_update (flight_id new_remaining : Z) (demand_factor : Q)
    (f : Flight.row) : Flight.row :=
  if Flight.id f =? flight_id then with_inventory f new_remaining demand_factor else f.

(** [UPDATE flight SET seats_remaining = ?, demand_factor = ? WHERE id = ?]. *)
Definition sql_update_flight (new_remaining : Z) (demand_factor : Q) (flight_id : Z)
    (db : DB) : result DB :=
  let t := map (inventory_update flight_id new_remaining demand_factor) (flight db) in
  if forallb (fun f => negb (Flight.id f =? flight_id) || flight_checks f) t
  then Ok (set_flight db t)
  else Raise (IntegrityError "CHECK constraint failed: flight").

Definition history_row (flight_id : Z) (recorded_price demand_factor : Q)
    (seats_remaining : Z) : PriceHistory.row :=
  {| PriceHistory.flight_id := flight_id;
     PriceHistory.recorded_price := recorded_price;
     PriceHistory.demand_factor := demand_factor;
     PriceHistory.seats_remaining := seats_remaining |}.

(** [INSERT INTO flight_price_history ...]. *)
Definition sql_insert_price_history (flight_id : Z) (recorded_price demand_factor : Q)
    (seats_remaining : Z) (db : DB) : result DB :=
  Ok (set_flight_price_history db
        (flight_price_history db ++
         [history_row flight_id recorded_price demand_factor seats_remaining])%list).

(** ** [update_flight_inventory] (lines 478-527) *)

Definition update_flight_inventory (flight_id seats_change now : Z) : M unit :=
  flight <- query (select_flight flight_id) ;;
  match flight with
  | None => raise (HTTPException 404 "Flight not found")
  | Some flight =>
      let new_remaining := Flight.seats_remaining flight + seats_change in
      if new_remaining <? 0 then raise (HTTPException 400 "Not enough seats available")
      else
        let new_remaining :=
          if new_remaining >? Flight.total_seats flight
          then Flight.total_seats flight else new_remaining in
        remaining_pct <- lift (py_truediv new_remaining (Flight.total_seats flight)) ;;
        let demand_factor :=
          (if Qle_bool remaining_pct 0.05 then 1.6
           else if Qle_bool remaining_pct 0.10 then 1.4
           else if Qle_bool remaining_pct 0.20 then 1.2
           else 1.0)%Q in
        execute (sql_update_flight new_remaining demand_factor flight_id) ;;
        new_price <- lift (calculate_dynamic_price (Flight.base_price flight) new_remaining
                             (Flight.total_seats flight) demand_factor
                             (Flight.departure_time flight) now) ;;
        execute (sql_insert_price_history flight_id new_price demand_factor new_remaining)
  end.

(** ** Checkout (lines 1012-1137) *)

Module PassengerIn.
Record t := {
  full_name : string;
  date_of_birth : option string;
  passport_number : option string;
  passenger_type : Passenger.passenger_type_t;
  seat_number : string;
  seat_type : Passenger.seat_type_t }.
End PassengerIn.

Module BookingRequest.
Record t := {
  flight_id : Z;
  passengers : list PassengerIn.t;
  user_id : Z;
  contact_email : string;
  contact_phone : string;
  payment_method : Payment.method_t }.
End BookingRequest.

(** What one checkout attempt reads from its environment. *)
Record CheckoutEnv := {
  now_validation : Z;          (* datetime.now() at line 1042 *)
  now_pricing : Z;             (* datetime.now() in the call at line 1050 *)
  now_inventory : Z;           (* datetime.now() in the call at line 1091 *)
  current_timestamp : string;  (* CURRENT_TIMESTAMP, the default booking_date *)
  uuid4_hex8 : string;         (* uuid.uuid4().hex[:8].upper() *)
  token_hex8 : string;         (* secrets.token_hex(8).upper() *)
  payment_success : bool       (* random.random() > 0.02 *) }.

(** The same environment with another answer of the payment gateway. *)
Definition with_payment_success (env : CheckoutEnv) (b : bool) : CheckoutEnv :=
  {| now_validation := now_validation env; now_pricing := now_pricing env;
     now_inventory := now_inventory env; current_timestamp := current_timestamp env;
     uuid4_hex8 := uuid4_hex8 env; token_hex8 := token_hex8 env;
     payment_success := b |}.

(** The JSON body of a successful checkout. *)
Record CheckoutResponse := {
  resp_status : string;
  resp_pnr : string;
  resp_booking_id : Z;
  resp_payment_reference : string;
  resp_price_paid : Q;
  resp_message : string }.

Definition len {A} (l : list A) : Z := Z.of_nat (List.length l).

(** The checks on the fetched flight row (lines 1033-1047). *)
Definition validate_flight (flight : option Flight.row) (passengers : list PassengerIn.t)
    (now : Z) : result Flight.row :=
  match flight with
  | None => Raise (HTTPException 404 "Flight not found")
  | Some flight =>
      if negb (Flight.is_scheduled (Flight.status flight))
      then Raise (HTTPException 400
                    ("Flight is " ++ Flight.status_str (Flight.status flight) ++ ", cannot book"))
      else
        let departure_dt := Flight.departure_time flight in
        if departure_dt <? now then Raise (HTTPException 400 "Cannot book past flights")
        else if Flight.seats_remaining flight <? len passengers
        then Raise (HTTPException 400
                      ("Only " ++ str_int (Flight.seats_remaining flight) ++ " seats available"))
        else Ok flight
  end.

Definition max_rowid (t : list Booking.row) : Z :=
  fold_right (fun b m => Z.max (Booking.id b) m) 0 t.

Definition pending_row (id user_id flight_id : Z) (pnr : string) (price_paid : Q)
    (contact_email contact_phone booking_date : string) : Booking.row :=
  {| Booking.id := id; Booking.user_id := user_id;
     Booking.flight_id := flight_id; Booking.pnr := pnr;
     Booking.price_paid := price_paid;
     Booking.booking_date := booking_date;
     Booking.status := Booking.PENDING;
     Booking.payment_reference := None;
     Booking.contact_email := contact_email;
     Booking.contact_phone := contact_phone;
     Booking.refund_amount := None |}.

(** [INSERT INTO booking (...) VALUES (..., 'PENDING')]; the new row id is
    [cur.lastrowid]. *)
Definition sql_insert_booking (user_id flight_id : Z) (pnr : string) (price_paid : Q)
    (contact_email contact_phone booking_date : string) (db : DB) : result (Z * DB) :=
  if negb (Qle_bool 0 price_paid)
  then Raise (IntegrityError "CHECK constraint failed: price_paid >= 0")
  else if existsb (fun b => Booking.pnr b =? pnr)%string (booking db)
  then Raise (IntegrityError "UNIQUE constraint failed: booking.pnr")
  else if negb (existsb (fun u => User.id u =? user_id) (user db)
                && existsb (fun f => Flight.id f =? flight_id) (flight db))
  then Raise (IntegrityError "FOREIGN KEY constraint failed")
  else
    let id := Z.max (booking_seq db) (max_rowid (booking db)) + 1 in
    Ok (id, set_booking db
              (booking db ++
               [pending_row id user_id flight_id pnr price_paid
                  contact_email contact_phone booking_date])%list
              id).

Definition insert_booking (user_id flight_id : Z) (pnr : string) (price_paid : Q)
    (contact_email contact_phone booking_date : string) : M Z :=
  fun c => match sql_insert_booking user_id flight_id pnr price_paid
                   contact_email contact_phone booking_date (work c) with
           | Ok (id, db') => (Ok id, {| committed := committed c; work := db' |})
           | Raise e => (Raise e, c)
           end.

(** [INSERT INTO passenger ...] under the unique index
    [idx_unique_seat_per_flight ON passenger(flight_id, seat_number)]. *)
Definition passenger_row (booking_id flight_id : Z) (p : PassengerIn.t) : Passenger.row :=
  {| Passenger.booking_id := booking_id; Passenger.flight_id := flight_id;
     Passenger.seat_number := PassengerIn.seat_number p;
     Passenger.seat_type := PassengerIn.seat_type p;
     Passenger.full_name := PassengerIn.full_name p;
     Passenger.date_of_birth := PassengerIn.date_of_birth p;
     Passenger.passport_number := PassengerIn.passport_number p;
     Passenger.passenger_type := PassengerIn.passenger_type p |}.

(** The seat is taken on the flight: a row of [passenger] has this
    [(flight_id, seat_number)]. *)
Definition seat_taken (flight_id : Z) (seat_number : string) (t : list Passenger.row) : bool :=
  existsb (fun q => (Passenger.flight_id q =? flight_id)
                    && (Passenger.seat_number q =? seat_number)%string) t.

Definition sql_insert_passenger (booking_id flight_id : Z) (p : PassengerIn.t)
    (db : DB) : result DB :=
  if seat_taken flight_id (PassengerIn.seat_number p) (passenger db)
  then Raise (IntegrityError
                "UNIQUE constraint failed: passenger.flight_id, passenger.seat_number")
  else Ok (set_passenger db (passenger db ++ [passenger_row booking_id flight_id p])%list).

(** The loop over [booking_req.passengers] (lines 1075-1088). *)
Fixpoint insert_passengers (booking_id flight_id : Z) (passengers : list PassengerIn.t)
  : M unit :=
  match passengers with
  | [] => ret tt
  | passenger :: rest =>
      try_except (execute (sql_insert_passenger booking_id flight_id passenger))
        (fun e => match e with
                  | IntegrityError _ =>
                      raise (HTTPException 409
                               ("Seat " ++ PassengerIn.seat_number passenger ++ " already booked"))
                  | _ => raise e
                  end) ;;
      insert_passengers booking_id flight_id rest
  end.

Definition payment_row (booking_id : Z) (payment_ref : string)
    (method : Payment.method_t) (amount : Q) (st : Payment.status_t) : Payment.row :=
  {| Payment.booking_id := booking_id; Payment.payment_reference := payment_ref;
     Payment.payment_method := method; Payment.amount_paid := amount;
     Payment.payment_status := st |}.

(** [INSERT INTO payment ...]. *)
Definition sql_insert_payment (booking_id : Z) (payment_ref : string)
    (method : Payment.method_t) (amount : Q) (st : Payment.status_t) (db : DB) : result DB :=
  if negb (Qle_bool 0 amount)
  then Raise (IntegrityError "CHECK constraint failed: amount_paid >= 0")
  else if existsb (fun p => Payment.payment_reference p =? payment_ref)%string (payment db)
  then Raise (IntegrityError "UNIQUE constraint failed: payment.payment_reference")
  else
    Ok (set_payment db
          (payment db ++ [payment_row booking_id payment_ref method amount st])%list).

Definition confirm_row (payment_ref : string) (b : Booking.row) : Booking.row :=
  {| Booking.id := Booking.id b; Booking.user_id := Booking.user_id b;
     Booking.flight_id := Booking.flight_id b; Booking.pnr := Booking.pnr b;
     Booking.price_paid := Booking.price_paid b;
     Booking.booking_date := Booking.booking_date b;
     Booking.status := Booking.CONFIRMED;
     Booking.payment_reference := Some payment_ref;
     Booking.contact_email := Booking.contact_email b;
     Booking.contact_phone := Booking.contact_phone b;
     Booking.refund_amount := Booking.refund_amount b |}.

(** [UPDATE booking SET status = 'CONFIRMED', payment_reference = ? WHERE id = ?]. *)
Definition sql_confirm_booking (payment_ref : string) (booking_id : Z) (db : DB) : result DB :=
  Ok (set_booking db
        (map (fun b => if Booking.id b =? booking_id then confirm_row payment_ref b else b)
             (booking db))
        (booking_seq db)).

(** [do_checkout] (lines 1018-1135).  [BEGIN IMMEDIATE] takes the write
    lock and leaves the data as it is. *)
Definition do_checkout (booking_req : BookingRequest.t) (env : CheckoutEnv)
  : M CheckoutResponse :=
  let passengers := BookingRequest.passengers booking_req in
  let flight_id := BookingRequest.flight_id booking_req in
  try_except
    (flight <- query (select_flight flight_id) ;;
     flight <- lift (validate_flight flight passengers (now_validation env)) ;;
     let departure_dt := Flight.departure_time flight in
     price_per_passenger <-
       lift (calculate_dynamic_price (Flight.base_price flight)
               (Flight.seats_remaining flight) (Flight.total_seats flight)
               (Flight.demand_factor flight) departure_dt (now_pricing env)) ;;
     let total_price := round (price_per_passenger * inject_Z (len passengers)) 2 in
     let pnr := "PNR" ++ uuid4_hex8 env in
     booking_id <- insert_booking (BookingRequest.user_id booking_req) flight_id pnr
                     total_price (BookingRequest.contact_email booking_req)
                     (BookingRequest.contact_phone booking_req) (current_timestamp env) ;;
     insert_passengers booking_id flight_id passengers ;;
     update_flight_inventory flight_id (- len passengers) (now_inventory env) ;;
     let payment_ref := "PAY_" ++ token_hex8 env in
     let payment_status :=
       if payment_success env then Payment.SUCCESS else Payment.FAILED in
     execute (sql_insert_payment booking_id payment_ref
                (BookingRequest.payment_method booking_req) total_price payment_status) ;;
     (if negb (payment_success env)
      then rollback ;; raise (HTTPException 402 "Payment failed. Please try again.")
      else ret tt) ;;
     execute (sql_confirm_booking payment_ref booking_id) ;;
     commit ;;
     ret {| resp_status := "CONFIRMED"; resp_pnr := pnr; resp_booking_id := booking_id;
            resp_payment_reference := payment_ref; resp_price_paid := total_price;
            resp_message := "Booking confirmed successfully" |})
    (fun e => match e with
              | HTTPException _ _ => rollback ;; raise e
              | _ => rollback ;; raise (HTTPException 500 ("Booking failed: " ++ str_exn e))
              end).

(** The endpoint: [with_retry(do_checkout)] on a database nobody else holds
    locked, so the first attempt is the only one. *)
Definition checkout (db : DB) (booking_req : BookingRequest.t) (env : CheckoutEnv)
  : result CheckoutResponse * DB :=
  get_db (do_checkout booking_req env) db.

(** ** Cancellation (lines 1241-1324) *)

(** The payload handed to [generate_cancellation_receipt]. *)
Record ReceiptDetails := {
  receipt_price_paid : Q;
  receipt_refund_amount : Q;
  receipt_policy : string }.

(** [SELECT b.*, f.departure_time FROM booking b JOIN flight f
     ON f.id = b.flight_id WHERE b.pnr = ?]. *)
Definition select_booking_by_pnr (pnr : string) (db : DB) : option (Booking.row * Z) :=
  match find (fun b => Booking.pnr b =? pnr)%string (booking db) with
  | None => None
  | Some b =>
      match select_flight (Booking.flight_id b) db with
      | None => None
      | Some f => Some (b, Flight.departure_time f)
      end
  end.

(** [SELECT COUNT( * ) FROM passenger WHERE booking_id = ?]. *)
Definition count_passengers (booking_id : Z) (db : DB) : Z :=
  len (filter (fun p => Passenger.booking_id p =? booking_id) (passenger db)).

Definition sql_insert_cancelled_booking (pnr : string) (user_id flight_id : Z)
    (price_paid refund_amount : Q) (reason : option string) (db : DB) : result DB :=
  Ok (set_cancelled_booking db
        (cancelled_booking db ++
         [{| CancelledBooking.pnr := pnr; CancelledBooking.user_id := user_id;
             CancelledBooking.flight_id := flight_id;
             CancelledBooking.price_paid := price_paid;
             CancelledBooking.refund_amount := refund_amount;
             CancelledBooking.cancellation_reason := reason |}])%list).

Definition cancel_row (refund : option Q) (b : Booking.row) : Booking.row :=
  {| Booking.id := Booking.id b; Booking.user_id := Booking.user_id b;
     Booking.flight_id := Booking.flight_id b; Booking.pnr := Booking.pnr b;
     Booking.price_paid := Booking.price_paid b;
     Booking.booking_date := Booking.booking_date b;
     Booking.status := Booking.CANCELLED;
     Booking.payment_reference := Booking.payment_reference b;
     Booking.contact_email := Booking.contact_email b;
     Booking.contact_phone := Booking.contact_phone b;
     Booking.refund_amount := refund |}.

(** [UPDATE booking SET status = 'CANCELLED', refund_amount = ? WHERE id = ?]. *)
Definition sql_cancel_booking (refund_amount : Q) (booking_id : Z) (db : DB) : result DB :=
  Ok (set_booking db
        (map (fun b => if Booking.id b =? booking_id
                       then cancel_row (Some refund_amount) b else b)
             (booking db))
        (booking_seq db)).

Definition refund_row (p : Payment.row) : Payment.row :=
  {| Payment.booking_id := Payment.booking_id p;
     Payment.payment_reference := Payment.payment_reference p;
     Payment.payment_method := Payment.payment_method p;
     Payment.amount_paid := Payment.amount_paid p;
     Payment.payment_status := Payment.REFUNDED |}.

(** [UPDATE payment SET payment_status = 'REFUNDED' WHERE booking_id = ?]. *)
Definition sql_refund_payment (booking_id : Z) (db : DB) : result DB :=
  Ok (set_payment db
        (map (fun p => if Payment.booking_id p =? booking_id then refund_row p else p)
             (payment db))).

(** What one cancellation reads from its environment. *)
Record CancelEnv := {
  now_refund : Z;      (* datetime.now() in calculate_refund, line 1272 *)
  now_restore : Z      (* datetime.now() in the call at line 1302 *) }.

(** The body of [cancel_booking]; [user] is the authenticated principal.
    Receipt rendering is left to the document generator. *)
Definition do_cancel_booking (pnr : string) (reason : option string) (user : User.row)
    (env : CancelEnv) : M ReceiptDetails :=
  try_except
    (booking <- query (select_booking_by_pnr pnr) ;;
     match booking with
     | None => raise (HTTPException 404 "Booking not found")
     | Some (booking, departure_time) =>
         if negb (User.role_eqb (User.role user) User.ADMIN)
            && negb (Booking.user_id booking =? User.id user)
         then raise (HTTPException 403 "Unauthorized")
         else if negb (Booking.status_eqb (Booking.status booking) Booking.CONFIRMED)
         then raise (HTTPException 400 "Only confirmed bookings can be cancelled")
         else
           let departure_dt := departure_time in
           let '(refund_amount, refund_policy) :=
             calculate_refund (Booking.price_paid booking) departure_dt (now_refund env) in
           passenger_count <- query (count_passengers (Booking.id booking)) ;;
           execute (sql_insert_cancelled_booking pnr (Booking.user_id booking)
                      (Booking.flight_id booking) (Booking.price_paid booking)
                      refund_amount reason) ;;
           execute (sql_cancel_booking refund_amount (Booking.id booking)) ;;
           execute (sql_refund_payment (Booking.id booking)) ;;
           update_flight_inventory (Booking.flight_id booking) passenger_count
             (now_restore env) ;;
           commit ;;
           ret {| receipt_price_paid := Booking.price_paid booking;
                  receipt_refund_amount := refund_amount;
                  receipt_policy := refund_policy |}
     end)
    (fun e => match e with
              | HTTPException _ _ => rollback ;; raise e
              | _ => rollback ;; raise (HTTPException 500 ("Cancellation failed: " ++ str_exn e))
              end).

Definition cancel_booking (db : DB) (pnr : string) (reason : option string)
    (user : User.row) (env : CancelEnv) : result ReceiptDetails * DB :=
  get_db (do_cancel_booking pnr reason user env) db.

(** ** Expiry of unpaid bookings (lines 630-658) *)

(** What one sweep reads from its environment. *)
Record CleanupEnv := {
  cutoff : string;         (* (datetime.now() - timedelta(minutes=15)).isoformat() *)
  now_release : Z -> Z     (* datetime.now() while the booking with this id is released *) }.

(** [SELECT id, flight_id FROM booking WHERE status = 'PENDING' AND
     booking_date < ?]: TEXT values compare bytewise. *)
Definition select_expired (cutoff : string) (db : DB) : list (Z * Z) :=
  map (fun b => (Booking.id b, Booking.flight_id b))
      (filter (fun b => Booking.status_eqb (Booking.status b) Booking.PENDING
                        && (Booking.booking_date b <? cutoff)%string)
              (booking db)).

(** [UPDATE booking SET status = 'CANCELLED' WHERE id = ?]. *)
Definition sql_expire_booking (booking_id : Z) (db : DB) : result DB :=
  Ok (set_booking db
        (map (fun b => if Booking.id b =? booking_id
                       then cancel_row (Booking.refund_amount b) b else b)
             (booking db))
        (booking_seq db)).

(** The loop [for booking in expired] (lines 643-652). *)
Fixpoint release_expired (expired : list (Z * Z)) (now : Z -> Z) : M unit :=
  match expired with
  | [] => ret tt
  | (id, flight_id) :: rest =>
      count <- query (count_passengers id) ;;
      (if count >? 0 then update_flight_inventory flight_id count (now id) else ret tt) ;;
      execute (sql_expire_booking id) ;;
      release_expired rest now
  end.

(** What the job writes to the log. *)
Inductive log_record : Type :=
| INFO (msg : string)
| ERROR (msg : string).

(** [cleanup_expired_bookings]: one connection, one [try] around the whole
    sweep, one [commit] after the loop. *)
Definition cleanup_expired_bookings (db : DB) (env : CleanupEnv) : list log_record * DB :=
  match get_db (expired <- query (select_expired (cutoff env)) ;;
                release_expired expired (now_release env) ;;
                commit ;;
                ret expired) db with
  | (Ok expired, db') =>
      (match expired with
       | [] => []
       | _ => [INFO ("Cleaned up " ++ str_int (len expired) ++ " expired bookings")]
       end, db')
  | (Raise e, db') =>
      ([ERROR ("Database error: " ++ str_exn e);
        ERROR ("Error in cleanup job: " ++ str_exn e)], db')
  end.

(** ** The tiers in the words of the specification

    The specification gives the surcharges and the refund percentages as
    tiers of the exact fraction [seats_remaining / total_seats] and of the
    time left until departure.  They are written here on integers, the
    fraction cross-multiplied and the time in microseconds, to be compared
    with what the code computes. *)

Definition hour : Z := 3600 * 1000000.

(** Seat-scarcity surcharge: <=5% -> +60%; <=10% -> +40%; <=20% -> +20%;
    <=50% -> +10%; else +0%. *)
Definition seat_surcharge (seats_remaining total_seats : Z) : Q :=
  (if 100 * seats_remaining <=? 5 * total_seats then 0.60
   else if 100 * seats_remaining <=? 10 * total_seats then 0.40
   else if 100 * seats_remaining <=? 20 * total_seats then 0.20
   else if 100 * seats_remaining <=? 50 * total_seats then 0.10
   else 0.0)%Q.

(** Time-to-departure surcharge: negative -> +0%; <6h -> +30%; <24h -> +20%;
    <72h -> +10%; else +5%. *)
Definition time_surcharge (until_departure : Z) : Q :=
  (if until_departure <? 0 then 0
   else if until_departure <? 6 * hour then 0.30
   else if until_departure <? 24 * hour then 0.20
   else if until_departure <? 72 * hour then 0.10
   else 0.05)%Q.

(** Demand factor: <=5% -> 1.6; <=10% -> 1.4; <=20% -> 1.2; else 1.0. *)
Definition demand_tier (seats_remaining total_seats : Z) : Q :=
  (if 100 * seats_remaining <=? 5 * total_seats then 1.6
   else if 100 * seats_remaining <=? 10 * total_seats then 1.4
   else if 100 * seats_remaining <=? 20 * total_seats then 1.2
   else 1.0)%Q.

(** Refund tier: >72h -> 90%; >48h -> 80%; >24h -> 60%; >6h -> 40%;
    >0h -> 20%; <=0 -> 0%, with the policy label of the tier. *)
Definition refund_tier (until_departure : Z) : Q * string :=
  if until_departure >? 72 * hour then (0.90%Q, "More than 72 hours before departure")
  else if until_departure >? 48 * hour then (0.80%Q, "48-72 hours before departure")
  else if until_departure >? 24 * hour then (0.60%Q, "24-48 hours before departure")
  else if until_departure >? 6 * hour then (0.40%Q, "6-24 hours before departure")
  else if until_departure >? 0 then (0.20%Q, "Less than 6 hours before departure")
  else (0.0%Q, "Flight already departed - no refund").

(** ** The inventory store of the specification

    [reserve(flight_id, n)] and [release(flight_id, n)] are
    [update_flight_inventory] with the change [-n] and [+n]; run on their
    own, each is one transaction on one connection. *)
Inductive inventory_op : Type :=
| Reserve (n : Z) (now : Z)
| Release (n : Z) (now : Z).

Definition seats_change (op : inventory_op) : Z :=
  match op with Reserve n _ => - n | Release n _ => n end.

Definition op_now (op : inventory_op) : Z :=
  match op with Reserve _ now | Release _ now => now end.

Definition inventory_step (flight_id : Z) (db : DB) (op : inventory_op)
  : result unit * DB :=
  get_db (update_flight_inventory flight_id (seats_change op) (op_now op) ;; commit) db.

(** The databases after each operation of a sequence. *)
Fixpoint inventory_run (flight_id : Z) (db : DB) (ops : list inventory_op) : list DB :=
  match ops with
  | [] => []
  | op :: rest =>
      let db' := snd (inventory_step flight_id db op) in
      db' :: inventory_run flight_id db' rest
  end.

(** ** Concrete data used in the examples below *)

Definition alice : User.row :=
  {| User.id := 1; User.username := "alice"; User.role := User.CUSTOMER |}.

(** Flight 1: 10 seats, all free, base price 100, leaving at [80 * hour]. *)
Definition flight1 : Flight.row :=
  {| Flight.id := 1; Flight.base_price := 100; Flight.total_seats := 10;
     Flight.seats_remaining := 10; Flight.demand_factor := 1.0;
     Flight.departure_time := 80 * hour; Flight.status := Flight.SCHEDULED |}.

Definition db0 : DB :=
  {| user := [alice]; flight := [flight1]; booking := []; booking_seq := 0;
     passenger := []; flight_price_history := []; payment := [];
     cancelled_booking := [] |}.

Definition seat_1A : PassengerIn.t :=
  {| PassengerIn.full_name := "Ada Lovelace"; PassengerIn.date_of_birth := None;
     PassengerIn.passport_number := None;
     PassengerIn.passenger_type := Passenger.ADULT;
     PassengerIn.seat_number := "1A"; PassengerIn.seat_type := Passenger.WINDOW |}.

Definition request_1A : BookingRequest.t :=
  {| BookingRequest.flight_id := 1; BookingRequest.passengers := [seat_1A];
     BookingRequest.user_id := 1; BookingRequest.contact_email := "ada@example.org";
     BookingRequest.contact_phone := "+4412345678901";
     BookingRequest.payment_method := Payment.CARD |}.

(** An attempt at time [now] that draws the given identifiers. *)
Definition attempt (now : Z) (uuid token : string) (accepted : bool) : CheckoutEnv :=
  {| now_validation := now; now_pricing := now; now_inventory := now;
     current_timestamp := "2026-01-01 00:00:00";
     uuid4_hex8 := uuid; token_hex8 := token; payment_success := accepted |}.

Definition cancel_at (now : Z) : CancelEnv :=
  {| now_refund := now; now_restore := now |}.

(** The database after Ada's booking of seat 1A at time 0, and after the
    cancellation of that booking one hour later. *)
Definition db_booked : DB :=
  snd (checkout db0 request_1A (attempt 0 "ABCDEF12" "0123456789ABCDEF" true)).

Definition db_cancelled : DB :=
  snd (cancel_booking db_booked "PNRABCDEF12" None alice (cancel_at hour)).

(** Two unpaid bookings made at midnight, each holding one seat: booking 1
    on flight 7, which has no row in [flight], and booking 2 on flight 1. *)
Definition stale_booking (id flight_id : Z) (pnr : string) : Booking.row :=
  pending_row id 1 flight_id pnr 105.00 "ada@example.org" "+4412345678901"
    "2026-01-01 00:00:00".

Definition db_stale : DB :=
  {| user := [alice];
     flight := [with_inventory flight1 9 1.0];
     booking := [stale_booking 1 7 "PNR00000001"; stale_booking 2 1 "PNR00000002"];
     booking_seq := 2;
     passenger := [passenger_row 1 7 seat_1A; passenger_row 2 1 seat_1A];
     flight_price_history := []; payment := []; cancelled_booking := [] |}.

(** A sweep half an hour after midnight. *)
Definition sweep : CleanupEnv :=
  {| cutoff := "2026-01-01T00:15:00.000000"; now_release := fun _ => 0 |}.

(** The same database without booking 1. *)
Definition db_stale_2 : DB :=
  set_passenger (set_booking db_stale [stale_booking 2 1 "PNR00000002"] 2)
    [passenger_row 2 1 seat_1A].

(** ** Retrying on a locked database (lines 137-148) *)

(** What one call of the retried function does: it returns, raises
    [sqlite3.OperationalError], or raises something else. *)
Inductive call_outcome (A : Type) : Type :=
| Returns (a : A)
| OperationalError (msg : string)
| Raises (e : exn).
Arguments Returns {A} a.
Arguments OperationalError {A} msg.
Arguments Raises {A} e.

(** [str.lower()] and [needle in hay] on the ASCII text of SQLite's
    messages. *)
Definition lower_char (c : ascii) : ascii :=
  let n := N_of_ascii c in
  if ((65 <=? n) && (n <=? 90))%N then ascii_of_N (n + 32) else c.

Fixpoint lower (s : string) : string :=
  match s with
  | EmptyString => EmptyString
  | String c rest => String (lower_char c) (lower rest)
  end.

Fixpoint contains (needle hay : string) : bool :=
  String.prefix needle hay
  || match hay with
     | EmptyString => false
     | String _ rest => contains needle rest
     end.

(** The loop [for attempt in range(max_attempts)], from [attempt] on with
    [remaining] iterations left.  The function called is a state
    transformer, since two calls of it need not do the same; the result is
    what [with_retry] returns or raises ([None] when the loop ends without a
    call having returned: Python then returns [None]), the [time.sleep]
    durations in seconds, and the final state. *)
Fixpoint retry_loop {S A : Type} (func : S -> call_outcome A * S) (max_attempts : Z)
    (remaining : nat) (attempt : Z) (sleeps : list Q) (s : S)
  : option (call_outcome A) * list Q * S :=
  match remaining with
  | O => (None, sleeps, s)
  | Datatypes.S remaining' =>
      match func s with
      | (Returns a, s') => (Some (Returns a), sleeps, s')
      | (OperationalError msg, s') =>
          if contains "locked" (lower msg) && (attempt <? max_attempts - 1)
          then retry_loop func max_attempts remaining' (attempt + 1)
                 (sleeps ++ [0.1 * inject_Z (2 ^ attempt)]%Q)%list s'
          else (Some (OperationalError msg), sleeps, s')
      | (Raises e, s') => (Some (Raises e), sleeps, s')
      end
  end.

Definition with_retry {S A : Type} (func : S -> call_outcome A * S) (max_attempts : Z)
    (s : S) : option (call_outcome A) * list Q * S :=
  retry_loop func max_attempts (Z.to_nat max_attempts) 0 [] s.

(** ** The demand refresh job (lines 660-675) *)

Definition with_demand_factor (f : Flight.row) (demand_factor : Q) : Flight.row :=
  with_inventory f (Flight.seats_remaining f) demand_factor.

(** [UPDATE flight SET demand_factor = ? WHERE id = ?], under the CHECK
    constraint on [demand_factor]. *)
Definition sql_update_demand_factor (factor : Q) (flight_id : Z) (db : DB) : result DB :=
  let t := map (fun f => if Flight.id f =? flight_id then with_demand_factor f factor else f)
               (flight db) in
  if forallb (fun f => negb (Flight.id f =? flight_id)
                       || (Qle_bool 0.5 (Flight.demand_factor f)
                           && Qle_bool (Flight.demand_factor f) 2.0)) t
  then Ok (set_flight db t)
  else Raise (IntegrityError "CHECK constraint failed: flight").

(** [SELECT id FROM flight WHERE status = 'SCHEDULED']. *)
Definition select_scheduled (db : DB) : list Z :=
  map Flight.id (filter (fun f => Flight.is_scheduled (Flight.status f)) (flight db)).

(** The loop [for fid in flights]; [uniform k] is the value of the [k]-th
    call of [random.uniform(0.95, 1.15)]. *)
Fixpoint refresh_factors (flights : list Z) (uniform : nat -> Q) (k : nat) : M unit :=
  match flights with
  | [] => ret tt
  | fid :: rest =>
      let factor := round (uniform k) 2 in
      execute (sql_update_demand_factor factor fid) ;;
      refresh_factors rest uniform (Datatypes.S k)
  end.

Definition update_demand_factors (db : DB) (uniform : nat -> Q) : list log_record * DB :=
  match get_db (flights <- query select_scheduled ;;
                refresh_factors flights uniform 0 ;;
                commit ;;
                ret flights) db with
  | (Ok flights, db') =>
      ([INFO ("Updated demand factors for " ++ str_int (len flights) ++ " flights")], db')
  | (Raise e, db') =>
      ([ERROR ("Database error: " ++ str_exn e);
        ERROR ("Error updating demand: " ++ str_exn e)], db')
  end.

(** ** Read endpoints *)

(** [get_flight] (lines 885-914): the flight row and its current price. *)
Definition get_flight (db : DB) (flight_id now : Z) : result (Flight.row * Q) :=
  match select_flight flight_id db with
  | None => Raise (HTTPException 404 "Flight not found")
  | Some flight =>
      match calculate_dynamic_price (Flight.base_price flight)
              (Flight.seats_remaining flight) (Flight.total_seats flight)
              (Flight.demand_factor flight) (Flight.departure_time flight) now with
      | Ok current_price => Ok (flight, current_price)
      | Raise e => Raise e
      end
  end.

(** [get_seat_map] (lines 916-940). *)
Record SeatMap := {
  map_flight_id : Z;
  map_total_seats : Z;
  map_seats_remaining : Z;
  booked_seats : list (string * Passenger.seat_type_t * string) }.

Definition get_seat_map (db : DB) (flight_id : Z) : result SeatMap :=
  match select_flight flight_id db with
  | None => Raise (HTTPException 404 "Flight not found")
  | Some flight =>
      Ok {| map_flight_id := flight_id;
            map_total_seats := Flight.total_seats flight;
            map_seats_remaining := Flight.seats_remaining flight;
            booked_seats :=
              map (fun p => (Passenger.seat_number p, Passenger.seat_type p,
                             Passenger.full_name p))
                  (filter (fun p => Passenger.flight_id p =? flight_id) (passenger db)) |}
  end.

(** [get_booking] (lines 1169-1201): the booking found by its PNR, for its
    owner or an administrator, with its passengers. *)
Definition get_booking (db : DB) (pnr : string) (usr : User.row)
  : result (Booking.row
            * list (string * string * Passenger.seat_type_t * Passenger.passenger_type_t)) :=
  match select_booking_by_pnr pnr db with
  | None => Raise (HTTPException 404 "Booking not found")
  | Some (booking, _) =>
      if negb (User.role_eqb (User.role usr) User.ADMIN)
         && negb (Booking.user_id booking =? User.id usr)
      then Raise (HTTPException 403 "Unauthorized")
      else
        Ok (booking,
            map (fun p => (Passenger.full_name p, Passenger.seat_number p,
                           Passenger.seat_type p, Passenger.passenger_type p))
                (filter (fun p => Passenger.booking_id p =? Booking.id booking)
                        (passenger db)))
  end.

(** ** Seat accounting

    The invariant the transactions keep between the three tables they
    write: ids are keys, every passenger row belongs to a booking on the
    same flight, and the free seats of a flight are its seats less the
    passenger rows of its bookings that are still PENDING or CONFIRMED. *)

Definition live (s : Booking.status_t) : bool :=
  match s with
  | Booking.PENDING | Booking.CONFIRMED => true
  | _ => false
  end.

Definition booking_live (db : DB) (booking_id : Z) : bool :=
  existsb (fun b => (Booking.id b =? booking_id) && live (Booking.status b)) (booking db).

Definition seats_held (db : DB) (flight_id : Z) : Z :=
  len (filter (fun p => (Passenger.flight_id p =? flight_id)
                        && booking_live db (Passenger.booking_id p))
              (passenger db)).

Definition accounted (db : DB) : Prop :=
  NoDup (map Flight.id (flight db))
  /\ NoDup (map Booking.id (booking db))
  /\ (forall p, In p (passenger db) ->
        exists b, In b (booking db)
                  /\ Booking.id b = Passenger.booking_id p
                  /\ Booking.flight_id b = Passenger.flight_id p)
  /\ (forall f, In f (flight db) ->
        0 <= Flight.seats_remaining f
        /\ Flight.seats_remaining f + seats_held db (Flight.id f) = Flight.total_seats f).

(** No two rows of [passenger] share [(flight_id, seat_number)]: the unique
    index [idx_unique_seat_per_flight]. *)
Definition seats_unique (db : DB) : Prop :=
  NoDup (map (fun p => (Passenger.flight_id p, Passenger.seat_number p)) (passenger db)).

(** The body of the sweep's loop for one expired booking (lines 644-652). *)
Definition release_one (id flight_id : Z) (now : Z -> Z) : M unit :=
  count <- query (count_passengers id) ;;
  (if count >? 0 then update_flight_inventory flight_id count (now id) else ret tt) ;;
  execute (sql_expire_booking id).

(** What the sweep's UPDATE does to a booking row, for one id and for the
    ids of a list. *)
Definition expire_row (id : Z) (b : Booking.row) : Booking.row :=
  if Booking.id b =? id then cancel_row (Booking.refund_amount b) b else b.

Definition expire_rows (ids : list Z) (b : Booking.row) : Booking.row :=
  if existsb (Z.eqb (Booking.id b)) ids then cancel_row (Booking.refund_amount b) b else b.

(** The bookings a sweep selects: PENDING and stamped before the cutoff. *)
Definition expired (cutoff : string) (b : Booking.row) : bool :=
  Booking.status_eqb (Booking.status b) Booking.PENDING
  && (Booking.booking_date b <? cutoff)%string.

(** The sweep logged no error. *)
Definition sweep_ok (log : list log_record) : bool :=
  forallb (fun r => match r with INFO _ => true | ERROR _ => false end) log.

(** A function that counts its calls, and the first [k] pauses of the
    exponential backoff from attempt [from] on. *)
Definition counted {S A : Type} (func : S -> call_outcome A * S)
  : S * Z -> call_outcome A * (S * Z) :=
  fun '(s, n) => let '(o, s') := func s in (o, (s', n + 1)).

Definition backoff (from : Z) (k : nat) : list Q :=
  map (fun i => 0.1 * inject_Z (2 ^ (from + Z.of_nat i)))%Q (seq 0 k).

Definition locked_error {A} (o : option (call_outcome A)) : bool :=
  match o with
  | Some (OperationalError msg) => contains "locked" (lower msg)
  | _ => false
  end.

(** A PENDING booking stamped one second before midnight. *)
Definition late_booking : Booking.row :=
  pending_row 3 1 1 "PNR00000003" 105.00 "ada@example.org" "+4412345678901"
    "2026-01-01 23:59:59".

Definition db_late : DB := set_booking db0 [late_booking] 3.

(** The transactions that write the seat tables, and the database a
    sequence of them leaves. *)
Inductive transaction : Type :=
| Checkout (req : BookingRequest.t) (env : CheckoutEnv)
| Cancel (pnr : string) (reason : option string) (usr : User.row) (env : CancelEnv)
| Sweep (env : CleanupEnv)
| RefreshDemand (uniform : nat -> Q).

Definition run_transaction (db : DB) (t : transaction) : DB :=
  match t with
  | Checkout req env => snd (checkout db req env)
  | Cancel pnr reason usr env => snd (cancel_booking db pnr reason usr env)
  | Sweep env => snd (cleanup_expired_bookings db env)
  | RefreshDemand uniform => snd (update_demand_factors db uniform)
  end.

Definition seat_key (p : Passenger.row) : Z * string :=
  (Passenger.flight_id p, Passenger.seat_number p).

(** The seat counts of a flight row, and what the seat map and the booking
    view show of a passenger of a request. *)
Definition seat_counts (f : Flight.row) : Z * Z * Z :=
  (Flight.id f, Flight.seats_remaining f, Flight.total_seats f).

Definition seat_entry (p : PassengerIn.t) : string * Passenger.seat_type_t * string :=
  (PassengerIn.seat_number p, PassengerIn.seat_type p, PassengerIn.full_name p).

Definition passenger_entry (p : PassengerIn.t)
  : string * string * Passenger.seat_type_t * Passenger.passenger_type_t :=
  (PassengerIn.full_name p, PassengerIn.seat_number p, PassengerIn.seat_type p,
   PassengerIn.passenger_type p).

(** A database call that finds the database locked on its first two calls
    and returns on the third; the state is the number of calls made. *)
Definition locked_twice (calls : Z) : call_outcome Z * Z :=
  if calls <? 2 then (OperationalError "database is locked", calls + 1)
  else (Returns calls, calls + 1).

(** A call that raises the 402 of a declined payment. *)
Definition declined (calls : Z) : call_outcome Z * Z :=
  (Raises (HTTPException 402 "Payment failed. Please try again."), calls + 1).

(** Ada books seat 1A, cancels, and the two jobs run. *)
Definition day_of_ada : list transaction :=
  [Checkout request_1A (attempt 0 "ABCDEF12" "0123456789ABCDEF" true);
   Cancel "PNRABCDEF12" None alice (cancel_at hour);
   Sweep sweep;
   RefreshDemand (fun _ => 1.0%Q)].

(** * Properties *)

(** ** Arithmetic of the model *)

Lemma Qle_bool_frac (n d : Z) (q : Q) :
  0 < d ->
  Qle_bool (inject_Z n / inject_Z d) q = (n * Zpos (Qden q) <=? Qnum q * d).
Proof.
  intros Hd.
  assert (Hd' : (0 < inject_Z d)%Q) by (unfold Qlt; simpl; lia).
  apply eq_true_iff_eq. rewrite Qle_bool_iff, Z.leb_le.
  rewrite <- (Qmult_le_r _ _ (inject_Z d) Hd').
  assert (E : (inject_Z n / inject_Z d * inject_Z d == inject_Z n)%Q).
  { field. intro H. rewrite H in Hd'. now apply Qlt_irrefl in Hd'. }
  rewrite E. unfold Qle. simpl. rewrite Pos.mul_1_r. lia.
Qed.

Lemma frac_Qle_bool (n d : Z) (q : Q) :
  0 < d ->
  Qle_bool q (inject_Z n / inject_Z d) = (Qnum q * d <=? n * Zpos (Qden q)).
Proof.
  intros Hd.
  assert (Hd' : (0 < inject_Z d)%Q) by (unfold Qlt; simpl; lia).
  apply eq_true_iff_eq. rewrite Qle_bool_iff, Z.leb_le.
  rewrite <- (Qmult_le_r _ _ (inject_Z d) Hd').
  assert (E : (inject_Z n / inject_Z d * inject_Z d == inject_Z n)%Q).
  { field. intro H. rewrite H in Hd'. now apply Qlt_irrefl in Hd'. }
  rewrite E. unfold Qle. simpl. rewrite Pos.mul_1_r. lia.
Qed.

Lemma hours_between_frac (departure_time now : Z) :
  (hours_between departure_time now == inject_Z (departure_time - now) / inject_Z hour)%Q.
Proof.
  unfold hours_between, hour. change (inject_Z (3600 * 1000000)) with 3600000000%Q.
  field.
Qed.

Lemma hours_lt (departure_time now k : Z) :
  Qlt_bool (hours_between departure_time now) (inject_Z k)
  = (departure_time - now <? k * hour).
Proof.
  unfold Qlt_bool. rewrite (Qleb_comp _ _ (Qeq_refl _) _ _ (hours_between_frac _ _)).
  rewrite frac_Qle_bool by reflexivity. simpl Qnum. simpl Qden.
  rewrite Z.ltb_antisym. f_equal. f_equal; lia.
Qed.

Lemma lt_hours (departure_time now k : Z) :
  Qlt_bool (inject_Z k) (hours_between departure_time now)
  = (departure_time - now >? k * hour).
Proof.
  unfold Qlt_bool. rewrite (Qleb_comp _ _ (hours_between_frac _ _) _ _ (Qeq_refl _)).
  rewrite Qle_bool_frac by reflexivity. simpl Qnum. simpl Qden.
  rewrite Z.gtb_ltb, Z.ltb_antisym. f_equal. f_equal; lia.
Qed.

Lemma seat_factor_tier (seats_remaining total_seats : Z) :
  0 < total_seats ->
  (if Qle_bool (inject_Z seats_remaining / inject_Z total_seats) 0.05 then 0.60
   else if Qle_bool (inject_Z seats_remaining / inject_Z total_seats) 0.10 then 0.40
   else if Qle_bool (inject_Z seats_remaining / inject_Z total_seats) 0.20 then 0.20
   else if Qle_bool (inject_Z seats_remaining / inject_Z total_seats) 0.50 then 0.10
   else 0.0)%Q
  = seat_surcharge seats_remaining total_seats.
Proof.
  intros H. unfold seat_surcharge. rewrite !Qle_bool_frac by exact H. simpl Qnum. simpl Qden.
  rewrite !(Z.mul_comm seats_remaining). reflexivity.
Qed.

Lemma time_factor_tier (departure_time now : Z) :
  (if Qlt_bool (hours_between departure_time now) 0 then 0
   else if Qlt_bool (hours_between departure_time now) 6 then 0.30
   else if Qlt_bool (hours_between departure_time now) 24 then 0.20
   else if Qlt_bool (hours_between departure_time now) 72 then 0.10
   else 0.05)%Q
  = time_surcharge (departure_time - now).
Proof.
  unfold time_surcharge.
  rewrite (hours_lt _ _ 0), (hours_lt _ _ 6), (hours_lt _ _ 24), (hours_lt _ _ 72).
  reflexivity.
Qed.

(** The code's pricing function, in the tiers of the specification. *)
Lemma calculate_dynamic_price_eq base_price seats_remaining total_seats demand_factor
    departure_time now :
  0 < total_seats ->
  calculate_dynamic_price base_price seats_remaining total_seats demand_factor
    departure_time now
  = Ok (round (base_price
               * (1 + seat_surcharge seats_remaining total_seats
                  + time_surcharge (departure_time - now))
               * demand_factor) 2).
Proof.
  intros H. unfold calculate_dynamic_price, py_truediv.
  destruct (total_seats <=? 0) eqn:E; [apply Z.leb_le in E; lia|].
  destruct (total_seats =? 0) eqn:E0; [apply Z.eqb_eq in E0; lia|].
  cbv zeta. rewrite seat_factor_tier by exact H. rewrite time_factor_tier. reflexivity.
Qed.

Lemma round_half_even_mono (x y : Q) :
  (x <= y)%Q -> round_half_even x <= round_half_even y.
Proof.
  intros Hxy. pose proof (Qfloor_resp_le _ _ Hxy) as Hf.
  unfold round_half_even, Qlt_bool.
  destruct (Z.eq_dec (Qfloor x) (Qfloor y)) as [E|N].
  - rewrite <- E.
    assert (Hr : (x - inject_Z (Qfloor x) <= y - inject_Z (Qfloor x))%Q) by lra.
    destruct (Qle_bool 0.5 (x - inject_Z (Qfloor x))) eqn:A1;
    destruct (Qle_bool (x - inject_Z (Qfloor x)) 0.5) eqn:A2;
    destruct (Qle_bool 0.5 (y - inject_Z (Qfloor x))) eqn:B1;
    destruct (Qle_bool (y - inject_Z (Qfloor x)) 0.5) eqn:B2;
    simpl; try destruct (Z.even (Qfloor x)); try lia;
    repeat match goal with
           | H : Qle_bool _ _ = true |- _ => apply Qle_bool_iff in H
           | H : Qle_bool ?a ?b = false |- _ =>
               assert (~ (a <= b)%Q) by (rewrite <- Qle_bool_iff; congruence); clear H
           end; exfalso; lra.
  - assert (Hlt : Qfloor x + 1 <= Qfloor y) by lia.
    destruct (negb (Qle_bool 0.5 (x - inject_Z (Qfloor x))));
    destruct (negb (Qle_bool (x - inject_Z (Qfloor x)) 0.5));
    destruct (negb (Qle_bool 0.5 (y - inject_Z (Qfloor y))));
    destruct (negb (Qle_bool (y - inject_Z (Qfloor y)) 0.5));
    destruct (Z.even (Qfloor x)); destruct (Z.even (Qfloor y)); lia.
Qed.

Lemma round_2_mono (x y : Q) : (x <= y)%Q -> (round x 2 <= round y 2)%Q.
Proof.
  intros H. unfold round. change (inject_Z (10 ^ 2)) with 100%Q.
  assert (H' : (x * 100 <= y * 100)%Q) by lra.
  apply round_half_even_mono in H'.
  apply Qmult_le_compat_r; [|unfold Qle; simpl; lia].
  unfold Qle. simpl. lia.
Qed.

Lemma seat_surcharge_antitone (s1 s2 total_seats : Z) :
  s2 <= s1 -> (seat_surcharge s1 total_seats <= seat_surcharge s2 total_seats)%Q.
Proof.
  intros H. unfold seat_surcharge.
  repeat match goal with
         | |- context [?a <=? ?b] => destruct (Z.leb_spec a b)
         end; try lia; unfold Qle; simpl; lia.
Qed.

(** ** The pricing engine *)







(** ** The inventory store *)

Lemma find_flight_map (h : Flight.row -> Flight.row) (k : Z) (l : list Flight.row) :
  (forall f, Flight.id (h f) = Flight.id f) ->
  find (fun f => Flight.id f =? k) (map h l)
  = option_map h (find (fun f => Flight.id f =? k) l).
Proof.
  intros Hh. induction l as [|f l IH]; simpl; [reflexivity|].
  rewrite Hh. destruct (Flight.id f =? k); [reflexivity|exact IH].
Qed.

Lemma find_flight_some (k : Z) (l : list Flight.row) (f : Flight.row) :
  find (fun f => Flight.id f =? k) l = Some f -> In f l /\ Flight.id f = k.
Proof.
  intros H. apply find_some in H. destruct H as [H1 H2].
  split; [exact H1|now apply Z.eqb_eq].
Qed.

Lemma inventory_update_id flight_id n d f :
  Flight.id (inventory_update flight_id n d f) = Flight.id f.
Proof. unfold inventory_update. now destruct (Flight.id f =? flight_id). Qed.

Lemma demand_factor_tier (new_remaining total_seats : Z) :
  0 < total_seats ->
  (if Qle_bool (inject_Z new_remaining / inject_Z total_seats) 0.05 then 1.6
   else if Qle_bool (inject_Z new_remaining / inject_Z total_seats) 0.10 then 1.4
   else if Qle_bool (inject_Z new_remaining / inject_Z total_seats) 0.20 then 1.2
   else 1.0)%Q
  = demand_tier new_remaining total_seats.
Proof.
  intros H. unfold demand_tier. rewrite !Qle_bool_frac by exact H. simpl Qnum. simpl Qden.
  rewrite !(Z.mul_comm new_remaining). reflexivity.
Qed.

Lemma calculate_dynamic_price_total b s t d dep now :
  exists price, calculate_dynamic_price b s t d dep now = Ok price.
Proof.
  unfold calculate_dynamic_price, py_truediv.
  destruct (Z.eqb_spec (if t <=? 0 then 1 else t) 0) as [E|E].
  - destruct (Z.leb_spec t 0); lia.
  - eexists. reflexivity.
Qed.

(** What a call of [update_flight_inventory] does to the connection: a
    raised exception leaves it as it was; a return has replaced the
    counters of the flight and appended one price-history row. *)
Lemma update_flight_inventory_spec (flight_id change now : Z) (c : conn) :
  match update_flight_inventory flight_id change now c with
  | (Raise e, c') =>
      c' = c
      /\ (select_flight flight_id (work c) = None ->
          e = HTTPException 404 "Flight not found")
      /\ (forall f, select_flight flight_id (work c) = Some f ->
                    Flight.seats_remaining f + change < 0 ->
                    e = HTTPException 400 "Not enough seats available")
  | (Ok _, c') =>
      exists f price,
        select_flight flight_id (work c) = Some f
        /\ 0 <= Flight.seats_remaining f + change
        /\ 0 < Flight.total_seats f
        /\ let n := Z.min (Flight.total_seats f) (Flight.seats_remaining f + change) in
           let d := demand_tier n (Flight.total_seats f) in
           calculate_dynamic_price (Flight.base_price f) n (Flight.total_seats f) d
             (Flight.departure_time f) now = Ok price
           /\ committed c' = committed c
           /\ work c'
              = set_flight_price_history
                  (set_flight (work c) (map (inventory_update flight_id n d) (flight (work c))))
                  (flight_price_history (work c) ++
                   [history_row flight_id price d n])%list
  end.
Proof.
  unfold update_flight_inventory, bind, query.
  destruct (select_flight flight_id (work c)) as [f|] eqn:Hf.
  2:{ unfold raise. split; [reflexivity|]. split; [reflexivity|discriminate]. }
  destruct (Z.ltb_spec (Flight.seats_remaining f + change) 0) as [Hneg|Hneg].
  { unfold raise. split; [reflexivity|]. split; [discriminate|]. reflexivity. }
  set (n := if Flight.seats_remaining f + change >? Flight.total_seats f
            then Flight.total_seats f else Flight.seats_remaining f + change).
  assert (Hn : n = Z.min (Flight.total_seats f) (Flight.seats_remaining f + change)).
  { unfold n. rewrite Z.gtb_ltb.
    destruct (Z.ltb_spec (Flight.total_seats f) (Flight.seats_remaining f + change)); lia. }
  unfold lift, py_truediv.
  destruct (Z.eqb_spec (Flight.total_seats f) 0) as [Hz|Hz].
  { split; [reflexivity|]. split; [discriminate|].
    intros f' E. injection E as <-. lia. }
  set (d := (if Qle_bool (inject_Z n / inject_Z (Flight.total_seats f)) 0.05 then 1.6
             else if Qle_bool (inject_Z n / inject_Z (Flight.total_seats f)) 0.10 then 1.4
             else if Qle_bool (inject_Z n / inject_Z (Flight.total_seats f)) 0.20 then 1.2
             else 1.0)%Q).
  unfold execute at 1. unfold sql_update_flight.
  destruct (forallb _ (map (inventory_update flight_id n d) (flight (work c)))) eqn:Hchk.
  2:{ split; [reflexivity|]. split; [discriminate|].
      intros f' E. injection E as <-. lia. }
  (* the row that was read passes the CHECK constraints, so the flight has seats *)
  assert (Hts : 0 < Flight.total_seats f).
  { destruct (find_flight_some _ _ _ Hf) as [Hin Hid].
    rewrite forallb_forall in Hchk.
    specialize (Hchk (inventory_update flight_id n d f) (in_map _ _ _ Hin)).
    rewrite inventory_update_id, Hid, Z.eqb_refl in Hchk. simpl in Hchk.
    unfold inventory_update in Hchk. rewrite Hid, Z.eqb_refl in Hchk.
    unfold flight_checks in Hchk. simpl in Hchk.
    rewrite !andb_true_iff in Hchk. destruct Hchk as [[_ H1] H2].
    apply Z.leb_le in H1, H2. lia. }
  destruct (calculate_dynamic_price_total (Flight.base_price f) n (Flight.total_seats f) d
              (Flight.departure_time f) now) as [price Hp].
  rewrite Hp. unfold execute, sql_insert_price_history. simpl.
  exists f, price. rewrite <- Hn.
  assert (Hd : d = demand_tier n (Flight.total_seats f)).
  { unfold d. now apply demand_factor_tier. }
  rewrite <- Hd. repeat split; try assumption; lia.
Qed.

Lemma select_flight_updated flight_id n d db hist f :
  select_flight flight_id db = Some f ->
  select_flight flight_id
    (set_flight_price_history
       (set_flight db (map (inventory_update flight_id n d) (flight db))) hist)
  = Some (with_inventory f n d).
Proof.
  unfold select_flight. simpl. intros Hf.
  rewrite find_flight_map by apply inventory_update_id.
  rewrite Hf. simpl. destruct (find_flight_some _ _ _ Hf) as [_ Hid].
  unfold inventory_update. now rewrite Hid, Z.eqb_refl.
Qed.

Lemma inventory_step_spec (flight_id : Z) (db : DB) (op : inventory_op) :
  match inventory_step flight_id db op with
  | (Raise e, db') =>
      db' = db
      /\ (forall f, select_flight flight_id db = Some f ->
                    Flight.seats_remaining f + seats_change op < 0 ->
                    e = HTTPException 400 "Not enough seats available")
  | (Ok _, db') =>
      exists f price,
        select_flight flight_id db = Some f
        /\ 0 <= Flight.seats_remaining f + seats_change op
        /\ 0 < Flight.total_seats f
        /\ let n := Z.min (Flight.total_seats f)
                      (Flight.seats_remaining f + seats_change op) in
           let d := demand_tier n (Flight.total_seats f) in
           calculate_dynamic_price (Flight.base_price f) n (Flight.total_seats f) d
             (Flight.departure_time f) (op_now op) = Ok price
           /\ select_flight flight_id db' = Some (with_inventory f n d)
           /\ flight_price_history db'
              = (flight_price_history db ++
                 [history_row flight_id price d n])%list
  end.
Proof.
  unfold inventory_step, get_db, try_except, bind.
  pose proof (update_flight_inventory_spec flight_id (seats_change op) (op_now op)
                {| committed := db; work := db |}) as H.
  destruct (update_flight_inventory flight_id (seats_change op) (op_now op)
              {| committed := db; work := db |}) as [[u|e] c'].
  - destruct H as (f & price & Hf & H0 & Ht & Hp & Hc & Hw). simpl in *.
    exists f, price. repeat split; try assumption.
    + rewrite Hw. now apply select_flight_updated.
    + rewrite Hw. reflexivity.
  - destruct H as (-> & _ & H). simpl. split; [reflexivity|exact H].
Qed.

Lemma inventory_step_keeps (T flight_id : Z) (db : DB) (op : inventory_op) :
  (exists f, select_flight flight_id db = Some f
             /\ 0 <= Flight.seats_remaining f <= Flight.total_seats f
             /\ Flight.total_seats f = T) ->
  exists f, select_flight flight_id (snd (inventory_step flight_id db op)) = Some f
            /\ 0 <= Flight.seats_remaining f <= Flight.total_seats f
            /\ Flight.total_seats f = T.
Proof.
  intros (f & Hf & Hinv & HT).
  pose proof (inventory_step_spec flight_id db op) as H.
  destruct (inventory_step flight_id db op) as [[u|e] db'].
  - destruct H as (f0 & price & Hf0 & H0 & Ht & _ & Hsel & _). simpl.
    rewrite Hf in Hf0. injection Hf0 as <-.
    eexists. split; [exact Hsel|]. simpl. lia.
  - destruct H as [-> _]. simpl. now exists f.
Qed.



(** ** Transactions of the checkout *)

Lemma insert_booking_spec user_id flight_id pnr price email phone date (c : conn) :
  match insert_booking user_id flight_id pnr price email phone date c with
  | (Ok id, c') =>
      id = Z.max (booking_seq (work c)) (max_rowid (booking (work c))) + 1
      /\ committed c' = committed c
      /\ work c'
         = set_booking (work c)
             (booking (work c) ++
              [pending_row id user_id flight_id pnr price email phone date])%list id
  | (Raise e, c') => c' = c /\ exists msg, e = IntegrityError msg
  end.
Proof.
  unfold insert_booking, sql_insert_booking.
  destruct (negb (Qle_bool 0 price)); [eauto|].
  destruct (existsb _ (booking (work c))); [eauto|].
  destruct (negb _); [eauto|].
  simpl. auto.
Qed.

Lemma insert_passengers_spec booking_id flight_id passengers (c : conn) :
  match insert_passengers booking_id flight_id passengers c with
  | (Ok _, c') =>
      committed c' = committed c
      /\ work c'
         = set_passenger (work c)
             (passenger (work c) ++ map (passenger_row booking_id flight_id) passengers)%list
  | (Raise e, c') => committed c' = committed c
  end.
Proof.
  revert c. induction passengers as [|p ps IH]; intros c; simpl.
  - unfold ret. split; [reflexivity|]. rewrite app_nil_r. now destruct (work c).
  - unfold bind, try_except, execute, sql_insert_passenger.
    destruct (seat_taken flight_id (PassengerIn.seat_number p) (passenger (work c))).
    + reflexivity.
    + specialize (IH {| committed := committed c;
                        work := set_passenger (work c)
                                  (passenger (work c) ++ [passenger_row booking_id flight_id p]) |}).
      destruct (insert_passengers booking_id flight_id ps _) as [[u|e] c'].
      * destruct IH as [IH1 IH2]. split; [exact IH1|]. rewrite IH2. simpl.
        now rewrite <- app_assoc.
      * exact IH.
Qed.

(** A seat that is taken stops the loop over the passengers: with a row of
    [passenger] on the flight for one of the requested seat numbers, the loop
    raises. *)
Lemma insert_passengers_taken booking_id flight_id passengers (c : conn) :
  (exists p, In p passengers
             /\ seat_taken flight_id (PassengerIn.seat_number p) (passenger (work c)) = true) ->
  exists e c', insert_passengers booking_id flight_id passengers c = (Raise e, c').
Proof.
  revert c. induction passengers as [|p ps IH]; intros c (q & Hin & Hq).
  - destruct Hin.
  - simpl. unfold bind, try_except, execute, sql_insert_passenger.
    destruct (seat_taken flight_id (PassengerIn.seat_number p) (passenger (work c))) eqn:Hp.
    + unfold raise. eauto.
    + destruct Hin as [->|Hin]; [congruence|].
      apply IH. exists q. split; [exact Hin|]. simpl.
      unfold seat_taken in *. rewrite existsb_app, Hq. reflexivity.
Qed.

(** Symbolic runs of a transaction advance one call at a time: a case
    analysis on the next call, with what its specification says of it. *)
Tactic Notation "run_insert_booking" ident(id) ident(c) ident(H) :=
  match goal with
  | |- context [insert_booking ?a1 ?a2 ?a3 ?a4 ?a5 ?a6 ?a7 ?c0] =>
      pose proof (insert_booking_spec a1 a2 a3 a4 a5 a6 a7 c0) as H;
      destruct (insert_booking a1 a2 a3 a4 a5 a6 a7 c0) as [[id|?e] c]
  end.

Tactic Notation "run_insert_passengers" ident(c) ident(H) :=
  match goal with
  | |- context [insert_passengers ?a1 ?a2 ?a3 ?c0] =>
      pose proof (insert_passengers_spec a1 a2 a3 c0) as H;
      destruct (insert_passengers a1 a2 a3 c0) as [[?u|?e] c]
  end.

Tactic Notation "run_update_flight_inventory" ident(c) ident(H) :=
  match goal with
  | |- context [update_flight_inventory ?a1 ?a2 ?a3 ?c0] =>
      pose proof (update_flight_inventory_spec a1 a2 a3 c0) as H;
      destruct (update_flight_inventory a1 a2 a3 c0) as [[?u|?e] c]
  end.

(** The start of a checkout on a fresh connection. *)
Tactic Notation "start_checkout" constr(db) ident(c0) :=
  unfold checkout, get_db, do_checkout;
  set (c0 := {| committed := db; work := db |});
  unfold try_except, bind, query, lift, execute, sql_insert_payment; cbv zeta;
  change (work c0) with db.

Lemma validate_flight_ok flight passengers now f :
  validate_flight flight passengers now = Ok f -> flight = Some f.
Proof.
  unfold validate_flight. destruct flight as [f0|]; [|discriminate].
  repeat match goal with |- context [if ?b then _ else _] => destruct b end;
    congruence.
Qed.

(** What a checkout leaves behind: nothing when it raises, and when it
    returns, the rows of the confirmed booking. *)
Lemma checkout_cases (db : DB) (req : BookingRequest.t) (env : CheckoutEnv) :
  match checkout db req env with
  | (Raise e, db') => db' = db
  | (Ok r, db') =>
      exists f price_per_passenger new_price,
        let passengers := BookingRequest.passengers req in
        let flight_id := BookingRequest.flight_id req in
        let id := Z.max (booking_seq db) (max_rowid (booking db)) + 1 in
        let total_price := round (price_per_passenger * inject_Z (len passengers)) 2 in
        let pnr := "PNR" ++ uuid4_hex8 env in
        let payment_ref := "PAY_" ++ token_hex8 env in
        let n := Z.min (Flight.total_seats f) (Flight.seats_remaining f - len passengers) in
        let d := demand_tier n (Flight.total_seats f) in
        select_flight flight_id db = Some f
        /\ validate_flight (Some f) passengers (now_validation env) = Ok f
        /\ calculate_dynamic_price (Flight.base_price f) (Flight.seats_remaining f)
             (Flight.total_seats f) (Flight.demand_factor f) (Flight.departure_time f)
             (now_pricing env) = Ok price_per_passenger
        /\ payment_success env = true
        /\ r = {| resp_status := "CONFIRMED"; resp_pnr := pnr; resp_booking_id := id;
                  resp_payment_reference := payment_ref; resp_price_paid := total_price;
                  resp_message := "Booking confirmed successfully" |}
        /\ db' = {| user := user db;
                    flight := map (inventory_update flight_id n d) (flight db);
                    booking :=
                      map (fun b => if Booking.id b =? id
                                    then confirm_row payment_ref b else b)
                          (booking db ++
                           [pending_row id (BookingRequest.user_id req) flight_id pnr
                              total_price (BookingRequest.contact_email req)
                              (BookingRequest.contact_phone req) (current_timestamp env)]);
                    booking_seq := id;
                    passenger :=
                      passenger db ++ map (passenger_row id flight_id) passengers;
                    flight_price_history :=
                      flight_price_history db ++ [history_row flight_id new_price d n];
                    payment :=
                      payment db ++
                      [payment_row id payment_ref (BookingRequest.payment_method req)
                         total_price Payment.SUCCESS];
                    cancelled_booking := cancelled_booking db |}%list
  end.
Proof.
  start_checkout db c0.
  destruct (validate_flight (select_flight (BookingRequest.flight_id req) db)
              (BookingRequest.passengers req) (now_validation env)) as [f|e] eqn:Hv.
  2:{ destruct e; reflexivity. }
  pose proof (validate_flight_ok _ _ _ _ Hv) as Hf. rewrite Hf in Hv.
  destruct (calculate_dynamic_price (Flight.base_price f) (Flight.seats_remaining f)
              (Flight.total_seats f) (Flight.demand_factor f) (Flight.departure_time f)
              (now_pricing env)) as [ppp|e] eqn:Hp.
  2:{ destruct e; reflexivity. }
  run_insert_booking id c1 Hib.
  2:{ destruct Hib as (-> & _). destruct e; reflexivity. }
  destruct Hib as (Hid & Hc1 & Hw1).
  change (work c0) with db in *. change (committed c0) with db in *.
  run_insert_passengers c2 Hip.
  2:{ destruct e; simpl; congruence. }
  destruct Hip as (Hc2 & Hw2).
  run_update_flight_inventory c3 Hu.
  2:{ destruct Hu as (-> & _). destruct e; simpl; congruence. }
  destruct Hu as (f2 & new_price & Hf2 & H0 & Hts & Hnp & Hc3 & Hw3).
  assert (f2 = f) as ->.
  { rewrite Hw2, Hw1 in Hf2. unfold select_flight in Hf2, Hf. simpl in Hf2. congruence. }
  destruct (negb (Qle_bool 0 _)).
  { simpl. congruence. }
  destruct (existsb _ (payment (work c3))).
  { simpl. congruence. }
  destruct (payment_success env) eqn:Hps.
  2:{ simpl. congruence. }
  simpl. exists f, ppp, new_price. cbv zeta.
  repeat split; try assumption; try (subst id; reflexivity).
  rewrite Hw3, Hw2, Hw1. simpl. subst id. reflexivity.
Qed.

(** The attempt that would have been confirmed is, when the gateway
    declines, refused with 402. *)
Lemma checkout_declined (db : DB) (req : BookingRequest.t) (env : CheckoutEnv) r db' :
  checkout db req (with_payment_success env true) = (Ok r, db') ->
  checkout db req (with_payment_success env false)
  = (Raise (HTTPException 402 "Payment failed. Please try again."), db).
Proof.
  start_checkout db c0. simpl.
  destruct (validate_flight (select_flight (BookingRequest.flight_id req) db)
              (BookingRequest.passengers req) (now_validation env)) as [f|e].
  2:{ destruct e; simpl; discriminate. }
  destruct (calculate_dynamic_price (Flight.base_price f) (Flight.seats_remaining f)
              (Flight.total_seats f) (Flight.demand_factor f) (Flight.departure_time f)
              (now_pricing env)) as [ppp|e].
  2:{ destruct e; simpl; discriminate. }
  run_insert_booking id c1 Hib.
  2:{ destruct e; simpl; discriminate. }
  destruct Hib as (_ & Hc1 & _). change (committed c0) with db in *.
  run_insert_passengers c2 Hip.
  2:{ destruct e; simpl; discriminate. }
  destruct Hip as (Hc2 & _).
  run_update_flight_inventory c3 Hu.
  2:{ destruct e; simpl; discriminate. }
  destruct Hu as (f2 & new_price & _ & _ & _ & _ & Hc3 & _).
  destruct (negb (Qle_bool 0 _)).
  { simpl. discriminate. }
  destruct (existsb _ (payment (work c3))).
  { simpl. discriminate. }
  intros _. simpl. congruence.
Qed.

(** No checkout changes the database unless it returns a confirmation, and
    it returns one only if the gateway accepted the payment. *)
Lemma checkout_refused (db : DB) (req : BookingRequest.t) (env : CheckoutEnv) :
  payment_success env = false ->
  exists e, checkout db req env = (Raise e, db).
Proof.
  intros Hps. pose proof (checkout_cases db req env) as H.
  destruct (checkout db req env) as [[r|e] db'].
  - destruct H as (f & p & np & _ & _ & _ & Hacc & _). congruence.
  - subst db'. now exists e.
Qed.

Lemma with_payment_success_same (env : CheckoutEnv) :
  with_payment_success env (payment_success env) = env.
Proof. now destruct env. Qed.

(** ** Checkout *)

(** C1.  When the payment gateway declines, the checkout attempt fails and
    nothing of it persists: the database after the attempt is the database
    before it, so there is no booking of the attempt (CONFIRMED or other), no
    seat assignment and no payment row of it, and the flight's
    [seats_remaining] and [demand_factor] are what they were.  The failure is
    402 "Payment failed. Please try again." for every attempt that the
    gateway's acceptance would have confirmed. *)
Theorem payment_decline_atomic :
  forall db req env,
    payment_success env = false ->
    (exists e, checkout db req env = (Raise e, db))
    /\ (forall r db',
           checkout db req (with_payment_success env true) = (Ok r, db') ->
           checkout db req env
           = (Raise (HTTPException 402 "Payment failed. Please try again."), db)
           /\ booking (snd (checkout db req env)) = booking db
           /\ passenger (snd (checkout db req env)) = passenger db
           /\ payment (snd (checkout db req env)) = payment db
           /\ flight (snd (checkout db req env)) = flight db).
Proof.
  intros db req env Hps. split.
  - now apply checkout_refused.
  - intros r db' Hok.
    assert (E : checkout db req env
                = (Raise (HTTPException 402 "Payment failed. Please try again."), db)).
    { rewrite <- (with_payment_success_same env), Hps.
      eapply checkout_declined. exact Hok. }
    rewrite E. simpl. auto.
Qed.

Lemma payment_decline_atomic_witness :
  checkout db0 request_1A (attempt 0 "ABCDEF12" "0123456789ABCDEF" false)
  = (Raise (HTTPException 402 "Payment failed. Please try again."), db0).
Proof.
  refine (proj1 (proj2 (payment_decline_atomic db0 request_1A
                          (attempt 0 "ABCDEF12" "0123456789ABCDEF" false) eq_refl)
                   _ _ _)).
  vm_compute. reflexivity.
Defined.

Lemma max_rowid_ge (l : list Booking.row) (b : Booking.row) :
  In b l -> Booking.id b <= max_rowid l.
Proof.
  induction l as [|x l IH]; simpl; [tauto|].
  intros [->|H]; [lia|]. specialize (IH H). lia.
Qed.

Lemma find_booking_map (h : Booking.row -> Booking.row) (k : Z) (l : list Booking.row) :
  (forall b, Booking.id (h b) = Booking.id b) ->
  find (fun b => Booking.id b =? k) (map h l)
  = option_map h (find (fun b => Booking.id b =? k) l).
Proof.
  intros Hh. induction l as [|b l IH]; simpl; [reflexivity|].
  rewrite Hh. destruct (Booking.id b =? k); [reflexivity|exact IH].
Qed.

Lemma find_booking_fresh (l : list Booking.row) (x : Booking.row) (k : Z) :
  max_rowid l < k -> Booking.id x = k ->
  find (fun b => Booking.id b =? k) (l ++ [x]) = Some x.
Proof.
  intros H Hx. assert (Hl : forall b, In b l -> Booking.id b <> k).
  { intros b Hb. apply max_rowid_ge in Hb. lia. }
  clear H. induction l as [|b l IH]; simpl.
  - now rewrite Hx, Z.eqb_refl.
  - destruct (Z.eqb_spec (Booking.id b) k) as [E|_].
    + exfalso. apply (Hl b); [now left|exact E].
    + apply IH. intros b' Hb'. apply Hl. now right.
Qed.

(** C7.  A successful checkout prices the booking from the flight row as it
    was before the attempt: the per-passenger price is the pricing engine's
    value at the [seats_remaining] and [demand_factor] read before the
    inventory update (which leaves [seats_remaining] lowered by the passenger
    count), and the [price_paid] stored on the CONFIRMED booking is that price
    times the passenger count, rounded to two decimals. *)
Theorem checkout_price_pre_decrement :
  forall db req env r db',
    checkout db req env = (Ok r, db') ->
    exists f price_per_passenger b f',
      select_flight (BookingRequest.flight_id req) db = Some f
      /\ calculate_dynamic_price (Flight.base_price f) (Flight.seats_remaining f)
           (Flight.total_seats f) (Flight.demand_factor f) (Flight.departure_time f)
           (now_pricing env) = Ok price_per_passenger
      /\ find (fun b => Booking.id b =? resp_booking_id r) (booking db') = Some b
      /\ Booking.status b = Booking.CONFIRMED
      /\ Booking.pnr b = resp_pnr r
      /\ Booking.price_paid b
         = round (price_per_passenger * inject_Z (len (BookingRequest.passengers req))) 2
      /\ resp_price_paid r = Booking.price_paid b
      /\ select_flight (BookingRequest.flight_id req) db' = Some f'
      /\ Flight.seats_remaining f'
         = Z.min (Flight.total_seats f)
             (Flight.seats_remaining f - len (BookingRequest.passengers req)).
Proof.
  intros db req env r db' E.
  pose proof (checkout_cases db req env) as H. rewrite E in H.
  destruct H as (f & ppp & np & Hf & Hv & Hp & Hacc & -> & ->). cbv zeta.
  set (id := Z.max (booking_seq db) (max_rowid (booking db)) + 1).
  eexists f, ppp, _, _. split; [exact Hf|]. split; [exact Hp|]. simpl.
  split.
  { rewrite find_booking_map by (intros b; now destruct (Booking.id b =? id)).
    rewrite find_booking_fresh by (try reflexivity; unfold id; lia).
    simpl. rewrite Z.eqb_refl. reflexivity. }
  do 4 (split; [reflexivity|]).
  split.
  - unfold select_flight. simpl.
    rewrite find_flight_map by apply inventory_update_id.
    fold (select_flight (BookingRequest.flight_id req) db). rewrite Hf. simpl.
    unfold inventory_update.
    destruct (find_flight_some _ _ _ Hf) as [_ ->]. rewrite Z.eqb_refl. reflexivity.
  - reflexivity.
Qed.

Lemma checkout_price_pre_decrement_witness :
  exists f price_per_passenger b f',
    select_flight 1 db0 = Some f
    /\ calculate_dynamic_price (Flight.base_price f) (Flight.seats_remaining f)
         (Flight.total_seats f) (Flight.demand_factor f) (Flight.departure_time f) 0
       = Ok price_per_passenger
    /\ find (fun b => Booking.id b =? 1)
         (booking (snd (checkout db0 request_1A
                          (attempt 0 "ABCDEF12" "0123456789ABCDEF" true)))) = Some b
    /\ Booking.status b = Booking.CONFIRMED
    /\ Booking.pnr b = "PNRABCDEF12"
    /\ Booking.price_paid b = round (price_per_passenger * inject_Z 1) 2
    /\ 105.00%Q = Booking.price_paid b
    /\ select_flight 1 (snd (checkout db0 request_1A
                               (attempt 0 "ABCDEF12" "0123456789ABCDEF" true))) = Some f'
    /\ Flight.seats_remaining f' = Z.min (Flight.total_seats f) (Flight.seats_remaining f - 1).
Proof.
  exact (checkout_price_pre_decrement db0 request_1A
           (attempt 0 "ABCDEF12" "0123456789ABCDEF" true) _ _ eq_refl).
Defined.

Lemma checkout_validation_fails (db : DB) (req : BookingRequest.t) (env : CheckoutEnv)
    (code : Z) (detail : string) :
  validate_flight (select_flight (BookingRequest.flight_id req) db)
    (BookingRequest.passengers req) (now_validation env)
  = Raise (HTTPException code detail) ->
  checkout db req env = (Raise (HTTPException code detail), db).
Proof.
  intros H. unfold checkout, get_db, do_checkout, try_except, bind, query, lift.
  simpl work. rewrite H. reflexivity.
Qed.

(** C6, as amended.  The validation phase of a checkout fails with 404
    "Flight not found" when the flight does not exist, with 400 when the
    flight's status is not SCHEDULED or its [departure_time] is strictly
    before the current time, and with 400 "Only n seats available" when the
    number of passengers exceeds [seats_remaining]; otherwise it passes.  A
    flight departing exactly now is not rejected. *)
Theorem checkout_validation :
  forall db req env,
    let flight := select_flight (BookingRequest.flight_id req) db in
    let passengers := BookingRequest.passengers req in
    let now := now_validation env in
    (flight = None ->
     checkout db req env = (Raise (HTTPException 404 "Flight not found"), db))
    /\ (forall f, flight = Some f ->
          Flight.status f <> Flight.SCHEDULED ->
          checkout db req env
          = (Raise (HTTPException 400
                      ("Flight is " ++ Flight.status_str (Flight.status f) ++ ", cannot book")),
             db))
    /\ (forall f, flight = Some f ->
          Flight.status f = Flight.SCHEDULED ->
          Flight.departure_time f < now ->
          checkout db req env = (Raise (HTTPException 400 "Cannot book past flights"), db))
    /\ (forall f, flight = Some f ->
          Flight.status f = Flight.SCHEDULED ->
          now <= Flight.departure_time f ->
          Flight.seats_remaining f < len passengers ->
          checkout db req env
          = (Raise (HTTPException 400
                      ("Only " ++ str_int (Flight.seats_remaining f) ++ " seats available")),
             db))
    /\ (forall f, flight = Some f ->
          Flight.status f = Flight.SCHEDULED ->
          now <= Flight.departure_time f ->
          len passengers <= Flight.seats_remaining f ->
          validate_flight flight passengers now = Ok f).
Proof.
  intros db req env flight passengers now.
  split; [|split; [|split; [|split]]].
  - intros H. apply checkout_validation_fails. fold flight. rewrite H. reflexivity.
  - intros f H Hs. apply checkout_validation_fails. fold flight. rewrite H. simpl.
    destruct (Flight.status f); try reflexivity. congruence.
  - intros f H Hs Hd. apply checkout_validation_fails. fold flight. rewrite H. simpl.
    rewrite Hs. simpl. fold now.
    destruct (Z.ltb_spec (Flight.departure_time f) now); [reflexivity|lia].
  - intros f H Hs Hd Hn. apply checkout_validation_fails. fold flight. rewrite H. simpl.
    rewrite Hs. simpl. fold now passengers.
    destruct (Z.ltb_spec (Flight.departure_time f) now); [lia|].
    destruct (Z.ltb_spec (Flight.seats_remaining f) (len passengers)); [reflexivity|lia].
  - intros f H Hs Hd Hn. rewrite H. simpl. rewrite Hs. simpl.
    destruct (Z.ltb_spec (Flight.departure_time f) now); [lia|].
    destruct (Z.ltb_spec (Flight.seats_remaining f) (len passengers)); [lia|reflexivity].
Qed.

Lemma checkout_validation_witness :
  checkout db0 request_1A (attempt (81 * hour) "ABCDEF12" "0123456789ABCDEF" true)
  = (Raise (HTTPException 400 "Cannot book past flights"), db0).
Proof.
  refine (proj1 (proj2 (proj2 (checkout_validation db0 request_1A
                                 (attempt (81 * hour) "ABCDEF12" "0123456789ABCDEF" true))))
            flight1 eq_refl eq_refl _).
  vm_compute. reflexivity.
Defined.

(** C6 as stated fails for a flight that departs exactly now: flight 1 leaves
    at [80 * hour], the attempt is made at [80 * hour], the validation passes
    and the booking is confirmed. *)
Lemma checkout_validation_counterexample :
  Flight.departure_time flight1 <= 80 * hour
  /\ validate_flight (select_flight 1 db0) [seat_1A] (80 * hour) = Ok flight1
  /\ fst (checkout db0 request_1A (attempt (80 * hour) "ABCDEF12" "0123456789ABCDEF" true))
     = Ok {| resp_status := "CONFIRMED"; resp_pnr := "PNRABCDEF12"; resp_booking_id := 1;
             resp_payment_reference := "PAY_0123456789ABCDEF";
             resp_price_paid := 130.00;
             resp_message := "Booking confirmed successfully" |}.
Proof.
  split; [vm_compute; discriminate|]. split; vm_compute; reflexivity.
Qed.

(** ** Cancellation *)

Lemma calculate_refund_eq (price_paid : Q) (departure_time now : Z) :
  calculate_refund price_paid departure_time now
  = (round (price_paid * fst (refund_tier (departure_time - now))) 2,
     snd (refund_tier (departure_time - now))).
Proof.
  unfold calculate_refund, refund_tier.
  rewrite (lt_hours _ _ 72), (lt_hours _ _ 48), (lt_hours _ _ 24), (lt_hours _ _ 6),
    (lt_hours _ _ 0).
  change (0 * hour) with 0.
  repeat match goal with
         | |- context [?a >? ?b] => destruct (a >? b)
         end; reflexivity.
Qed.

Lemma cancel_cases (db : DB) (pnr : string) (reason : option string) (usr : User.row)
    (env : CancelEnv) :
  match cancel_booking db pnr reason usr env with
  | (Raise e, db') => db' = db
  | (Ok r, db') =>
      exists b f new_price,
        let refund := fst (calculate_refund (Booking.price_paid b)
                             (Flight.departure_time f) (now_refund env)) in
        let policy := snd (calculate_refund (Booking.price_paid b)
                             (Flight.departure_time f) (now_refund env)) in
        let n := Z.min (Flight.total_seats f)
                   (Flight.seats_remaining f + count_passengers (Booking.id b) db) in
        let d := demand_tier n (Flight.total_seats f) in
        find (fun b => Booking.pnr b =? pnr)%string (booking db) = Some b
        /\ select_flight (Booking.flight_id b) db = Some f
        /\ Booking.status b = Booking.CONFIRMED
        /\ (User.role usr = User.ADMIN \/ Booking.user_id b = User.id usr)
        /\ r = {| receipt_price_paid := Booking.price_paid b;
                  receipt_refund_amount := refund; receipt_policy := policy |}
        /\ db' = {| user := user db;
                    flight := map (inventory_update (Booking.flight_id b) n d) (flight db);
                    booking :=
                      map (fun x => if Booking.id x =? Booking.id b
                                    then cancel_row (Some refund) x else x) (booking db);
                    booking_seq := booking_seq db;
                    passenger := passenger db;
                    flight_price_history :=
                      flight_price_history db
                      ++ [history_row (Booking.flight_id b) new_price d n];
                    payment :=
                      map (fun p => if Payment.booking_id p =? Booking.id b
                                    then refund_row p else p) (payment db);
                    cancelled_booking :=
                      cancelled_booking db ++
                      [{| CancelledBooking.pnr := pnr;
                          CancelledBooking.user_id := Booking.user_id b;
                          CancelledBooking.flight_id := Booking.flight_id b;
                          CancelledBooking.price_paid := Booking.price_paid b;
                          CancelledBooking.refund_amount := refund;
                          CancelledBooking.cancellation_reason := reason |}] |}%list
  end.
Proof.
  unfold cancel_booking, get_db, do_cancel_booking.
  set (c0 := {| committed := db; work := db |}).
  unfold try_except at 1 2. unfold bind at 1. unfold query at 1.
  change (work c0) with db. unfold select_booking_by_pnr.
  destruct (find (fun b => Booking.pnr b =? pnr)%string (booking db)) as [b|] eqn:Hb.
  2:{ reflexivity. }
  destruct (select_flight (Booking.flight_id b) db) as [f|] eqn:Hf.
  2:{ reflexivity. }
  destruct (negb (User.role_eqb (User.role usr) User.ADMIN)
            && negb (Booking.user_id b =? User.id usr)) eqn:Hauth.
  { reflexivity. }
  destruct (negb (Booking.status_eqb (Booking.status b) Booking.CONFIRMED)) eqn:Hst.
  { reflexivity. }
  destruct (calculate_refund (Booking.price_paid b) (Flight.departure_time f)
              (now_refund env)) as [refund policy] eqn:Hr.
  unfold bind at 1. unfold query at 1. change (work c0) with db.
  unfold bind at 1. unfold execute at 1. unfold sql_insert_cancelled_booking at 1.
  unfold bind at 1. unfold execute at 1. unfold sql_cancel_booking at 1.
  unfold bind at 1. unfold execute at 1. unfold sql_refund_payment at 1.
  cbv beta iota. simpl work. simpl committed.
  unfold bind at 1.
  run_update_flight_inventory c1 Hu.
  2:{ destruct Hu as (-> & _). destruct e; reflexivity. }
  destruct Hu as (f2 & new_price & Hf2 & H0 & Hts & Hnp & Hc1 & Hw1).
  simpl in Hf2, Hc1, Hw1.
  assert (f2 = f) as ->.
  { unfold select_flight in Hf2, Hf. simpl in Hf2. congruence. }
  simpl. exists b, f, new_price. rewrite Hr. simpl.
  split; [reflexivity|]. split; [exact Hf|].
  split; [destruct (Booking.status b); simpl in Hst; congruence|].
  split.
  { destruct (User.role usr); simpl in Hauth; [now left|right].
    now apply Z.eqb_eq, negb_false_iff. }
  split; [reflexivity|]. rewrite Hw1. reflexivity.
Qed.

Lemma find_pnr_map (h : Booking.row -> Booking.row) (k : string) (l : list Booking.row) :
  (forall b, Booking.pnr (h b) = Booking.pnr b) ->
  find (fun b => Booking.pnr b =? k)%string (map h l)
  = option_map h (find (fun b => Booking.pnr b =? k)%string l).
Proof.
  intros Hh. induction l as [|b l IH]; simpl; [reflexivity|].
  rewrite Hh. destruct (Booking.pnr b =? k)%string; [reflexivity|exact IH].
Qed.



(** ** Seats of cancelled bookings *)

Lemma insert_passengers_raise booking_id flight_id passengers (c : conn) e c' :
  insert_passengers booking_id flight_id passengers c = (Raise e, c') ->
  exists p, In p passengers
            /\ e = HTTPException 409
                     ("Seat " ++ PassengerIn.seat_number p ++ " already booked").
Proof.
  revert c. induction passengers as [|p ps IH]; intros c; simpl.
  - unfold ret. discriminate.
  - unfold bind, try_except, execute, sql_insert_passenger.
    destruct (seat_taken flight_id (PassengerIn.seat_number p) (passenger (work c))).
    + unfold raise. intros E. injection E as <- _. exists p. split; [now left|reflexivity].
    + intros E. apply IH in E. destruct E as (q & Hq & ->). exists q. split; [now right|reflexivity].
Qed.

(** A checkout that names a seat with a row in [passenger] on that flight is
    refused and changes nothing; once it gets to the seat assignments, the
    refusal is 409 "Seat ... already booked". *)
Lemma checkout_seat_taken (db : DB) (req : BookingRequest.t) (env : CheckoutEnv)
    (p : PassengerIn.t) :
  In p (BookingRequest.passengers req) ->
  seat_taken (BookingRequest.flight_id req) (PassengerIn.seat_number p) (passenger db) = true ->
  exists e,
    checkout db req env = (Raise e, db)
    /\ (validate_flight (select_flight (BookingRequest.flight_id req) db)
          (BookingRequest.passengers req) (now_validation env) = Raise e
        \/ (exists m, e = HTTPException 500 ("Booking failed: " ++ m))
        \/ (exists q, In q (BookingRequest.passengers req)
                      /\ e = HTTPException 409
                               ("Seat " ++ PassengerIn.seat_number q ++ " already booked"))).
Proof.
  intros Hin Htaken. start_checkout db c0.
  destruct (validate_flight (select_flight (BookingRequest.flight_id req) db)
              (BookingRequest.passengers req) (now_validation env)) as [f|e] eqn:Hv.
  2:{ destruct e; simpl; eexists; (split; [reflexivity|]); eauto. }
  destruct (calculate_dynamic_price_total (Flight.base_price f) (Flight.seats_remaining f)
              (Flight.total_seats f) (Flight.demand_factor f) (Flight.departure_time f)
              (now_pricing env)) as [ppp ->].
  run_insert_booking id c1 Hib.
  2:{ destruct Hib as (-> & msg & ->). simpl. eexists. split; [reflexivity|].
      right. left. eauto. }
  destruct Hib as (_ & Hc1 & Hw1).
  change (work c0) with db in *. change (committed c0) with db in *.
  destruct (insert_passengers_taken id (BookingRequest.flight_id req)
              (BookingRequest.passengers req) c1) as (e & c2 & E).
  { exists p. split; [exact Hin|]. rewrite Hw1. exact Htaken. }
  pose proof (insert_passengers_spec id (BookingRequest.flight_id req)
                (BookingRequest.passengers req) c1) as Hip.
  rewrite E in *.
  destruct (insert_passengers_raise _ _ _ _ _ _ E) as (q & Hq & ->).
  simpl. eexists. split; [f_equal; congruence|]. right. right. eauto.
Qed.

(** C4, as amended.  A successful cancellation of a CONFIRMED booking marks
    the booking CANCELLED and keeps every row of [passenger]: the seat
    assignments of the cancelled booking stay in the table and in its unique
    index on [(flight_id, seat_number)].  A later checkout on that flight
    that names one of those seat numbers is refused and changes nothing; the
    refusal is 409 "Seat ... already booked" unless the checkout already
    failed in validation or on the booking row.  Assignments tied to a
    CANCELLED booking do block the reuse of their seats. *)
Theorem cancelled_seats_stay_taken :
  forall db pnr reason usr env r db1,
    cancel_booking db pnr reason usr env = (Ok r, db1) ->
    exists b b1,
      find (fun x => Booking.pnr x =? pnr)%string (booking db) = Some b
      /\ Booking.status b = Booking.CONFIRMED
      /\ find (fun x => Booking.pnr x =? pnr)%string (booking db1) = Some b1
      /\ Booking.status b1 = Booking.CANCELLED
      /\ Booking.id b1 = Booking.id b
      /\ passenger db1 = passenger db
      /\ forall q req cenv p,
           In q (passenger db1) ->
           Passenger.booking_id q = Booking.id b1 ->
           BookingRequest.flight_id req = Passenger.flight_id q ->
           In p (BookingRequest.passengers req) ->
           PassengerIn.seat_number p = Passenger.seat_number q ->
           exists e,
             checkout db1 req cenv = (Raise e, db1)
             /\ (validate_flight (select_flight (BookingRequest.flight_id req) db1)
                   (BookingRequest.passengers req) (now_validation cenv) = Raise e
                 \/ (exists m, e = HTTPException 500 ("Booking failed: " ++ m))
                 \/ (exists p', In p' (BookingRequest.passengers req)
                                /\ e = HTTPException 409
                                         ("Seat " ++ PassengerIn.seat_number p'
                                          ++ " already booked"))).
Proof.
  intros db pnr reason usr env r db1 E.
  pose proof (cancel_cases db pnr reason usr env) as H. rewrite E in H.
  destruct H as (b & f & np & Hb & Hf & Hst & _ & -> & ->).
  exists b. eexists. split; [exact Hb|]. split; [exact Hst|]. simpl.
  split.
  { rewrite find_pnr_map by (intros x; now destruct (Booking.id x =? Booking.id b)).
    rewrite Hb. simpl. rewrite Z.eqb_refl. reflexivity. }
  do 3 (split; [reflexivity|]).
  intros q req cenv p Hq _ Hfl Hp Hseat.
  apply (checkout_seat_taken _ req cenv p Hp). simpl.
  unfold seat_taken. apply existsb_exists. exists q. split; [exact Hq|].
  rewrite Hfl, Hseat, Z.eqb_refl, String.eqb_refl. reflexivity.
Qed.

Lemma cancelled_seats_stay_taken_witness :
  exists r db1,
    cancel_booking db_booked "PNRABCDEF12" None alice (cancel_at hour) = (Ok r, db1)
    /\ exists b b1,
        find (fun x => Booking.pnr x =? "PNRABCDEF12")%string (booking db_booked) = Some b
        /\ Booking.status b = Booking.CONFIRMED
        /\ find (fun x => Booking.pnr x =? "PNRABCDEF12")%string (booking db1) = Some b1
        /\ Booking.status b1 = Booking.CANCELLED
        /\ Booking.id b1 = Booking.id b
        /\ passenger db1 = passenger db_booked
        /\ forall q req cenv p,
             In q (passenger db1) ->
             Passenger.booking_id q = Booking.id b1 ->
             BookingRequest.flight_id req = Passenger.flight_id q ->
             In p (BookingRequest.passengers req) ->
             PassengerIn.seat_number p = Passenger.seat_number q ->
             exists e,
               checkout db1 req cenv = (Raise e, db1)
               /\ (validate_flight (select_flight (BookingRequest.flight_id req) db1)
                     (BookingRequest.passengers req) (now_validation cenv) = Raise e
                   \/ (exists m, e = HTTPException 500 ("Booking failed: " ++ m))
                   \/ (exists p', In p' (BookingRequest.passengers req)
                                  /\ e = HTTPException 409
                                           ("Seat " ++ PassengerIn.seat_number p'
                                            ++ " already booked"))).
Proof.
  eexists. eexists.
  match goal with
  | |- ?A /\ _ => assert (E : A) by (vm_compute; reflexivity)
  end.
  split; [exact E|].
  exact (cancelled_seats_stay_taken _ _ _ _ _ _ _ E).
Defined.

(** C4 as stated fails.  Ada books seat 1A on flight 1 and cancels; the
    cancellation succeeds and the flight shows all 10 of its 10 seats as
    remaining, yet a new checkout for seat 1A on that flight is refused with
    409 "Seat 1A already booked". *)
Lemma seat_reuse_counterexample :
  fst (cancel_booking db_booked "PNRABCDEF12" None alice (cancel_at hour))
  = Ok {| receipt_price_paid := 105.00; receipt_refund_amount := 94.50;
          receipt_policy := "More than 72 hours before departure" |}
  /\ option_map Booking.status
       (find (fun x => Booking.pnr x =? "PNRABCDEF12")%string (booking db_cancelled))
     = Some Booking.CANCELLED
  /\ option_map Flight.seats_remaining (select_flight 1 db_cancelled) = Some 10
  /\ checkout db_cancelled request_1A (attempt (2 * hour) "ABCDEF13" "0123456789ABCDE0" true)
     = (Raise (HTTPException 409 "Seat 1A already booked"), db_cancelled).
Proof.
  repeat split; vm_compute; reflexivity.
Qed.

(** ** Expiry of unpaid bookings *)

Lemma release_expired_fails (now : Z -> Z) (id flight_id : Z) (expired : list (Z * Z))
    (c : conn) :
  In (id, flight_id) expired ->
  0 < count_passengers id (work c) ->
  select_flight flight_id (work c) = None ->
  exists e c', release_expired expired now c = (Raise e, c')
               /\ committed c' = committed c.
Proof.
  revert c. induction expired as [|[id0 fid0] rest IH]; intros c Hin Hcount Hmiss.
  - destruct Hin.
  - simpl. unfold bind at 1. unfold query at 1. unfold bind at 1.
    assert (Hstep : forall c1,
               committed c1 = committed c -> passenger (work c1) = passenger (work c) ->
               select_flight flight_id (work c1) = None ->
               In (id, flight_id) rest ->
               exists e c',
                 bind (execute (sql_expire_booking id0))
                      (fun _ => release_expired rest now) c1 = (Raise e, c')
                 /\ committed c' = committed c).
    { intros c1 Hc Hp Hm Hrest. unfold bind, execute, sql_expire_booking.
      destruct (IH {| committed := committed c1;
                      work := set_booking (work c1)
                                (map (fun b => if Booking.id b =? id0
                                               then cancel_row (Booking.refund_amount b) b
                                               else b) (booking (work c1)))
                                (booking_seq (work c1)) |}) as (e & c' & E & Hc').
      - exact Hrest.
      - unfold count_passengers in *. simpl. now rewrite Hp.
      - exact Hm.
      - exists e, c'. split; [exact E|]. simpl in Hc'. congruence. }
    destruct (count_passengers id0 (work c) >? 0) eqn:Hpos.
    + run_update_flight_inventory c1 Hu.
      * destruct Hu as (f & price & Hf & _ & _ & _ & Hc1 & Hw1).
        destruct Hin as [Hhd|Hrest].
        { injection Hhd as -> ->. congruence. }
        apply Hstep; try assumption.
        { rewrite Hw1. reflexivity. }
        { rewrite Hw1. unfold select_flight in *. simpl.
          rewrite find_flight_map by apply inventory_update_id. now rewrite Hmiss. }
      * destruct Hu as (-> & _). eauto.
    + destruct Hin as [Hhd|Hrest].
      { injection Hhd as -> ->. rewrite Z.gtb_ltb in Hpos. apply Z.ltb_ge in Hpos. lia. }
      unfold ret. apply Hstep; auto.
Qed.

Lemma release_expired_committed (now : Z -> Z) (expired : list (Z * Z)) (c : conn) :
  committed (snd (release_expired expired now c)) = committed c.
Proof.
  revert c. induction expired as [|[id0 fid0] rest IH]; intros c; [reflexivity|].
  simpl. unfold bind at 1. unfold query at 1. unfold bind at 1.
  assert (Hstep : forall c1,
             committed c1 = committed c ->
             committed (snd (bind (execute (sql_expire_booking id0))
                               (fun _ => release_expired rest now) c1)) = committed c).
  { intros c1 Hc. unfold bind, execute, sql_expire_booking. rewrite IH. exact Hc. }
  destruct (count_passengers id0 (work c) >? 0).
  - run_update_flight_inventory c1 Hu.
    + destruct Hu as (f & price & _ & _ & _ & _ & Hc1 & _). now apply Hstep.
    + destruct Hu as (-> & _). reflexivity.
  - unfold ret. now apply Hstep.
Qed.

(** C8, as amended.  The sweep is one failure unit.  A failure while
    releasing one expired booking (its flight row is missing while it holds
    seats) ends the sweep: the exception is logged by the handlers around the
    whole job, nothing is committed, and the database is left as it was, so
    no expired booking of that sweep is released or cancelled, whether it
    comes before or after the failing one.  Whenever the sweep logs an error
    the database is unchanged. *)
Theorem sweep_is_one_failure_unit :
  forall db env,
    (forall id flight_id,
        In (id, flight_id) (select_expired (cutoff env) db) ->
        0 < count_passengers id db ->
        select_flight flight_id db = None ->
        exists e,
          cleanup_expired_bookings db env
          = ([ERROR ("Database error: " ++ str_exn e);
              ERROR ("Error in cleanup job: " ++ str_exn e)], db))
    /\ (forall msg log db',
           cleanup_expired_bookings db env = (ERROR msg :: log, db') -> db' = db).
Proof.
  intros db env. split.
  - intros id flight_id Hin Hcount Hmiss.
    unfold cleanup_expired_bookings, get_db, try_except.
    unfold bind at 1. unfold query at 1. simpl work. unfold bind at 1.
    destruct (release_expired_fails (now_release env) id flight_id
                (select_expired (cutoff env) db) {| committed := db; work := db |}
                Hin Hcount Hmiss) as (e & c' & E & Hc').
    rewrite E. simpl. exists e. simpl in Hc'. now rewrite Hc'.
  - intros msg log db'.
    unfold cleanup_expired_bookings, get_db, try_except.
    unfold bind at 1. unfold query at 1. simpl work. unfold bind at 1.
    pose proof (release_expired_committed (now_release env)
                  (select_expired (cutoff env) db) {| committed := db; work := db |}) as Hc.
    destruct (release_expired (select_expired (cutoff env) db) (now_release env)
                {| committed := db; work := db |}) as [[u|e] c'].
    + simpl. destruct (select_expired (cutoff env) db); discriminate.
    + simpl in *. intros E. injection E as _ _ <-. exact Hc.
Qed.

Lemma sweep_is_one_failure_unit_witness :
  exists e,
    cleanup_expired_bookings db_stale sweep
    = ([ERROR ("Database error: " ++ str_exn e);
        ERROR ("Error in cleanup job: " ++ str_exn e)], db_stale).
Proof.
  apply (proj1 (sweep_is_one_failure_unit db_stale sweep) 1 7).
  - vm_compute. auto.
  - vm_compute. reflexivity.
  - vm_compute. reflexivity.
Defined.

(** C8 as stated fails.  Of the two expired bookings the sweep selects,
    booking 1 cannot be released because flight 7 has no row; booking 2, whose
    release succeeds when it is swept alone, is then neither released nor
    cancelled: it stays PENDING and flight 1 keeps 9 seats remaining. *)
Lemma sweep_isolation_counterexample :
  select_expired (cutoff sweep) db_stale = [(1, 7); (2, 1)]
  /\ cleanup_expired_bookings db_stale sweep
     = ([ERROR "Database error: 404: Flight not found";
         ERROR "Error in cleanup job: 404: Flight not found"], db_stale)
  /\ option_map Booking.status
       (find (fun b => Booking.id b =? 2)
             (booking (snd (cleanup_expired_bookings db_stale sweep))))
     = Some Booking.PENDING
  /\ option_map Flight.seats_remaining
       (select_flight 1 (snd (cleanup_expired_bookings db_stale sweep))) = Some 9
  /\ fst (cleanup_expired_bookings db_stale_2 sweep)
     = [INFO "Cleaned up 1 expired bookings"]
  /\ option_map Booking.status
       (find (fun b => Booking.id b =? 2)
             (booking (snd (cleanup_expired_bookings db_stale_2 sweep))))
     = Some Booking.CANCELLED
  /\ option_map Flight.seats_remaining
       (select_flight 1 (snd (cleanup_expired_bookings db_stale_2 sweep))) = Some 10.
Proof.
  repeat split; vm_compute; reflexivity.
Qed.

(** ** Seat accounting *)

Lemma len_nonneg {A} (l : list A) : 0 <= len l.
Proof. unfold len. lia. Qed.

Lemma len_app {A} (l1 l2 : list A) : len (l1 ++ l2) = len l1 + len l2.
Proof. unfold len. rewrite length_app. lia. Qed.

Lemma len_filter_split {A} (P Q : A -> bool) (l : list A) :
  len (filter P l)
  = len (filter (fun x => P x && negb (Q x)) l) + len (filter (fun x => P x && Q x) l).
Proof.
  unfold len. rewrite <- Nat2Z.inj_add. f_equal.
  induction l as [|x l IH]; simpl; [reflexivity|].
  destruct (P x), (Q x); simpl; lia.
Qed.

Lemma len_filter_ext {A} (P Q : A -> bool) (l : list A) :
  (forall x, In x l -> P x = Q x) -> len (filter P l) = len (filter Q l).
Proof. intros H. unfold len. now rewrite (filter_ext_in _ _ _ H). Qed.

Lemma len_filter_none {A} (P : A -> bool) (l : list A) :
  (forall x, In x l -> P x = false) -> len (filter P l) = 0.
Proof.
  intros H. rewrite (len_filter_ext P (fun _ => false)) by exact H.
  clear H. induction l; simpl; auto.
Qed.

Lemma len_filter_all {A} (P : A -> bool) (l : list A) :
  (forall x, In x l -> P x = true) -> len (filter P l) = len l.
Proof.
  intros H. rewrite (len_filter_ext P (fun _ => true)) by exact H.
  f_equal. clear H. induction l; simpl; congruence.
Qed.

Lemma booking_id_key (t : list Booking.row) (b b' : Booking.row) :
  NoDup (map Booking.id t) -> In b t -> In b' t -> Booking.id b = Booking.id b' -> b = b'.
Proof.
  induction t as [|x t IH]; simpl; [tauto|].
  intros Hnd [->|Hb] [->|Hb'] E; inversion Hnd as [|? ? Hx Ht]; subst.
  - reflexivity.
  - exfalso. apply Hx. rewrite E. now apply in_map.
  - exfalso. apply Hx. rewrite <- E. now apply in_map.
  - now apply IH.
Qed.

Lemma flight_id_key (t : list Flight.row) (f f' : Flight.row) :
  NoDup (map Flight.id t) -> In f t -> In f' t -> Flight.id f = Flight.id f' -> f = f'.
Proof.
  induction t as [|x t IH]; simpl; [tauto|].
  intros Hnd [->|Hb] [->|Hb'] E; inversion Hnd as [|? ? Hx Ht]; subst.
  - reflexivity.
  - exfalso. apply Hx. rewrite E. now apply in_map.
  - exfalso. apply Hx. rewrite <- E. now apply in_map.
  - now apply IH.
Qed.

Lemma booking_live_true (db : DB) (b : Booking.row) :
  In b (booking db) -> live (Booking.status b) = true ->
  booking_live db (Booking.id b) = true.
Proof.
  intros Hin Hl. unfold booking_live. apply existsb_exists. exists b.
  split; [exact Hin|]. now rewrite Z.eqb_refl, Hl.
Qed.

(** Liveness of the bookings after an update of the rows with one id. *)
Lemma booking_live_update (g : Booking.row -> Booking.row) (bid k : Z)
    (t : list Booking.row) :
  (forall x, Booking.id (g x) = Booking.id x) ->
  (forall x, Booking.id x <> bid -> Booking.status (g x) = Booking.status x) ->
  k <> bid ->
  existsb (fun b => (Booking.id b =? k) && live (Booking.status b)) (map g t)
  = existsb (fun b => (Booking.id b =? k) && live (Booking.status b)) t.
Proof.
  intros Hid Hother Hk. induction t as [|x t IH]; simpl; [reflexivity|].
  rewrite IH, Hid. destruct (Z.eqb_spec (Booking.id x) k) as [E|E]; [|reflexivity].
  rewrite Hother by congruence. reflexivity.
Qed.

Lemma booking_live_dead (g : Booking.row -> Booking.row) (bid : Z) (t : list Booking.row) :
  (forall x, Booking.id (g x) = Booking.id x) ->
  (forall x, Booking.id x = bid -> live (Booking.status (g x)) = false) ->
  existsb (fun b => (Booking.id b =? bid) && live (Booking.status b)) (map g t) = false.
Proof.
  intros Hid Hdead. induction t as [|x t IH]; simpl; [reflexivity|].
  rewrite IH, Hid. destruct (Z.eqb_spec (Booking.id x) bid) as [E|E]; [|reflexivity].
  now rewrite Hdead.
Qed.

(** Seats held after the bookings with id [bid], live until then, stop being
    live: the flight of that booking holds as many seats fewer as the booking
    has passenger rows. *)
Lemma seats_held_release (db db' : DB) (g : Booking.row -> Booking.row) (b : Booking.row)
    (fid : Z) :
  accounted db ->
  In b (booking db) -> live (Booking.status b) = true ->
  booking db' = map g (booking db) ->
  passenger db' = passenger db ->
  (forall x, Booking.id (g x) = Booking.id x) ->
  (forall x, Booking.id x <> Booking.id b -> Booking.status (g x) = Booking.status x) ->
  (forall x, Booking.id x = Booking.id b -> live (Booking.status (g x)) = false) ->
  seats_held db fid
  = seats_held db' fid
    + (if fid =? Booking.flight_id b then count_passengers (Booking.id b) db else 0).
Proof.
  intros (_ & Hbk & Hfk & _) Hb Hlive Hbook Hpass Hid Hother Hdead.
  unfold seats_held, count_passengers. rewrite Hpass.
  rewrite (len_filter_split _ (fun p => Passenger.booking_id p =? Booking.id b)).
  f_equal.
  - apply len_filter_ext. intros p Hp. unfold booking_live. rewrite Hbook.
    destruct (Z.eqb_spec (Passenger.booking_id p) (Booking.id b)) as [E|E].
    + rewrite E, (booking_live_dead g) by assumption.
      now rewrite !andb_false_r.
    + rewrite (booking_live_update g (Booking.id b)) by assumption.
      now rewrite andb_true_r.
  - destruct (Z.eqb_spec fid (Booking.flight_id b)) as [->|Hfid].
    + apply len_filter_ext. intros p Hp.
      destruct (Z.eqb_spec (Passenger.booking_id p) (Booking.id b)) as [E|E];
        [|now rewrite andb_false_r].
      destruct (Hfk p Hp) as (b' & Hb' & Hid' & Hfl').
      assert (b' = b) as -> by (apply (booking_id_key (booking db)); congruence).
      rewrite <- Hfl', Z.eqb_refl, E, (booking_live_true db b) by assumption.
      reflexivity.
    + apply len_filter_none. intros p Hp.
      destruct (Z.eqb_spec (Passenger.booking_id p) (Booking.id b)) as [E|E];
        [|now rewrite andb_false_r].
      destruct (Hfk p Hp) as (b' & Hb' & Hid' & Hfl').
      assert (b' = b) as -> by (apply (booking_id_key (booking db)); congruence).
      destruct (Z.eqb_spec (Passenger.flight_id p) fid); [congruence|reflexivity].
Qed.

Lemma count_passengers_nonneg (booking_id : Z) (db : DB) : 0 <= count_passengers booking_id db.
Proof. apply len_nonneg. Qed.

(** A release keeps the accounts: the bookings with the id of [b] stop being
    live and the flight of [b] gets back the seats of its passenger rows. *)
Lemma accounted_release (db db' : DB) (g : Booking.row -> Booking.row)
    (h : Flight.row -> Flight.row) (b : Booking.row) :
  accounted db ->
  In b (booking db) -> live (Booking.status b) = true ->
  booking db' = map g (booking db) ->
  passenger db' = passenger db ->
  flight db' = map h (flight db) ->
  (forall x, Booking.id (g x) = Booking.id x /\ Booking.flight_id (g x) = Booking.flight_id x) ->
  (forall x, Booking.id x <> Booking.id b -> Booking.status (g x) = Booking.status x) ->
  (forall x, Booking.id x = Booking.id b -> live (Booking.status (g x)) = false) ->
  (forall f, In f (flight db) ->
             Flight.id (h f) = Flight.id f
             /\ Flight.total_seats (h f) = Flight.total_seats f
             /\ Flight.seats_remaining (h f)
                = Flight.seats_remaining f
                  + (if Flight.id f =? Booking.flight_id b
                     then count_passengers (Booking.id b) db else 0)) ->
  accounted db'.
Proof.
  intros Hacc Hb Hlive Hbook Hpass Hflight Hg Hother Hdead Hh.
  pose proof (fun fid => seats_held_release db db' g b fid Hacc Hb Hlive Hbook Hpass
                           (fun x => proj1 (Hg x)) Hother Hdead) as Hheld.
  destruct Hacc as (Hfl & Hbk & Hfk & Hseats).
  split; [|split; [|split]].
  - rewrite Hflight, map_map.
    rewrite (map_ext_in _ Flight.id); [exact Hfl|]. intros f Hf. apply (Hh f Hf).
  - rewrite Hbook, map_map.
    rewrite (map_ext _ Booking.id); [exact Hbk|]. intros x. apply Hg.
  - intros p Hp. rewrite Hpass in Hp. destruct (Hfk p Hp) as (b' & Hb' & Hid & Hf).
    exists (g b'). rewrite Hbook. split; [now apply in_map|].
    destruct (Hg b') as [-> ->]. auto.
  - intros f' Hf'. rewrite Hflight in Hf'. apply in_map_iff in Hf'.
    destruct Hf' as (f & <- & Hf).
    destruct (Hh f Hf) as (Hid & Hts & Hsr). destruct (Hseats f Hf) as (H0 & Hsum).
    rewrite Hid, Hts, Hsr. specialize (Hheld (Flight.id f)).
    pose proof (count_passengers_nonneg (Booking.id b) db).
    destruct (Flight.id f =? Booking.flight_id b); lia.
Qed.

(** A cancellation keeps the seat accounts: if, before it, every
    flight's [seats_remaining] is its [total_seats] less the passenger rows
    of its PENDING and CONFIRMED bookings, the same holds after it, whether
    it succeeds or fails. *)
Lemma cancel_keeps_accounts :
  forall db pnr reason usr env,
    accounted db ->
    accounted (snd (cancel_booking db pnr reason usr env)).
Proof.
  intros db pnr reason usr env Hacc.
  pose proof (cancel_cases db pnr reason usr env) as H.
  destruct (cancel_booking db pnr reason usr env) as [[r|e] db']; simpl;
    [|now subst db'].
  destruct H as (b & f & np & Hb & Hf & Hst & _ & _ & Hdb).
  apply find_some in Hb. destruct Hb as [Hb _].
  assert (Hlive : live (Booking.status b) = true) by now rewrite Hst.
  set (g := fun x => if Booking.id x =? Booking.id b
                     then cancel_row (Some (fst (calculate_refund (Booking.price_paid b)
                                                   (Flight.departure_time f) (now_refund env)))) x
                     else x) in *.
  assert (Hg : forall x, Booking.id (g x) = Booking.id x
                         /\ Booking.flight_id (g x) = Booking.flight_id x).
  { intros x. unfold g. now destruct (Booking.id x =? Booking.id b). }
  assert (Hother : forall x, Booking.id x <> Booking.id b ->
                             Booking.status (g x) = Booking.status x).
  { intros x Hx. unfold g. now destruct (Z.eqb_spec (Booking.id x) (Booking.id b)). }
  assert (Hdead : forall x, Booking.id x = Booking.id b ->
                            live (Booking.status (g x)) = false).
  { intros x Hx. unfold g. rewrite Hx, Z.eqb_refl. reflexivity. }
  assert (Hbook : booking db' = map g (booking db)) by (rewrite Hdb; reflexivity).
  assert (Hpass : passenger db' = passenger db) by (rewrite Hdb; reflexivity).
  pose proof (seats_held_release db db' g b (Booking.flight_id b) Hacc Hb Hlive Hbook Hpass
                (fun x => proj1 (Hg x)) Hother Hdead) as Hheld.
  rewrite Z.eqb_refl in Hheld.
  eapply (accounted_release db db' g _ b); try eassumption.
  { rewrite Hdb. reflexivity. }
  intros f' Hf'. rewrite inventory_update_id. unfold inventory_update.
  destruct (Z.eqb_spec (Flight.id f') (Booking.flight_id b)) as [E|E].
  - destruct (find_flight_some _ _ _ Hf) as [Hin Hid].
    assert (f' = f) as ->.
    { apply (flight_id_key (flight db)); [apply Hacc|exact Hf'|exact Hin|congruence]. }
    simpl. split; [reflexivity|]. split; [reflexivity|].
    destruct Hacc as (_ & _ & _ & Hseats). destruct (Hseats f Hin) as (H0 & Hsum).
    rewrite Hid in Hsum.
    pose proof (len_nonneg (filter (fun p => (Passenger.flight_id p =? Booking.flight_id b)
                                             && booking_live db' (Passenger.booking_id p))
                              (passenger db'))) as Hnn.
    fold (seats_held db' (Booking.flight_id b)) in Hnn. lia.
  - split; [reflexivity|]. split; [reflexivity|lia].
Qed.

Lemma NoDup_snoc {A} (l : list A) (x : A) : NoDup l -> ~ In x l -> NoDup (l ++ [x]).
Proof.
  intros Hl Hx. apply (NoDup_Add (a := x) (l := l)).
  - rewrite <- (app_nil_r l) at 1. apply Add_app.
  - now split.
Qed.

Lemma confirm_row_id payment_ref id x :
  Booking.id (if Booking.id x =? id then confirm_row payment_ref x else x) = Booking.id x
  /\ Booking.flight_id (if Booking.id x =? id then confirm_row payment_ref x else x)
     = Booking.flight_id x.
Proof. now destruct (Booking.id x =? id). Qed.

(** Seats held after a confirmed checkout: the flight of the request holds
    one seat more for each of its passengers. *)
Lemma seats_held_reserve (db db' : DB) (id fid k : Z) (payment_ref : string)
    (new : Booking.row) (ps : list PassengerIn.t) :
  accounted db ->
  max_rowid (booking db) < id ->
  Booking.id new = id ->
  booking db' = map (fun b => if Booking.id b =? id then confirm_row payment_ref b else b)
                    (booking db ++ [new]) ->
  passenger db' = (passenger db ++ map (passenger_row id fid) ps)%list ->
  seats_held db' k = seats_held db k + (if k =? fid then len ps else 0).
Proof.
  intros (_ & _ & Hfk & _) Hfresh Hnew Hbook Hpass.
  unfold seats_held. rewrite Hpass, filter_app, len_app. f_equal.
  - apply len_filter_ext. intros p Hp. f_equal.
    destruct (Hfk p Hp) as (b & Hb & Hid & _).
    assert (Hne : Passenger.booking_id p <> id).
    { apply max_rowid_ge in Hb. lia. }
    unfold booking_live. rewrite Hbook.
    rewrite (booking_live_update _ id); auto.
    + rewrite existsb_app. simpl. rewrite Hnew.
      destruct (Z.eqb_spec id (Passenger.booking_id p)); [congruence|].
      simpl. now rewrite orb_false_r.
    + intros x. apply confirm_row_id.
    + intros x Hx. now destruct (Z.eqb_spec (Booking.id x) id).
  - destruct (Z.eqb_spec k fid) as [->|Hk].
    + rewrite len_filter_all; [unfold len; now rewrite length_map|].
      intros p Hp. apply in_map_iff in Hp. destruct Hp as (q & <- & _). simpl.
      rewrite Z.eqb_refl. simpl. unfold booking_live. rewrite Hbook.
      apply existsb_exists. eexists. split.
      * apply in_map. apply in_or_app. right. now left.
      * rewrite Hnew, Z.eqb_refl. simpl. now rewrite Hnew, Z.eqb_refl.
    + apply len_filter_none. intros p Hp. apply in_map_iff in Hp.
      destruct Hp as (q & <- & _). simpl.
      destruct (Z.eqb_spec fid k); [congruence|reflexivity].
Qed.

(** A checkout keeps the seat accounts, whether it confirms the booking
    or fails. *)
Lemma checkout_keeps_accounts :
  forall db req env,
    accounted db ->
    accounted (snd (checkout db req env)).
Proof.
  intros db req env Hacc.
  pose proof (checkout_cases db req env) as H.
  destruct (checkout db req env) as [[r|e] db']; simpl; [|now subst db'].
  destruct H as (f & ppp & np & Hf & Hv & Hp & _ & _ & Hdb). cbv zeta in Hdb.
  set (id := Z.max (booking_seq db) (max_rowid (booking db)) + 1) in *.
  set (fid := BookingRequest.flight_id req) in *.
  set (ps := BookingRequest.passengers req) in *.
  assert (Hfresh : max_rowid (booking db) < id) by (unfold id; lia).
  match type of Hdb with
  | context [pending_row ?a1 ?a2 ?a3 ?a4 ?a5 ?a6 ?a7 ?a8] =>
      set (new := pending_row a1 a2 a3 a4 a5 a6 a7 a8) in *
  end.
  subst db'.
  set (c := fun b => if Booking.id b =? id then confirm_row ("PAY_" ++ token_hex8 env) b
                     else b).
  match goal with |- accounted ?d => set (db' := d) end.
  pose proof (fun k => seats_held_reserve db db' id fid k ("PAY_" ++ token_hex8 env) new ps
                         Hacc Hfresh eq_refl eq_refl eq_refl) as Hheld.
  (* the validation left enough seats *)
  assert (Hn : len ps <= Flight.seats_remaining f).
  { unfold validate_flight in Hv.
    destruct (negb (Flight.is_scheduled (Flight.status f))); [discriminate|].
    destruct (Flight.departure_time f <? now_validation env); [discriminate|].
    destruct (Z.ltb_spec (Flight.seats_remaining f) (len ps)); [discriminate|lia]. }
  destruct (find_flight_some _ _ _ Hf) as [Hin Hfid].
  destruct Hacc as (Hfl & Hbk & Hfk & Hseats).
  assert (Hc : forall x, Booking.id (c x) = Booking.id x
                         /\ Booking.flight_id (c x) = Booking.flight_id x).
  { intros x. apply confirm_row_id. }
  split; [|split; [|split]].
  - unfold db'. simpl. rewrite map_map.
    rewrite (map_ext _ Flight.id); [exact Hfl|]. intros x. apply inventory_update_id.
  - unfold db'. simpl. fold c. rewrite map_map.
    rewrite (map_ext _ Booking.id) by (intros x; apply Hc).
    rewrite map_app. simpl. apply NoDup_snoc; [exact Hbk|].
    intros Hx. apply in_map_iff in Hx. destruct Hx as (b & Hb1 & Hb2).
    apply max_rowid_ge in Hb2. lia.
  - intros p Hin'. unfold db' in Hin'. simpl in Hin'. apply in_app_or in Hin'.
    destruct Hin' as [Hin'|Hin'].
    + destruct (Hfk p Hin') as (b & Hb & Hid & Hfl').
      exists (c b). split.
      * unfold db'. simpl. apply in_map. apply in_or_app. left. exact Hb.
      * destruct (Hc b) as [-> ->]. auto.
    + apply in_map_iff in Hin'. destruct Hin' as (q & <- & _).
      exists (c new). split.
      * unfold db'. simpl. apply in_map. apply in_or_app. right. now left.
      * destruct (Hc new) as [-> ->]. auto.
  - intros f' Hf'. unfold db' in Hf'. simpl in Hf'. apply in_map_iff in Hf'.
    destruct Hf' as (f0 & <- & Hf0). rewrite inventory_update_id.
    rewrite Hheld. destruct (Hseats f0 Hf0) as (H0 & Hsum).
    unfold inventory_update.
    destruct (Z.eqb_spec (Flight.id f0) fid) as [E|E].
    + assert (f0 = f) as ->.
      { apply (flight_id_key (flight db)); try assumption. congruence. }
      simpl. pose proof (len_nonneg (filter (fun p => (Passenger.flight_id p =? Flight.id f)
                                                     && booking_live db (Passenger.booking_id p))
                                       (passenger db))) as Hnn.
      fold (seats_held db (Flight.id f)) in Hnn. pose proof (len_nonneg ps). lia.
    + lia.
Qed.

(** ** The sweep, booking by booking *)

Lemma release_expired_cons (id flight_id : Z) (rest : list (Z * Z)) (now : Z -> Z) (c : conn) :
  release_expired ((id, flight_id) :: rest) now c
  = bind (release_one id flight_id now) (fun _ => release_expired rest now) c.
Proof.
  simpl. unfold release_one, bind, query.
  destruct (count_passengers id (work c) >? 0).
  - destruct (update_flight_inventory flight_id (count_passengers id (work c)) (now id) c)
      as [[u|e] c1]; [|reflexivity].
    destruct (execute (sql_expire_booking id) c1) as [[u'|e] c2]; reflexivity.
  - unfold ret. destruct (execute (sql_expire_booking id) c) as [[u'|e] c2]; reflexivity.
Qed.

Lemma release_one_spec (id flight_id : Z) (now : Z -> Z) (c : conn) :
  match release_one id flight_id now c with
  | (Raise e, c') => committed c' = committed c
  | (Ok _, c') =>
      committed c' = committed c
      /\ booking (work c') = map (expire_row id) (booking (work c))
      /\ passenger (work c') = passenger (work c)
      /\ booking_seq (work c') = booking_seq (work c)
      /\ user (work c') = user (work c)
      /\ payment (work c') = payment (work c)
      /\ cancelled_booking (work c') = cancelled_booking (work c)
      /\ let count := count_passengers id (work c) in
         if count >? 0
         then exists f,
             select_flight flight_id (work c) = Some f
             /\ flight (work c')
                = map (inventory_update flight_id
                         (Z.min (Flight.total_seats f) (Flight.seats_remaining f + count))
                         (demand_tier
                            (Z.min (Flight.total_seats f) (Flight.seats_remaining f + count))
                            (Flight.total_seats f)))
                      (flight (work c))
         else flight (work c') = flight (work c)
               /\ flight_price_history (work c') = flight_price_history (work c)
  end.
Proof.
  unfold release_one, bind, query. cbv zeta.
  destruct (count_passengers id (work c) >? 0) eqn:Hpos.
  - run_update_flight_inventory c1 Hu.
    + destruct Hu as (f & price & Hf & _ & _ & _ & Hc1 & Hw1).
      unfold execute, sql_expire_booking. simpl.
      rewrite Hw1. simpl. repeat split; try assumption.
      exists f. split; [exact Hf|reflexivity].
    + destruct Hu as (-> & _). reflexivity.
  - unfold ret, execute, sql_expire_booking. simpl. repeat split; reflexivity.
Qed.

Lemma expire_row_props (id : Z) :
  (forall x, Booking.id (expire_row id x) = Booking.id x
             /\ Booking.flight_id (expire_row id x) = Booking.flight_id x)
  /\ (forall x, Booking.id x <> id -> expire_row id x = x)
  /\ (forall x, Booking.id x = id -> live (Booking.status (expire_row id x)) = false).
Proof.
  unfold expire_row. split; [|split]; intros x.
  - now destruct (Booking.id x =? id).
  - intros H. now destruct (Z.eqb_spec (Booking.id x) id).
  - intros ->. now rewrite Z.eqb_refl.
Qed.

(** One release keeps the accounts. *)
Lemma release_one_accounted (id flight_id : Z) (now : Z -> Z) (c : conn) (b : Booking.row) :
  accounted (work c) ->
  In b (booking (work c)) -> Booking.id b = id -> Booking.flight_id b = flight_id ->
  live (Booking.status b) = true ->
  match release_one id flight_id now c with
  | (Ok _, c') => accounted (work c')
  | (Raise _, _) => True
  end.
Proof.
  intros Hacc Hb Hid Hfid Hlive.
  pose proof (release_one_spec id flight_id now c) as H.
  destruct (release_one id flight_id now c) as [[u|e] c']; [|exact I].
  destruct H as (_ & Hbook & Hpass & _ & _ & _ & _ & Hflight). cbv zeta in Hflight.
  destruct (expire_row_props id) as (Hg & Hother & Hdead).
  assert (Hother' : forall x, Booking.id x <> Booking.id b ->
                              Booking.status (expire_row id x) = Booking.status x).
  { intros x Hx. rewrite Hother; congruence. }
  assert (Hdead' : forall x, Booking.id x = Booking.id b ->
                             live (Booking.status (expire_row id x)) = false).
  { intros x Hx. apply Hdead. congruence. }
  pose proof (seats_held_release (work c) (work c') (expire_row id) b flight_id Hacc Hb Hlive
                Hbook Hpass (fun x => proj1 (Hg x)) Hother' Hdead') as Hheld.
  rewrite Hfid, Z.eqb_refl, Hid in Hheld.
  destruct (count_passengers id (work c) >? 0) eqn:Hpos.
  - destruct Hflight as (f & Hf & Hflight).
    eapply (accounted_release (work c) (work c') (expire_row id) _ b); try eassumption.
    intros f' Hf'. rewrite inventory_update_id. unfold inventory_update.
    rewrite Hfid, Hid.
    destruct (Z.eqb_spec (Flight.id f') flight_id) as [E|E].
    + destruct (find_flight_some _ _ _ Hf) as [Hin Hfid'].
      assert (f' = f) as ->.
      { apply (flight_id_key (flight (work c))); [apply Hacc|exact Hf'|exact Hin|congruence]. }
      simpl. split; [reflexivity|]. split; [reflexivity|].
      destruct Hacc as (_ & _ & _ & Hseats). destruct (Hseats f Hin) as (H0 & Hsum).
      rewrite Hfid' in Hsum.
      pose proof (len_nonneg (filter (fun p => (Passenger.flight_id p =? flight_id)
                                               && booking_live (work c') (Passenger.booking_id p))
                                (passenger (work c')))) as Hnn.
      fold (seats_held (work c') flight_id) in Hnn. lia.
    + split; [reflexivity|]. split; [reflexivity|lia].
  - destruct Hflight as (Hflight & _).
    apply (accounted_release (work c) (work c') (expire_row id) (fun f => f) b);
      try assumption.
    { now rewrite map_id. }
    intros f' Hf'. split; [reflexivity|]. split; [reflexivity|].
    rewrite Hid. rewrite Z.gtb_ltb in Hpos. apply Z.ltb_ge in Hpos.
    pose proof (count_passengers_nonneg id (work c)).
    destruct (Flight.id f' =? Booking.flight_id b); lia.
Qed.

Lemma expire_rows_cons (id : Z) (rest : list Z) (x : Booking.row) :
  expire_rows rest (expire_row id x) = expire_rows (id :: rest) x.
Proof.
  unfold expire_rows, expire_row. simpl.
  destruct (Z.eqb_spec (Booking.id x) id) as [E|E]; simpl; [|reflexivity].
  destruct (existsb (Z.eqb (Booking.id x)) rest); reflexivity.
Qed.

(** What a sweep's loop has done when it returns: the bookings with the
    listed ids are CANCELLED, the other rows of [booking] and the tables the
    loop does not write are as before. *)
Lemma release_expired_tables (now : Z -> Z) (l : list (Z * Z)) (c : conn) :
  match release_expired l now c with
  | (Ok _, c') =>
      booking (work c') = map (expire_rows (map fst l)) (booking (work c))
      /\ passenger (work c') = passenger (work c)
      /\ booking_seq (work c') = booking_seq (work c)
      /\ user (work c') = user (work c)
      /\ payment (work c') = payment (work c)
      /\ cancelled_booking (work c') = cancelled_booking (work c)
  | (Raise _, _) => True
  end.
Proof.
  revert c. induction l as [|[id fid] rest IH]; intros c.
  - simpl. unfold expire_rows. simpl. rewrite map_id. tauto.
  - rewrite release_expired_cons. unfold bind.
    pose proof (release_one_spec id fid now c) as H1.
    destruct (release_one id fid now c) as [[u|e] c1]; [|exact I].
    destruct H1 as (_ & Hb & Hp & Hs & Hu & Hpay & Hcan & _).
    specialize (IH c1). destruct (release_expired rest now c1) as [[u'|e] c2]; [|exact I].
    destruct IH as (Hb2 & Hp2 & Hs2 & Hu2 & Hpay2 & Hcan2).
    rewrite Hb2, Hb, map_map. simpl.
    rewrite (map_ext _ _ (expire_rows_cons id (map fst rest))).
    repeat split; congruence.
Qed.

Lemma release_expired_accounted (now : Z -> Z) (l : list (Z * Z)) (c : conn) :
  accounted (work c) ->
  NoDup (map fst l) ->
  (forall id fid, In (id, fid) l ->
     exists b, In b (booking (work c)) /\ Booking.id b = id /\ Booking.flight_id b = fid
               /\ live (Booking.status b) = true) ->
  match release_expired l now c with
  | (Ok _, c') => accounted (work c')
  | (Raise _, _) => True
  end.
Proof.
  revert c. induction l as [|[id fid] rest IH]; intros c Hacc Hnd Hl.
  - exact Hacc.
  - rewrite release_expired_cons. unfold bind.
    destruct (Hl id fid (or_introl eq_refl)) as (b & Hb & Hid & Hfid & Hlive).
    pose proof (release_one_accounted id fid now c b Hacc Hb Hid Hfid Hlive) as Hacc1.
    pose proof (release_one_spec id fid now c) as H1.
    destruct (release_one id fid now c) as [[u|e] c1]; [|exact I].
    destruct H1 as (_ & Hbook & _).
    inversion Hnd as [|? ? Hnotin Hnd']; subst.
    apply IH; [exact Hacc1|exact Hnd'|].
    intros id' fid' Hin'.
    destruct (Hl id' fid' (or_intror Hin')) as (b' & Hb' & Hid' & Hfid' & Hlive').
    assert (Hne : Booking.id b' <> Booking.id b).
    { intros E. apply Hnotin. rewrite <- E, Hid'.
      change id' with (fst (id', fid')). now apply in_map. }
    exists b'. rewrite Hbook. split.
    + apply in_map_iff. exists b'. split; [|exact Hb'].
      now apply (proj1 (proj2 (expire_row_props (Booking.id b)))).
    + auto.
Qed.

Lemma cleanup_cases (db : DB) (env : CleanupEnv) :
  match release_expired (select_expired (cutoff env) db) (now_release env)
          {| committed := db; work := db |} with
  | (Ok _, c') =>
      cleanup_expired_bookings db env
      = (match select_expired (cutoff env) db with
         | [] => []
         | _ => [INFO ("Cleaned up " ++ str_int (len (select_expired (cutoff env) db))
                       ++ " expired bookings")]
         end, work c')
  | (Raise e, _) =>
      cleanup_expired_bookings db env
      = ([ERROR ("Database error: " ++ str_exn e);
          ERROR ("Error in cleanup job: " ++ str_exn e)], db)
  end.
Proof.
  pose proof (release_expired_committed (now_release env)
                (select_expired (cutoff env) db) {| committed := db; work := db |}) as Hc.
  destruct (release_expired (select_expired (cutoff env) db) (now_release env)
              {| committed := db; work := db |}) as [[u|e] c'] eqn:E;
    unfold cleanup_expired_bookings, get_db, try_except;
    unfold bind at 1; unfold query at 1; cbn [work]; unfold bind at 1; rewrite E.
  - reflexivity.
  - simpl in *. now rewrite Hc.
Qed.

Lemma select_expired_ids (cutoff : string) (db : DB) :
  map fst (select_expired cutoff db) = map Booking.id (filter (expired cutoff) (booking db)).
Proof. unfold select_expired. rewrite map_map. reflexivity. Qed.

Lemma NoDup_map_filter {A B} (f : A -> B) (P : A -> bool) (l : list A) :
  NoDup (map f l) -> NoDup (map f (filter P l)).
Proof.
  induction l as [|x l IH]; simpl; [auto|].
  intros H. inversion H as [|? ? Hx Hl]; subst.
  destruct (P x); simpl; [|auto].
  constructor; [|auto]. intros Hin. apply Hx.
  apply in_map_iff in Hin. destruct Hin as (y & Hy & Hin).
  apply filter_In in Hin. rewrite <- Hy. apply in_map. tauto.
Qed.

(** The sweep keeps the seat accounts, whether it succeeds or fails. *)
Lemma sweep_keeps_accounts :
  forall db env,
    accounted db ->
    accounted (snd (cleanup_expired_bookings db env)).
Proof.
  intros db env Hacc.
  pose proof (cleanup_cases db env) as H.
  pose proof (release_expired_accounted (now_release env) (select_expired (cutoff env) db)
                {| committed := db; work := db |} Hacc) as Ha.
  destruct (release_expired (select_expired (cutoff env) db) (now_release env)
              {| committed := db; work := db |}) as [[u|e] c'].
  - rewrite H. simpl. apply Ha.
    + rewrite select_expired_ids. apply NoDup_map_filter. apply Hacc.
    + intros id fid Hin. unfold select_expired in Hin. apply in_map_iff in Hin.
      destruct Hin as (b & E & Hin). injection E as <- <-.
      apply filter_In in Hin. destruct Hin as [Hin Hexp].
      exists b. simpl. repeat split; auto.
      apply andb_true_iff in Hexp. destruct Hexp as [Hst _].
      destruct (Booking.status b); simpl in *; congruence.
  - rewrite H. exact Hacc.
Qed.

Lemma expire_rows_selected (cutoff : string) (db : DB) (b : Booking.row) :
  NoDup (map Booking.id (booking db)) ->
  In b (booking db) ->
  existsb (Z.eqb (Booking.id b)) (map fst (select_expired cutoff db)) = expired cutoff b.
Proof.
  intros Hnd Hb. rewrite select_expired_ids. apply eq_true_iff_eq.
  rewrite existsb_exists. split.
  - intros (k & Hk & E). apply Z.eqb_eq in E. apply in_map_iff in Hk.
    destruct Hk as (b' & Hid & Hb'). apply filter_In in Hb'. destruct Hb' as [Hb' Hexp].
    assert (b' = b) as <-; [|exact Hexp].
    apply (booking_id_key (booking db)); auto. congruence.
  - intros Hexp. exists (Booking.id b). split; [|apply Z.eqb_refl].
    apply in_map. apply filter_In. auto.
Qed.

(** X1.  A sweep that logs no error cancels exactly the bookings that are
    PENDING and stamped before the cutoff: every such row of [booking]
    becomes CANCELLED, every other row (CONFIRMED bookings among them) is
    left as it is, and the rows of [passenger] and [payment] are untouched. *)
Theorem sweep_cancels_expired :
  forall db env,
    NoDup (map Booking.id (booking db)) ->
    sweep_ok (fst (cleanup_expired_bookings db env)) = true ->
    let db' := snd (cleanup_expired_bookings db env) in
    booking db'
    = map (fun b => if expired (cutoff env) b
                    then cancel_row (Booking.refund_amount b) b else b) (booking db)
    /\ passenger db' = passenger db
    /\ payment db' = payment db.
Proof.
  intros db env Hnd Hok.
  pose proof (cleanup_cases db env) as H.
  pose proof (release_expired_tables (now_release env) (select_expired (cutoff env) db)
                {| committed := db; work := db |}) as Ht.
  destruct (release_expired (select_expired (cutoff env) db) (now_release env)
              {| committed := db; work := db |}) as [[u|e] c'].
  - rewrite H. simpl. destruct Ht as (Hb & Hp & _ & _ & Hpay & _). simpl in *.
    split; [|split; assumption].
    rewrite Hb. apply map_ext_in. intros b Hin. unfold expire_rows.
    now rewrite expire_rows_selected.
  - rewrite H in Hok. discriminate.
Qed.

Lemma expired_none_left (cutoff : string) (ids : list Z) (t : list Booking.row) :
  (forall b, In b t -> expired cutoff b = true -> existsb (Z.eqb (Booking.id b)) ids = true) ->
  filter (expired cutoff) (map (expire_rows ids) t) = [].
Proof.
  induction t as [|b t IH]; intros H; [reflexivity|]. simpl.
  rewrite IH by (intros x Hx; apply H; now right).
  unfold expire_rows.
  destruct (existsb (Z.eqb (Booking.id b)) ids) eqn:Hsel; [reflexivity|].
  destruct (expired cutoff b) eqn:Hexp; [|reflexivity].
  rewrite (H b (or_introl eq_refl) Hexp) in Hsel. discriminate.
Qed.

(** X2.  A sweep is idempotent: after a sweep that logged no error, a second
    sweep with the same cutoff finds nothing to release, logs nothing and
    leaves the database as it is. *)
Theorem sweep_idempotent :
  forall db env env',
    cutoff env' = cutoff env ->
    sweep_ok (fst (cleanup_expired_bookings db env)) = true ->
    cleanup_expired_bookings (snd (cleanup_expired_bookings db env)) env'
    = ([], snd (cleanup_expired_bookings db env)).
Proof.
  intros db env env' Hcut Hok.
  pose proof (cleanup_cases db env) as H.
  pose proof (release_expired_tables (now_release env) (select_expired (cutoff env) db)
                {| committed := db; work := db |}) as Ht.
  destruct (release_expired (select_expired (cutoff env) db) (now_release env)
              {| committed := db; work := db |}) as [[u|e] c'].
  2:{ rewrite H in Hok. discriminate. }
  rewrite H. simpl snd. destruct Ht as (Hb & _). simpl in Hb.
  assert (Hnone : select_expired (cutoff env') (work c') = []).
  { unfold select_expired. fold (expired (cutoff env')). rewrite Hb, Hcut.
    rewrite expired_none_left; [reflexivity|].
    intros b Hin Hexp. rewrite select_expired_ids. apply existsb_exists.
    exists (Booking.id b). split; [|apply Z.eqb_refl].
    apply in_map. apply filter_In. auto. }
  pose proof (cleanup_cases (work c') env') as H'.
  rewrite Hnone in H'. simpl in H'. exact H'.
Qed.

(** ** The cutoff of the sweep *)

Lemma ascii_compare_refl (c : ascii) : Ascii.compare c c = Eq.
Proof. unfold Ascii.compare. apply N.compare_refl. Qed.

Lemma same_day_before (date time cutoff_time : string) :
  (date ++ " " ++ time <? date ++ "T" ++ cutoff_time)%string = true.
Proof.
  unfold String.ltb. induction date as [|c date IH]; simpl.
  - reflexivity.
  - rewrite ascii_compare_refl. exact IH.
Qed.

(** X3.  The sweep compares [booking_date], which SQLite's CURRENT_TIMESTAMP
    writes as ["date time"], with a cutoff that [isoformat()] writes as
    ["dateTtime"], as text.  A PENDING booking stamped on the calendar day of
    the cutoff is therefore selected as expired whatever its time of day,
    even when it is later than the cutoff's. *)
Theorem sweep_same_day_expired :
  forall db b date time cutoff_time,
    In b (booking db) ->
    Booking.status b = Booking.PENDING ->
    Booking.booking_date b = date ++ " " ++ time ->
    In (Booking.id b, Booking.flight_id b)
       (select_expired (date ++ "T" ++ cutoff_time) db).
Proof.
  intros db b date time cutoff_time Hin Hst Hdate.
  unfold select_expired.
  apply (in_map (fun b => (Booking.id b, Booking.flight_id b))).
  apply filter_In. split; [exact Hin|].
  rewrite Hst, Hdate, same_day_before. reflexivity.
Qed.

(** ** Retrying on a locked database *)

Lemma backoff_cons (from : Z) (k : nat) :
  backoff from (Datatypes.S k)
  = ((0.1 * inject_Z (2 ^ from))%Q :: backoff (from + 1) k).
Proof.
  unfold backoff. simpl. f_equal.
  - now rewrite Z.add_0_r.
  - rewrite <- seq_shift, map_map. apply map_ext. intros i.
    do 3 f_equal. lia.
Qed.

Lemma retry_loop_spec {S A : Type} (func : S -> call_outcome A * S) (max_attempts : Z)
    (remaining : nat) (attempt : Z) (sleeps : list Q) (s : S) (n : Z) :
  attempt + Z.of_nat remaining = max_attempts ->
  (0 < remaining)%nat ->
  exists o k s' ,
    retry_loop (counted func) max_attempts remaining attempt sleeps (s, n)
    = (Some o, (sleeps ++ backoff attempt k)%list, (s', n + Z.of_nat k + 1))
    /\ (k < remaining)%nat
    /\ (locked_error (Some o) = true -> Datatypes.S k = remaining).
Proof.
  revert attempt sleeps s n. induction remaining as [|r IH]; intros attempt sleeps s n Hsum Hpos.
  - lia.
  - simpl. destruct (func s) as [[a|msg|e] s1] eqn:Hf.
    + exists (Returns a), 0%nat, s1. unfold backoff. simpl. rewrite app_nil_r, Z.add_0_r.
      split; [reflexivity|]. split; [lia|discriminate].
    + destruct (contains "locked" (lower msg) && (attempt <? max_attempts - 1)) eqn:Hretry.
      * apply andb_true_iff in Hretry. destruct Hretry as [_ Hlt]. apply Z.ltb_lt in Hlt.
        destruct (IH (attempt + 1) (sleeps ++ [(0.1 * inject_Z (2 ^ attempt))%Q])%list s1 (n + 1))
          as (o & k & s' & E & Hk & Hlocked); [lia|lia|].
        exists o, (Datatypes.S k), s'. rewrite E, backoff_cons, <- app_assoc. simpl.
        split; [do 2 f_equal; lia|]. split; [lia|]. intros H. rewrite (Hlocked H). reflexivity.
      * exists (OperationalError msg), 0%nat, s1. unfold backoff. simpl.
        rewrite app_nil_r, Z.add_0_r. split; [reflexivity|]. split; [lia|].
        intros Hl. rewrite Hl in Hretry. simpl in Hretry. apply Z.ltb_ge in Hretry. lia.
    + exists (Raises e), 0%nat, s1. unfold backoff. simpl. rewrite app_nil_r, Z.add_0_r.
      split; [reflexivity|]. split; [lia|discriminate].
Qed.


(** X5.  [with_retry] does not retry what is not a "locked" error: when the
    first call returns, raises an exception other than
    [sqlite3.OperationalError] (the 402 of a declined payment, for one), or
    raises an [OperationalError] whose text does not contain "locked", that
    is the result, after one call and no pause. *)
Theorem with_retry_first_call :
  forall (S A : Type) (func : S -> call_outcome A * S) (max_attempts : Z) (s : S)
         (o : call_outcome A) (s' : S),
    1 <= max_attempts ->
    func s = (o, s') ->
    locked_error (Some o) = false ->
    with_retry func max_attempts s = (Some o, [], s').
Proof.
  intros S A func max_attempts s o s' Hmax Hf Hl. unfold with_retry.
  destruct (Z.to_nat max_attempts) as [|r] eqn:Hr; [lia|].
  simpl. rewrite Hf. destruct o as [a|msg|e]; try reflexivity.
  simpl in Hl. rewrite Hl. reflexivity.
Qed.

(** ** The demand refresh job *)

Lemma set_flight_same (db : DB) : set_flight db (flight db) = db.
Proof. now destruct db. Qed.

Lemma with_demand_factor_same (f : Flight.row) :
  with_demand_factor f (Flight.demand_factor f) = f.
Proof. now destruct f. Qed.

Lemma round_2_between (lo hi x : Q) :
  (round lo 2 == lo)%Q -> (round hi 2 == hi)%Q ->
  (lo <= x)%Q -> (x <= hi)%Q -> (lo <= round x 2 <= hi)%Q.
Proof.
  intros Hlo Hhi H1 H2. split.
  - rewrite <- Hlo. now apply round_2_mono.
  - rewrite <- Hhi. now apply round_2_mono.
Qed.

Lemma refresh_draw_in_range (x : Q) :
  (0.95 <= x)%Q -> (x <= 1.15)%Q -> (0.95 <= round x 2 <= 1.15)%Q.
Proof. apply round_2_between; reflexivity. Qed.

(** What the loop over the scheduled flights has done when it returns: only
    the [flight] table has changed, and in it only [demand_factor], of the
    rows with a listed id, to a rounded draw. *)
Lemma refresh_factors_spec (l : list Z) (uniform : nat -> Q) (k : nat) (c : conn) :
  match refresh_factors l uniform k c with
  | (Ok _, c') =>
      committed c' = committed c
      /\ exists h,
          work c' = set_flight (work c) (map h (flight (work c)))
          /\ (forall f, h f = with_demand_factor f (Flight.demand_factor (h f)))
          /\ (forall f, ~ In (Flight.id f) l -> h f = f)
          /\ (forall f, In (Flight.id f) l ->
                        exists j, Flight.demand_factor (h f) = round (uniform j) 2)
  | (Raise _, c') => committed c' = committed c
  end.
Proof.
  revert k c. induction l as [|fid rest IH]; intros k c.
  - simpl. split; [reflexivity|]. exists (fun f => f).
    rewrite map_id, set_flight_same. split; [reflexivity|].
    split; [intros f; now rewrite with_demand_factor_same|].
    split; [reflexivity|]. intros f [].
  - simpl. unfold bind, execute, sql_update_demand_factor.
    destruct (forallb _ _); [|reflexivity].
    match goal with |- context [refresh_factors rest uniform (Datatypes.S k) ?c1] =>
      specialize (IH (Datatypes.S k) c1);
      destruct (refresh_factors rest uniform (Datatypes.S k) c1) as [[u|e] c2]
    end; [|exact IH].
    destruct IH as (Hc & h & Hw & Hdf & Hout & Hin). simpl in Hc, Hw.
    split; [exact Hc|].
    set (h1 := fun f => if Flight.id f =? fid
                        then with_demand_factor f (round (uniform k) 2) else f) in *.
    assert (Hid1 : forall f, Flight.id (h1 f) = Flight.id f).
    { intros f. unfold h1. now destruct (Flight.id f =? fid). }
    exists (fun f => h (h1 f)). rewrite Hw, map_map. split; [reflexivity|].
    split; [|split].
    + intros f. rewrite (Hdf (h1 f)). unfold h1.
      destruct (Flight.id f =? fid); reflexivity.
    + intros f Hf. rewrite Hout by (rewrite Hid1; intros H; apply Hf; now right).
      unfold h1. destruct (Z.eqb_spec (Flight.id f) fid) as [E|E]; [|reflexivity].
      exfalso. apply Hf. now left.
    + intros f Hf. destruct (in_dec Z.eq_dec (Flight.id f) rest) as [Hr|Hr].
      * apply Hin. now rewrite Hid1.
      * rewrite Hout by now rewrite Hid1.
        destruct Hf as [E|Hf]; [|contradiction].
        unfold h1. rewrite <- E, Z.eqb_refl. exists k. reflexivity.
Qed.

Lemma refresh_factors_succeeds (l : list Z) (uniform : nat -> Q) (k : nat) (c : conn) :
  (forall j, (0.95 <= uniform j)%Q /\ (uniform j <= 1.15)%Q) ->
  exists c', refresh_factors l uniform k c = (Ok tt, c').
Proof.
  intros Hu. revert k c. induction l as [|fid rest IH]; intros k c.
  - simpl. now exists c.
  - simpl. unfold bind, execute, sql_update_demand_factor.
    destruct (forallb _ _) eqn:Hchk; [apply IH|].
    exfalso. apply not_true_iff_false in Hchk. apply Hchk. apply forallb_forall.
    intros f' Hf'. apply in_map_iff in Hf'. destruct Hf' as (f & <- & _).
    destruct (Z.eqb_spec (Flight.id f) fid) as [E|E].
    + simpl. rewrite E, Z.eqb_refl. simpl.
      destruct (refresh_draw_in_range (uniform k)) as [H1 H2]; try apply Hu.
      apply andb_true_iff. split; apply Qle_bool_iff.
      * eapply Qle_trans; [|exact H1]. unfold Qle. simpl. lia.
      * eapply Qle_trans; [exact H2|]. unfold Qle. simpl. lia.
    + destruct (Z.eqb_spec (Flight.id f) fid); [contradiction|reflexivity].
Qed.

Lemma Forall2_map_r {A B} (R : A -> B -> Prop) (h : A -> B) (l : list A) :
  (forall x, In x l -> R x (h x)) -> Forall2 R l (map h l).
Proof.
  induction l as [|x l IH]; intros H; simpl; constructor.
  - apply H. now left.
  - apply IH. intros y Hy. apply H. now right.
Qed.

Lemma update_demand_factors_cases (db : DB) (uniform : nat -> Q) :
  match refresh_factors (select_scheduled db) uniform 0 {| committed := db; work := db |} with
  | (Ok _, c') =>
      update_demand_factors db uniform
      = ([INFO ("Updated demand factors for " ++ str_int (len (select_scheduled db))
                ++ " flights")], work c')
  | (Raise e, _) =>
      update_demand_factors db uniform
      = ([ERROR ("Database error: " ++ str_exn e);
          ERROR ("Error updating demand: " ++ str_exn e)], db)
  end.
Proof.
  pose proof (refresh_factors_spec (select_scheduled db) uniform 0
                {| committed := db; work := db |}) as Hs.
  destruct (refresh_factors (select_scheduled db) uniform 0
              {| committed := db; work := db |}) as [[u|e] c'] eqn:E;
    unfold update_demand_factors, get_db, try_except;
    unfold bind at 1; unfold query at 1; cbn [work]; unfold bind at 1; rewrite E.
  - reflexivity.
  - simpl in *. now rewrite Hs.
Qed.

(** X6.  When the draws lie in [0.95, 1.15], the demand refresh succeeds and
    changes nothing but [demand_factor]: every SCHEDULED flight gets a factor
    in [0.95, 1.15] (inside the bounds of the table's CHECK), and the rows of
    the flights that are not scheduled, the seat counts of all flights and
    all other tables stay as they are. *)
Theorem demand_refresh :
  forall db uniform,
    (forall j, (0.95 <= uniform j)%Q /\ (uniform j <= 1.15)%Q) ->
    exists t,
      update_demand_factors db uniform
      = ([INFO ("Updated demand factors for " ++ str_int (len (select_scheduled db))
                ++ " flights")], set_flight db t)
      /\ Forall2 (fun f f' =>
                    f' = with_demand_factor f (Flight.demand_factor f')
                    /\ (Flight.is_scheduled (Flight.status f) = true ->
                        (0.95 <= Flight.demand_factor f' <= 1.15)%Q)
                    /\ (~ In (Flight.id f) (select_scheduled db) -> f' = f))
                 (flight db) t.
Proof.
  intros db uniform Hu.
  pose proof (update_demand_factors_cases db uniform) as H.
  pose proof (refresh_factors_spec (select_scheduled db) uniform 0
                {| committed := db; work := db |}) as Hs.
  destruct (refresh_factors_succeeds (select_scheduled db) uniform 0
              {| committed := db; work := db |} Hu) as (c' & E).
  rewrite E in H, Hs. destruct Hs as (_ & h & Hw & Hdf & Hout & Hin). simpl in Hw.
  exists (map h (flight db)). rewrite H, Hw. split; [reflexivity|].
  apply Forall2_map_r. intros f Hf. split; [apply Hdf|]. split; [|apply Hout].
  intros Hsched.
  destruct (Hin f) as (j & ->).
  { unfold select_scheduled. apply in_map. apply filter_In. auto. }
  apply refresh_draw_in_range; apply Hu.
Qed.

(** The demand refresh keeps the seat accounts. *)
Lemma refresh_keeps_accounts (db : DB) (uniform : nat -> Q) :
  accounted db -> accounted (snd (update_demand_factors db uniform)).
Proof.
  intros Hacc.
  pose proof (update_demand_factors_cases db uniform) as H.
  pose proof (refresh_factors_spec (select_scheduled db) uniform 0
                {| committed := db; work := db |}) as Hs.
  destruct (refresh_factors (select_scheduled db) uniform 0
              {| committed := db; work := db |}) as [[u|e] c'];
    rewrite H; simpl; [|exact Hacc].
  destruct Hs as (_ & h & Hw & Hdf & _ & _). simpl in Hw. rewrite Hw.
  assert (Hh : forall f, Flight.id (h f) = Flight.id f
                         /\ Flight.seats_remaining (h f) = Flight.seats_remaining f
                         /\ Flight.total_seats (h f) = Flight.total_seats f).
  { intros f. rewrite (Hdf f). simpl. auto. }
  destruct Hacc as (Hfl & Hbk & Hfk & Hseats).
  split; [|split; [|split]]; simpl.
  - rewrite map_map. rewrite (map_ext _ Flight.id); [exact Hfl|]. intros f. apply Hh.
  - exact Hbk.
  - exact Hfk.
  - intros f' Hf'. apply in_map_iff in Hf'. destruct Hf' as (f & <- & Hf).
    destruct (Hh f) as (-> & -> & ->). apply (Hseats f Hf).
Qed.

(** ** Sequences of transactions *)

Lemma accounted_bounds (db : DB) (f : Flight.row) :
  accounted db -> In f (flight db) ->
  0 <= Flight.seats_remaining f <= Flight.total_seats f
  /\ seats_held db (Flight.id f) = Flight.total_seats f - Flight.seats_remaining f.
Proof.
  intros (_ & _ & _ & Hseats) Hf. destruct (Hseats f Hf) as (H0 & Hsum).
  pose proof (len_nonneg (filter (fun p => (Passenger.flight_id p =? Flight.id f)
                                           && booking_live db (Passenger.booking_id p))
                            (passenger db))) as Hnn.
  fold (seats_held db (Flight.id f)) in Hnn. lia.
Qed.

Lemma run_transaction_accounted (db : DB) (t : transaction) :
  accounted db -> accounted (run_transaction db t).
Proof.
  destruct t; simpl.
  - apply checkout_keeps_accounts.
  - apply cancel_keeps_accounts.
  - apply sweep_keeps_accounts.
  - apply refresh_keeps_accounts.
Qed.

(** X7.  No overbooking.  Starting from a database whose seat accounts are
    in order, after any sequence of checkouts, cancellations, expiry sweeps
    and demand refreshes, successful or failed, they still are: for every
    flight, [0 <= seats_remaining <= total_seats], and the passenger rows of
    its PENDING and CONFIRMED bookings number exactly
    [total_seats - seats_remaining]. *)
Theorem transactions_keep_accounts :
  forall db ts,
    accounted db ->
    let db' := fold_left run_transaction ts db in
    accounted db'
    /\ forall f, In f (flight db') ->
         0 <= Flight.seats_remaining f <= Flight.total_seats f
         /\ seats_held db' (Flight.id f) = Flight.total_seats f - Flight.seats_remaining f.
Proof.
  intros db ts Hacc. cbv zeta.
  assert (H : accounted (fold_left run_transaction ts db)).
  { revert db Hacc. induction ts as [|t ts IH]; intros db Hacc; simpl; [exact Hacc|].
    apply IH. now apply run_transaction_accounted. }
  split; [exact H|]. intros f Hf. now apply accounted_bounds.
Qed.

(** ** Seat numbers *)

Lemma seat_taken_iff (flight_id : Z) (seat : string) (t : list Passenger.row) :
  seat_taken flight_id seat t = true <-> In (flight_id, seat) (map seat_key t).
Proof.
  unfold seat_taken. rewrite existsb_exists, in_map_iff. split.
  - intros (q & Hq & H). apply andb_true_iff in H. destruct H as [H1 H2].
    apply Z.eqb_eq in H1. apply String.eqb_eq in H2.
    exists q. split; [|exact Hq]. unfold seat_key. congruence.
  - intros (q & E & Hq). exists q. split; [exact Hq|].
    unfold seat_key in E. injection E as -> ->.
    now rewrite Z.eqb_refl, String.eqb_refl.
Qed.

(** The loop over the passengers returns only if it has kept the seats of
    the table distinct. *)
Lemma insert_passengers_unique booking_id flight_id passengers (c : conn) u c' :
  insert_passengers booking_id flight_id passengers c = (Ok u, c') ->
  NoDup (map seat_key (passenger (work c))) ->
  NoDup (map seat_key (passenger (work c'))).
Proof.
  revert c. induction passengers as [|p ps IH]; intros c; simpl.
  - unfold ret. intros E. injection E as _ <-. auto.
  - unfold bind, try_except, execute, sql_insert_passenger.
    destruct (seat_taken flight_id (PassengerIn.seat_number p) (passenger (work c))) eqn:Ht.
    + unfold raise. discriminate.
    + intros E Hnd. apply (IH _ E). simpl. rewrite map_app. simpl.
      apply NoDup_snoc; [exact Hnd|].
      intros Hin. apply seat_taken_iff in Hin. unfold seat_key in Hin. simpl in Hin.
      congruence.
Qed.

(** A confirmed checkout has run the loop over its passengers to the end, on
    the [passenger] table of the database it started from. *)
Lemma checkout_ok_inserts (db : DB) (req : BookingRequest.t) (env : CheckoutEnv) r db' :
  checkout db req env = (Ok r, db') ->
  exists c1 c2 u,
    passenger (work c1) = passenger db
    /\ insert_passengers (resp_booking_id r) (BookingRequest.flight_id req)
         (BookingRequest.passengers req) c1 = (Ok u, c2)
    /\ passenger db' = passenger (work c2).
Proof.
  start_checkout db c0.
  destruct (validate_flight (select_flight (BookingRequest.flight_id req) db)
              (BookingRequest.passengers req) (now_validation env)) as [f|e].
  2:{ destruct e; simpl; discriminate. }
  destruct (calculate_dynamic_price (Flight.base_price f) (Flight.seats_remaining f)
              (Flight.total_seats f) (Flight.demand_factor f) (Flight.departure_time f)
              (now_pricing env)) as [ppp|e].
  2:{ destruct e; simpl; discriminate. }
  run_insert_booking id c1 Hib.
  2:{ destruct e; simpl; discriminate. }
  destruct Hib as (_ & _ & Hw1). change (work c0) with db in Hw1.
  destruct (insert_passengers id (BookingRequest.flight_id req)
              (BookingRequest.passengers req) c1) as [[u|e] c2] eqn:Eip.
  2:{ destruct e; simpl; discriminate. }
  run_update_flight_inventory c3 Hu.
  2:{ destruct e; simpl; discriminate. }
  destruct Hu as (f2 & new_price & _ & _ & _ & _ & _ & Hw3).
  destruct (negb (Qle_bool 0 _)).
  { simpl. discriminate. }
  destruct (existsb _ (payment (work c3))).
  { simpl. discriminate. }
  destruct (payment_success env).
  2:{ simpl. discriminate. }
  simpl. intros E. injection E as <- <-. simpl.
  exists c1, c2, u. split; [rewrite Hw1; reflexivity|]. split; [exact Eip|].
  rewrite Hw3. reflexivity.
Qed.

Lemma run_transaction_seats_unique (db : DB) (t : transaction) :
  seats_unique db -> seats_unique (run_transaction db t).
Proof.
  unfold seats_unique. fold seat_key. intros Hu. destruct t; simpl.
  - destruct (checkout db req env) as [[r|e] db'] eqn:E; simpl.
    + destruct (checkout_ok_inserts db req env r db' E) as (c1 & c2 & u & H1 & H2 & ->).
      apply (insert_passengers_unique _ _ _ _ _ _ H2). now rewrite H1.
    + pose proof (checkout_cases db req env) as H. rewrite E in H. now subst db'.
  - pose proof (cancel_cases db pnr reason usr env) as H.
    destruct (cancel_booking db pnr reason usr env) as [[r|e] db']; simpl;
      [|now subst db'].
    destruct H as (b & f & np & _ & _ & _ & _ & _ & ->). exact Hu.
  - pose proof (cleanup_cases db env) as H.
    pose proof (release_expired_tables (now_release env) (select_expired (cutoff env) db)
                  {| committed := db; work := db |}) as Ht.
    destruct (release_expired (select_expired (cutoff env) db) (now_release env)
                {| committed := db; work := db |}) as [[u|e] c']; rewrite H; simpl;
      [|exact Hu].
    destruct Ht as (_ & -> & _). exact Hu.
  - pose proof (update_demand_factors_cases db uniform) as H.
    pose proof (refresh_factors_spec (select_scheduled db) uniform 0
                  {| committed := db; work := db |}) as Hs.
    destruct (refresh_factors (select_scheduled db) uniform 0
                {| committed := db; work := db |}) as [[u|e] c']; rewrite H; simpl;
      [|exact Hu].
    destruct Hs as (_ & h & -> & _). exact Hu.
Qed.

(** X8.  Seat uniqueness.  If no two rows of [passenger] share
    [(flight_id, seat_number)], that is still so after any sequence of
    checkouts, cancellations, sweeps and demand refreshes; a confirmed
    checkout in particular has given its passengers seats that are pairwise
    distinct and were on no row of the flight before. *)
Theorem seats_stay_unique :
  forall db ts,
    seats_unique db ->
    seats_unique (fold_left run_transaction ts db)
    /\ forall req env r db',
         checkout db req env = (Ok r, db') ->
         NoDup (map PassengerIn.seat_number (BookingRequest.passengers req))
         /\ forall p, In p (BookingRequest.passengers req) ->
              seat_taken (BookingRequest.flight_id req) (PassengerIn.seat_number p)
                (passenger db) = false.
Proof.
  intros db ts Hu. split.
  - revert db Hu. induction ts as [|t ts IH]; intros db Hu; simpl; [exact Hu|].
    apply IH. now apply run_transaction_seats_unique.
  - intros req env r db' E.
    pose proof (run_transaction_seats_unique db (Checkout req env) Hu) as Hu'.
    simpl in Hu'. rewrite E in Hu'. simpl in Hu'.
    pose proof (checkout_cases db req env) as H. rewrite E in H.
    destruct H as (f & ppp & np & _ & _ & _ & _ & _ & ->). cbv zeta in Hu'.
    unfold seats_unique in Hu'. simpl in Hu'. fold seat_key in Hu'.
    rewrite map_app, map_map in Hu'. simpl in Hu'.
    split.
    + apply NoDup_app_remove_l in Hu'.
      assert (Hm : map (fun x => seat_key (passenger_row
                          (Z.max (booking_seq db) (max_rowid (booking db)) + 1)
                          (BookingRequest.flight_id req) x))
                       (BookingRequest.passengers req)
                   = map (fun s => (BookingRequest.flight_id req, s))
                         (map PassengerIn.seat_number (BookingRequest.passengers req))).
      { rewrite map_map. reflexivity. }
      rewrite Hm in Hu'. eapply NoDup_map_inv. exact Hu'.
    + intros p Hp. apply not_true_iff_false. intros Ht. apply seat_taken_iff in Ht.
      revert Hu'. generalize (map seat_key (passenger db)) Ht. intros l Hin Hnd.
      induction l as [|x l IH]; [destruct Hin|].
      simpl in Hnd. inversion Hnd as [|? ? Hx Hl]; subst.
      destruct Hin as [->|Hin]; [|now apply IH].
      apply Hx. apply in_or_app. right. apply in_map_iff.
      exists p. split; [reflexivity|exact Hp].
Qed.

(** ** More on cancellation *)

Lemma demand_factor_checks (q : Q) :
  let d := (if Qle_bool q 0.05 then 1.6
            else if Qle_bool q 0.10 then 1.4
            else if Qle_bool q 0.20 then 1.2
            else 1.0)%Q in
  Qle_bool 0.5 d && Qle_bool d 2.0 = true.
Proof.
  cbv zeta. destruct (Qle_bool q 0.05); [reflexivity|].
  destruct (Qle_bool q 0.10); [reflexivity|].
  destruct (Qle_bool q 0.20); reflexivity.
Qed.

(** The inventory update succeeds on a flight that has seats, when the
    change does not take [seats_remaining] below zero. *)
Lemma update_flight_inventory_ok (flight_id change now : Z) (c : conn) (f : Flight.row) :
  select_flight flight_id (work c) = Some f ->
  NoDup (map Flight.id (flight (work c))) ->
  0 <= Flight.seats_remaining f + change ->
  0 < Flight.total_seats f ->
  exists c', update_flight_inventory flight_id change now c = (Ok tt, c').
Proof.
  intros Hf Hnd H0 Hts. unfold update_flight_inventory, bind, query. rewrite Hf.
  destruct (Z.ltb_spec (Flight.seats_remaining f + change) 0) as [Hlt|Hge]; [lia|].
  unfold lift, py_truediv.
  destruct (Z.eqb_spec (Flight.total_seats f) 0) as [Hz|Hnz]; [lia|].
  set (n := if Flight.seats_remaining f + change >? Flight.total_seats f
            then Flight.total_seats f else Flight.seats_remaining f + change).
  assert (Hn : 0 <= n <= Flight.total_seats f).
  { unfold n. rewrite Z.gtb_ltb.
    destruct (Z.ltb_spec (Flight.total_seats f) (Flight.seats_remaining f + change)); lia. }
  unfold execute at 1. unfold sql_update_flight.
  match goal with |- context [forallb ?P ?l] => assert (Hchk : forallb P l = true) end.
  { apply forallb_forall. intros f' Hf'. apply in_map_iff in Hf'.
    destruct Hf' as (f0 & <- & Hf0). rewrite inventory_update_id.
    destruct (Z.eqb_spec (Flight.id f0) flight_id) as [E|E]; [|reflexivity].
    destruct (find_flight_some _ _ _ Hf) as [Hin Hid].
    assert (f0 = f) as -> by (apply (flight_id_key (flight (work c))); auto; congruence).
    unfold inventory_update. rewrite E, Z.eqb_refl. simpl.
    unfold flight_checks. simpl. rewrite demand_factor_checks. simpl.
    apply andb_true_iff. split; apply Z.leb_le; lia. }
  rewrite Hchk.
  match goal with |- context [calculate_dynamic_price ?a1 ?a2 ?a3 ?a4 ?a5 ?a6] =>
    destruct (calculate_dynamic_price_total a1 a2 a3 a4 a5 a6) as [price ->]
  end.
  unfold execute, sql_insert_price_history. simpl. eauto.
Qed.

(** Sufficient conditions for a cancellation to go through. *)
Lemma cancel_succeeds (db : DB) (pnr : string) (reason : option string) (usr : User.row)
    (env : CancelEnv) (b : Booking.row) (f : Flight.row) :
  find (fun x => Booking.pnr x =? pnr)%string (booking db) = Some b ->
  select_flight (Booking.flight_id b) db = Some f ->
  (User.role usr = User.ADMIN \/ Booking.user_id b = User.id usr) ->
  Booking.status b = Booking.CONFIRMED ->
  NoDup (map Flight.id (flight db)) ->
  0 <= Flight.seats_remaining f -> 0 < Flight.total_seats f ->
  exists r db', cancel_booking db pnr reason usr env = (Ok r, db').
Proof.
  intros Hb Hf Hauth Hst Hnd H0 Hts.
  unfold cancel_booking, get_db, do_cancel_booking.
  set (c0 := {| committed := db; work := db |}).
  unfold try_except at 1 2. unfold bind at 1. unfold query at 1.
  change (work c0) with db. unfold select_booking_by_pnr. rewrite Hb, Hf.
  assert (Ha : negb (User.role_eqb (User.role usr) User.ADMIN)
               && negb (Booking.user_id b =? User.id usr) = false).
  { destruct Hauth as [->| ->]; [reflexivity|].
    rewrite Z.eqb_refl. simpl. apply andb_false_r. }
  rewrite Ha, Hst.
  change (negb (Booking.status_eqb Booking.CONFIRMED Booking.CONFIRMED)) with false.
  cbv iota.
  destruct (calculate_refund (Booking.price_paid b) (Flight.departure_time f)
              (now_refund env)) as [refund policy].
  unfold bind at 1. unfold query at 1. change (work c0) with db.
  unfold bind at 1. unfold execute at 1. unfold sql_insert_cancelled_booking at 1.
  unfold bind at 1. unfold execute at 1. unfold sql_cancel_booking at 1.
  unfold bind at 1. unfold execute at 1. unfold sql_refund_payment at 1.
  cbv beta iota. simpl work. simpl committed. unfold bind at 1.
  match goal with |- context [update_flight_inventory ?a1 ?a2 ?a3 ?c] =>
    destruct (update_flight_inventory_ok a1 a2 a3 c f) as (c1 & ->)
  end; try assumption.
  { pose proof (count_passengers_nonneg (Booking.id b) db). lia. }
  simpl. eauto.
Qed.

Lemma cancel_refused (db : DB) (pnr : string) (reason : option string) (usr : User.row)
    (env : CancelEnv) (b : Booking.row) (f : Flight.row) :
  find (fun x => Booking.pnr x =? pnr)%string (booking db) = Some b ->
  select_flight (Booking.flight_id b) db = Some f ->
  Booking.status b <> Booking.CONFIRMED ->
  cancel_booking db pnr reason usr env
  = (Raise (if negb (User.role_eqb (User.role usr) User.ADMIN)
               && negb (Booking.user_id b =? User.id usr)
            then HTTPException 403 "Unauthorized"
            else HTTPException 400 "Only confirmed bookings can be cancelled"), db).
Proof.
  intros Hb Hf Hst.
  unfold cancel_booking, get_db, do_cancel_booking.
  set (c0 := {| committed := db; work := db |}).
  unfold try_except at 1 2. unfold bind at 1. unfold query at 1.
  change (work c0) with db. unfold select_booking_by_pnr. rewrite Hb, Hf.
  destruct (negb (User.role_eqb (User.role usr) User.ADMIN)
            && negb (Booking.user_id b =? User.id usr)); [reflexivity|].
  destruct (Booking.status b); try reflexivity. congruence.
Qed.

(** X9.  A booking is cancelled once.  After a successful cancellation,
    every further cancellation of the same PNR is refused, with 400 "Only
    confirmed bookings can be cancelled" for its owner or an administrator
    and 403 for anyone else, and leaves the database as it is: no second
    refund is recorded and no seat is released twice. *)
Theorem cancel_only_once :
  forall db pnr reason usr env r db1 reason' usr' env',
    cancel_booking db pnr reason usr env = (Ok r, db1) ->
    exists b,
      find (fun x => Booking.pnr x =? pnr)%string (booking db) = Some b
      /\ cancel_booking db1 pnr reason' usr' env'
         = (Raise (if negb (User.role_eqb (User.role usr') User.ADMIN)
                      && negb (Booking.user_id b =? User.id usr')
                   then HTTPException 403 "Unauthorized"
                   else HTTPException 400 "Only confirmed bookings can be cancelled"),
            db1).
Proof.
  intros db pnr reason usr env r db1 reason' usr' env' E.
  pose proof (cancel_cases db pnr reason usr env) as H. rewrite E in H.
  destruct H as (b & f & np & Hb & Hf & Hst & _ & _ & Hdb).
  exists b. split; [exact Hb|].
  set (g := fun x => if Booking.id x =? Booking.id b
                     then cancel_row (Some (fst (calculate_refund (Booking.price_paid b)
                                                   (Flight.departure_time f) (now_refund env)))) x
                     else x) in *.
  assert (Hb1 : find (fun x => Booking.pnr x =? pnr)%string (booking db1) = Some (g b)).
  { rewrite Hdb. simpl. fold g. rewrite find_pnr_map.
    - now rewrite Hb.
    - intros x. unfold g. now destruct (Booking.id x =? Booking.id b). }
  assert (Hgb : g b = cancel_row (Some (fst (calculate_refund (Booking.price_paid b)
                                              (Flight.departure_time f) (now_refund env)))) b).
  { unfold g. now rewrite Z.eqb_refl. }
  assert (Hf1 : exists f1, select_flight (Booking.flight_id (g b)) db1 = Some f1).
  { rewrite Hgb, Hdb. unfold select_flight. simpl.
    rewrite find_flight_map by apply inventory_update_id.
    unfold select_flight in Hf. rewrite Hf. simpl. eauto. }
  destruct Hf1 as (f1 & Hf1).
  rewrite (cancel_refused db1 pnr reason' usr' env' (g b) f1 Hb1 Hf1).
  - rewrite Hgb. reflexivity.
  - rewrite Hgb. simpl. discriminate.
Qed.

(** ** Bounds on prices and refunds *)

Lemma seat_surcharge_range (s t : Z) : (0 <= seat_surcharge s t <= 0.60)%Q.
Proof.
  unfold seat_surcharge.
  repeat match goal with
         | |- context [?a <=? ?b] => destruct (a <=? b)
         end; split; unfold Qle; simpl; lia.
Qed.

Lemma time_surcharge_range (u : Z) : (0 <= time_surcharge u <= 0.30)%Q.
Proof.
  unfold time_surcharge.
  repeat match goal with
         | |- context [?a <? ?b] => destruct (a <? b)
         end; split; unfold Qle; simpl; lia.
Qed.

Lemma refund_tier_range (u : Z) : (0 <= fst (refund_tier u) <= 0.90)%Q.
Proof.
  unfold refund_tier.
  repeat match goal with
         | |- context [?a >? ?b] => destruct (a >? b)
         end; split; unfold Qle; simpl; lia.
Qed.

Lemma refund_tier_mono (u u' : Z) :
  u <= u' -> (fst (refund_tier u) <= fst (refund_tier u'))%Q.
Proof.
  intros H. unfold refund_tier, hour.
  repeat match goal with
         | |- context [?a >? ?b] => rewrite (Z.gtb_ltb a b); destruct (Z.ltb_spec b a)
         end; try lia; unfold Qle; simpl; lia.
Qed.

Lemma round_2_zero : (0 <= round 0 2)%Q.
Proof. unfold Qle. simpl. lia. Qed.



(** ** What a checkout leaves to the read endpoints and to a cancellation *)

Lemma validate_flight_seats (f : Flight.row) (passengers : list PassengerIn.t) (now : Z) :
  validate_flight (Some f) passengers now = Ok f ->
  len passengers <= Flight.seats_remaining f.
Proof.
  unfold validate_flight.
  destruct (negb (Flight.is_scheduled (Flight.status f))); [discriminate|].
  destruct (Flight.departure_time f <? now); [discriminate|].
  destruct (Z.ltb_spec (Flight.seats_remaining f) (len passengers)); [discriminate|].
  intros _. lia.
Qed.

Lemma insert_booking_ok_fresh user_id flight_id pnr price email phone date (c c' : conn) id :
  insert_booking user_id flight_id pnr price email phone date c = (Ok id, c') ->
  existsb (fun b => Booking.pnr b =? pnr)%string (booking (work c)) = false.
Proof.
  unfold insert_booking, sql_insert_booking.
  destruct (negb (Qle_bool 0 price)); [discriminate|].
  destruct (existsb _ (booking (work c))); [discriminate|reflexivity].
Qed.

(** A checkout that returns drew a PNR no booking had, on a flight with
    seats. *)
Lemma checkout_ok_facts (db : DB) (req : BookingRequest.t) (env : CheckoutEnv) r db' :
  checkout db req env = (Ok r, db') ->
  existsb (fun b => Booking.pnr b =? resp_pnr r)%string (booking db) = false
  /\ forall f, select_flight (BookingRequest.flight_id req) db = Some f ->
               0 < Flight.total_seats f.
Proof.
  start_checkout db c0.
  destruct (validate_flight (select_flight (BookingRequest.flight_id req) db)
              (BookingRequest.passengers req) (now_validation env)) as [f|e].
  2:{ destruct e; simpl; discriminate. }
  destruct (calculate_dynamic_price (Flight.base_price f) (Flight.seats_remaining f)
              (Flight.total_seats f) (Flight.demand_factor f) (Flight.departure_time f)
              (now_pricing env)) as [ppp|e].
  2:{ destruct e; simpl; discriminate. }
  match goal with
  | |- context [insert_booking ?a1 ?a2 ?a3 ?a4 ?a5 ?a6 ?a7 ?c] =>
      pose proof (insert_booking_spec a1 a2 a3 a4 a5 a6 a7 c) as Hib;
      destruct (insert_booking a1 a2 a3 a4 a5 a6 a7 c) as [[id|e] c1] eqn:Eib
  end.
  2:{ destruct e; simpl; discriminate. }
  apply insert_booking_ok_fresh in Eib. change (work c0) with db in *.
  destruct Hib as (_ & _ & Hw1).
  run_insert_passengers c2 Hip.
  2:{ destruct e; simpl; discriminate. }
  destruct Hip as (_ & Hw2).
  run_update_flight_inventory c3 Hu.
  2:{ destruct e; simpl; discriminate. }
  destruct Hu as (f2 & new_price & Hf2 & _ & Hts & _).
  destruct (negb (Qle_bool 0 _)).
  { simpl. discriminate. }
  destruct (existsb _ (payment (work c3))).
  { simpl. discriminate. }
  destruct (payment_success env).
  2:{ simpl. discriminate. }
  simpl. intros E. injection E as <- <-. simpl. split; [exact Eib|].
  intros f' Hf'. rewrite Hw2, Hw1 in Hf2. unfold select_flight in Hf2, Hf'.
  simpl in Hf2. congruence.
Qed.

Lemma find_snoc_fresh {A} (P : A -> bool) (l : list A) (x : A) :
  existsb P l = false -> P x = true -> find P (l ++ [x]) = Some x.
Proof.
  intros Hl Hx. induction l as [|a l IH]; simpl in *.
  - now rewrite Hx.
  - apply orb_false_iff in Hl. destruct Hl as [-> Hl]. auto.
Qed.

Lemma filter_none {A} (P : A -> bool) (l : list A) :
  (forall x, In x l -> P x = false) -> filter P l = [].
Proof.
  intros H. induction l as [|a l IH]; simpl; [reflexivity|].
  rewrite (H a) by now left. apply IH. intros x Hx. apply H. now right.
Qed.

Lemma filter_all {A} (P : A -> bool) (l : list A) :
  (forall x, In x l -> P x = true) -> filter P l = l.
Proof.
  intros H. induction l as [|a l IH]; simpl; [reflexivity|].
  rewrite (H a) by now left. f_equal. apply IH. intros x Hx. apply H. now right.
Qed.

(** The rows a successful checkout leaves, as the read endpoints and a
    cancellation find them. *)
Lemma checkout_ok_view (db : DB) (req : BookingRequest.t) (env : CheckoutEnv) r db' :
  accounted db ->
  checkout db req env = (Ok r, db') ->
  let fid := BookingRequest.flight_id req in
  let ps := BookingRequest.passengers req in
  let id := resp_booking_id r in
  exists f d b,
    select_flight fid db = Some f
    /\ len ps <= Flight.seats_remaining f <= Flight.total_seats f
    /\ 0 < Flight.total_seats f
    /\ flight db' = map (inventory_update fid (Flight.seats_remaining f - len ps) d) (flight db)
    /\ select_flight fid db' = Some (with_inventory f (Flight.seats_remaining f - len ps) d)
    /\ find (fun x => Booking.pnr x =? resp_pnr r)%string (booking db') = Some b
    /\ Booking.id b = id
    /\ Booking.user_id b = BookingRequest.user_id req
    /\ Booking.flight_id b = fid
    /\ Booking.status b = Booking.CONFIRMED
    /\ Booking.price_paid b = resp_price_paid r
    /\ passenger db' = (passenger db ++ map (passenger_row id fid) ps)%list
    /\ filter (fun p => Passenger.booking_id p =? id) (passenger db')
       = map (passenger_row id fid) ps.
Proof.
  intros Hacc E. cbv zeta.
  destruct (checkout_ok_facts db req env r db' E) as (Hfresh & Hts).
  pose proof (checkout_cases db req env) as H. rewrite E in H.
  destruct H as (f & ppp & np & Hf & Hv & _ & _ & Hr & Hdb). cbv zeta in Hdb.
  specialize (Hts f Hf).
  pose proof (validate_flight_seats _ _ _ Hv) as Hlen.
  destruct (find_flight_some _ _ _ Hf) as [Hin Hid].
  destruct (accounted_bounds db f Hacc Hin) as (Hb & _).
  assert (Hn : Z.min (Flight.total_seats f)
                 (Flight.seats_remaining f - len (BookingRequest.passengers req))
               = Flight.seats_remaining f - len (BookingRequest.passengers req)).
  { pose proof (len_nonneg (BookingRequest.passengers req)). lia. }
  rewrite Hn in Hdb.
  set (id := Z.max (booking_seq db) (max_rowid (booking db)) + 1) in *.
  set (fid := BookingRequest.flight_id req) in *.
  set (ps := BookingRequest.passengers req) in *.
  set (n := Flight.seats_remaining f - len ps) in *.
  set (d := demand_tier n (Flight.total_seats f)) in *.
  set (payref := ("PAY_" ++ token_hex8 env)%string) in *.
  set (new := pending_row id (BookingRequest.user_id req) fid ("PNR" ++ uuid4_hex8 env)
                (round (ppp * inject_Z (len ps)) 2) (BookingRequest.contact_email req)
                (BookingRequest.contact_phone req) (current_timestamp env)) in *.
  assert (Hrid : resp_booking_id r = id) by (rewrite Hr; reflexivity).
  assert (Hrpnr : resp_pnr r = ("PNR" ++ uuid4_hex8 env)%string) by (rewrite Hr; reflexivity).
  assert (Hrprice : resp_price_paid r = round (ppp * inject_Z (len ps)) 2)
    by (rewrite Hr; reflexivity).
  rewrite Hrid.
  exists f, d, (confirm_row payref new).
  split; [exact Hf|]. split; [lia|]. split; [exact Hts|].
  split; [rewrite Hdb; reflexivity|].
  split.
  { unfold select_flight. rewrite Hdb. simpl.
    rewrite find_flight_map by apply inventory_update_id.
    unfold select_flight in Hf. rewrite Hf. simpl.
    unfold inventory_update. rewrite Hid, Z.eqb_refl. reflexivity. }
  split.
  { rewrite Hdb. simpl. rewrite find_pnr_map.
    2:{ intros x. destruct (Booking.id x =? id); reflexivity. }
    rewrite Hrpnr in *. rewrite (find_snoc_fresh _ _ new Hfresh).
    - simpl. now rewrite Z.eqb_refl.
    - simpl. apply String.eqb_refl. }
  split; [reflexivity|]. split; [reflexivity|]. split; [reflexivity|].
  split; [reflexivity|]. split; [now rewrite Hrprice|].
  split; [rewrite Hdb; reflexivity|].
  rewrite Hdb. simpl. rewrite filter_app, filter_none, filter_all; [reflexivity| |].
  - intros x Hx. apply in_map_iff in Hx. destruct Hx as (p & <- & _). simpl.
    apply Z.eqb_refl.
  - intros p Hp. destruct Hacc as (_ & _ & Hfk & _).
    destruct (Hfk p Hp) as (b & Hb' & Hbid & _).
    apply max_rowid_ge in Hb'. apply Z.eqb_neq. unfold id. lia.
Qed.

(** X12.  A booking can be read back.  After a checkout returns, the booking
    endpoint finds the booking under the PNR of the response: for the owner
    of the booking or an administrator it returns the CONFIRMED row with the
    id and the price of the response, and the passengers of the request in
    their order; for any other user it answers 403. *)
Theorem booking_round_trip :
  forall db req env r db' usr,
    accounted db ->
    checkout db req env = (Ok r, db') ->
    exists b,
      Booking.id b = resp_booking_id r
      /\ Booking.status b = Booking.CONFIRMED
      /\ Booking.price_paid b = resp_price_paid r
      /\ Booking.flight_id b = BookingRequest.flight_id req
      /\ get_booking db' (resp_pnr r) usr
         = if negb (User.role_eqb (User.role usr) User.ADMIN)
              && negb (BookingRequest.user_id req =? User.id usr)
           then Raise (HTTPException 403 "Unauthorized")
           else Ok (b, map passenger_entry (BookingRequest.passengers req)).
Proof.
  intros db req env r db' usr Hacc E.
  destruct (checkout_ok_view db req env r db' Hacc E)
    as (f & d & b & _ & _ & _ & _ & Hf' & Hb & Hid & Huid & Hfid & Hst & Hprice & _ & Hps).
  exists b. repeat (split; [assumption|]).
  unfold get_booking, select_booking_by_pnr. rewrite Hb, Hfid, Hf', Huid.
  destruct (negb (User.role_eqb (User.role usr) User.ADMIN)
            && negb (BookingRequest.user_id req =? User.id usr)); [reflexivity|].
  rewrite Hid, Hps, map_map. reflexivity.
Qed.


(** X14.  A seat the seat map lists cannot be booked.  A checkout that names,
    for any passenger, a seat number listed among the booked seats of its
    flight is refused and leaves the database as it was. *)
Theorem listed_seat_refused :
  forall db req env m p,
    get_seat_map db (BookingRequest.flight_id req) = Ok m ->
    In p (BookingRequest.passengers req) ->
    In (PassengerIn.seat_number p) (map (fun s => fst (fst s)) (booked_seats m)) ->
    exists e, checkout db req env = (Raise e, db).
Proof.
  intros db req env m p Hm Hp Hseat.
  destruct (checkout_seat_taken db req env p Hp) as (e & He & _); [|eauto].
  unfold get_seat_map in Hm.
  destruct (select_flight (BookingRequest.flight_id req) db); [|discriminate].
  injection Hm as <-. simpl in Hseat. rewrite map_map in Hseat. simpl in Hseat.
  apply in_map_iff in Hseat. destruct Hseat as (q & Hq & Hin).
  apply filter_In in Hin. destruct Hin as (Hin & Hfl).
  unfold seat_taken. apply existsb_exists. exists q. split; [exact Hin|].
  rewrite Hfl, Hq. simpl. apply String.eqb_refl.
Qed.

(** X15.  Booking and cancelling give the seats back.  When a checkout
    returns, the owner of the booking or an administrator can cancel it under
    the PNR of the response; the receipt shows the price of the response,
    and every flight has the seat counts it had before the checkout. *)
Theorem checkout_cancel_round_trip :
  forall db req env r db1 reason usr cenv,
    accounted db ->
    checkout db req env = (Ok r, db1) ->
    (User.role usr = User.ADMIN \/ BookingRequest.user_id req = User.id usr) ->
    exists receipt db2,
      cancel_booking db1 (resp_pnr r) reason usr cenv = (Ok receipt, db2)
      /\ receipt_price_paid receipt = resp_price_paid r
      /\ map seat_counts (flight db2) = map seat_counts (flight db).
Proof.
  intros db req env r db1 reason usr cenv Hacc E Hauth.
  destruct (checkout_ok_view db req env r db1 Hacc E)
    as (f & d & b & Hf & Hlen & Hts & Hfl & Hf' & Hb & Hid & Huid & Hfid & Hst & Hprice
        & _ & Hps).
  pose proof (checkout_keeps_accounts db req env Hacc) as Hacc1. rewrite E in Hacc1.
  simpl in Hacc1.
  set (fid := BookingRequest.flight_id req) in *.
  set (ps := BookingRequest.passengers req) in *.
  destruct (cancel_succeeds db1 (resp_pnr r) reason usr cenv b
              (with_inventory f (Flight.seats_remaining f - len ps) d))
    as (receipt & db2 & Ec).
  { exact Hb. } { now rewrite Hfid. } { rewrite Huid. exact Hauth. } { exact Hst. }
  { apply Hacc1. } { simpl. lia. } { simpl. exact Hts. }
  exists receipt, db2. split; [exact Ec|].
  pose proof (cancel_cases db1 (resp_pnr r) reason usr cenv) as H. rewrite Ec in H.
  destruct H as (b' & f' & np & Hb' & Hf2 & _ & _ & Hr & Hdb2). cbv zeta in Hdb2.
  rewrite Hb in Hb'. injection Hb' as <-. rewrite Hfid, Hf' in Hf2. injection Hf2 as <-.
  split; [rewrite Hr; simpl; exact Hprice|].
  assert (Hcount : count_passengers (Booking.id b) db1 = len ps).
  { unfold count_passengers. rewrite Hid, Hps. unfold len. now rewrite length_map. }
  rewrite Hdb2. simpl. rewrite Hcount, Hfl, Hfid, !map_map.
  apply map_ext_in. intros f0 Hf0.
  destruct (find_flight_some _ _ _ Hf) as [Hin Hidf].
  unfold inventory_update at 2.
  destruct (Z.eqb_spec (Flight.id f0) fid) as [E0|N0].
  - assert (f0 = f) as -> by (apply (flight_id_key (flight db)); auto; [apply Hacc|congruence]).
    unfold inventory_update. simpl. rewrite Hidf, Z.eqb_refl. unfold seat_counts. simpl.
    f_equal. f_equal. lia.
  - unfold inventory_update. destruct (Z.eqb_spec (Flight.id f0) fid); [contradiction|].
    reflexivity.
Qed.

(** X16.  The quoted price is the price charged.  When the flight endpoint
    quotes a price per seat and a checkout for that flight prices at the same
    time and returns, the price of the response is the quote times the
    number of passengers, rounded to cents. *)
Theorem quote_is_charged :
  forall db req env r db' f quote,
    get_flight db (BookingRequest.flight_id req) (now_pricing env) = Ok (f, quote) ->
    checkout db req env = (Ok r, db') ->
    resp_price_paid r
    = round (quote * inject_Z (len (BookingRequest.passengers req))) 2.
Proof.
  intros db req env r db' f quote Hq E.
  pose proof (checkout_cases db req env) as H. rewrite E in H.
  destruct H as (f' & ppp & np & Hf & _ & Hp & _ & Hr & _).
  unfold get_flight in Hq. rewrite Hf, Hp in Hq. injection Hq as _ <-.
  rewrite Hr. reflexivity.
Qed.

(** ** The theorems above on the example data *)

Lemma accounted_db0 : accounted db0.
Proof.
  split; [|split; [|split]].
  - simpl. constructor; [intros []|constructor].
  - constructor.
  - intros p [].
  - intros f [<-|[]]. vm_compute. split; [discriminate|reflexivity].
Qed.

Lemma sweep_cancels_expired_witness :
  let db' := snd (cleanup_expired_bookings db_stale_2 sweep) in
  booking db'
  = map (fun b => if expired (cutoff sweep) b
                  then cancel_row (Booking.refund_amount b) b else b) (booking db_stale_2)
  /\ passenger db' = passenger db_stale_2
  /\ payment db' = payment db_stale_2.
Proof.
  apply (sweep_cancels_expired db_stale_2 sweep).
  - simpl. constructor; [intros []|constructor].
  - vm_compute. reflexivity.
Defined.

Lemma sweep_idempotent_witness :
  cleanup_expired_bookings (snd (cleanup_expired_bookings db_stale_2 sweep)) sweep
  = ([], snd (cleanup_expired_bookings db_stale_2 sweep)).
Proof.
  apply (sweep_idempotent db_stale_2 sweep sweep).
  - reflexivity.
  - vm_compute. reflexivity.
Defined.

Lemma sweep_same_day_expired_witness :
  In (Booking.id late_booking, Booking.flight_id late_booking)
     (select_expired ("2026-01-01" ++ "T" ++ "00:15:00.000000") db_late).
Proof.
  apply (sweep_same_day_expired db_late late_booking "2026-01-01" "23:59:59"
           "00:15:00.000000").
  - left. reflexivity.
  - reflexivity.
  - reflexivity.
Defined.


Lemma with_retry_first_call_witness :
  with_retry declined 3 0
  = (Some (Raises (HTTPException 402 "Payment failed. Please try again.")), [], 1).
Proof.
  apply (with_retry_first_call Z Z declined 3 0).
  - lia.
  - reflexivity.
  - reflexivity.
Defined.

Lemma demand_refresh_witness :
  exists t,
    update_demand_factors db0 (fun _ => 1.0%Q)
    = ([INFO ("Updated demand factors for " ++ str_int (len (select_scheduled db0))
              ++ " flights")], set_flight db0 t)
    /\ Forall2 (fun f f' =>
                  f' = with_demand_factor f (Flight.demand_factor f')
                  /\ (Flight.is_scheduled (Flight.status f) = true ->
                      (0.95 <= Flight.demand_factor f' <= 1.15)%Q)
                  /\ (~ In (Flight.id f) (select_scheduled db0) -> f' = f))
               (flight db0) t.
Proof.
  apply (demand_refresh db0 (fun _ => 1.0%Q)).
  intros j. split; unfold Qle; simpl; lia.
Defined.

Lemma transactions_keep_accounts_witness :
  let db' := fold_left run_transaction day_of_ada db0 in
  accounted db'
  /\ forall f, In f (flight db') ->
       0 <= Flight.seats_remaining f <= Flight.total_seats f
       /\ seats_held db' (Flight.id f) = Flight.total_seats f - Flight.seats_remaining f.
Proof.
  apply (transactions_keep_accounts db0 day_of_ada). exact accounted_db0.
Defined.

Lemma seats_stay_unique_witness :
  seats_unique (fold_left run_transaction day_of_ada db0)
  /\ forall req env r db',
       checkout db0 req env = (Ok r, db') ->
       NoDup (map PassengerIn.seat_number (BookingRequest.passengers req))
       /\ forall p, In p (BookingRequest.passengers req) ->
            seat_taken (BookingRequest.flight_id req) (PassengerIn.seat_number p)
              (passenger db0) = false.
Proof.
  apply (seats_stay_unique db0 day_of_ada). unfold seats_unique. simpl. constructor.
Defined.

Lemma cancel_only_once_witness :
  exists r db1,
    cancel_booking db_booked "PNRABCDEF12" None alice (cancel_at hour) = (Ok r, db1)
    /\ exists b,
        find (fun x => Booking.pnr x =? "PNRABCDEF12")%string (booking db_booked) = Some b
        /\ cancel_booking db1 "PNRABCDEF12" None alice (cancel_at (2 * hour))
           = (Raise (if negb (User.role_eqb (User.role alice) User.ADMIN)
                        && negb (Booking.user_id b =? User.id alice)
                     then HTTPException 403 "Unauthorized"
                     else HTTPException 400 "Only confirmed bookings can be cancelled"),
              db1).
Proof.
  eexists. eexists.
  match goal with
  | |- ?A /\ _ => assert (E : A) by (vm_compute; reflexivity)
  end.
  split; [exact E|].
  exact (cancel_only_once _ _ _ _ _ _ _ None alice (cancel_at (2 * hour)) E).
Defined.



Lemma booking_round_trip_witness :
  exists r db',
    checkout db0 request_1A (attempt 0 "ABCDEF12" "0123456789ABCDEF" true) = (Ok r, db')
    /\ exists b,
        Booking.id b = resp_booking_id r
        /\ Booking.status b = Booking.CONFIRMED
        /\ Booking.price_paid b = resp_price_paid r
        /\ Booking.flight_id b = BookingRequest.flight_id request_1A
        /\ get_booking db' (resp_pnr r) alice
           = if negb (User.role_eqb (User.role alice) User.ADMIN)
                && negb (BookingRequest.user_id request_1A =? User.id alice)
             then Raise (HTTPException 403 "Unauthorized")
             else Ok (b, map passenger_entry (BookingRequest.passengers request_1A)).
Proof.
  eexists. eexists.
  match goal with
  | |- ?A /\ _ => assert (E : A) by (vm_compute; reflexivity)
  end.
  split; [exact E|].
  exact (booking_round_trip _ _ _ _ _ alice accounted_db0 E).
Defined.


Lemma listed_seat_refused_witness :
  exists m,
    get_seat_map db_booked (BookingRequest.flight_id request_1A) = Ok m
    /\ exists e,
        checkout db_booked request_1A (attempt hour "ABCDEF13" "0123456789ABCDEF" true)
        = (Raise e, db_booked).
Proof.
  eexists.
  match goal with
  | |- ?A /\ _ => assert (E : A) by (vm_compute; reflexivity)
  end.
  split; [exact E|].
  apply (listed_seat_refused db_booked request_1A _ _ seat_1A E).
  - left. reflexivity.
  - left. reflexivity.
Defined.

Lemma checkout_cancel_round_trip_witness :
  exists r db1,
    checkout db0 request_1A (attempt 0 "ABCDEF12" "0123456789ABCDEF" true) = (Ok r, db1)
    /\ exists receipt db2,
        cancel_booking db1 (resp_pnr r) None alice (cancel_at hour) = (Ok receipt, db2)
        /\ receipt_price_paid receipt = resp_price_paid r
        /\ map seat_counts (flight db2) = map seat_counts (flight db0).
Proof.
  eexists. eexists.
  match goal with
  | |- ?A /\ _ => assert (E : A) by (vm_compute; reflexivity)
  end.
  split; [exact E|].
  apply (checkout_cancel_round_trip _ _ _ _ _ None alice (cancel_at hour) accounted_db0 E).
  right. reflexivity.
Defined.

Lemma quote_is_charged_witness :
  exists f quote r db',
    get_flight db0 (BookingRequest.flight_id request_1A)
      (now_pricing (attempt 0 "ABCDEF12" "0123456789ABCDEF" true)) = Ok (f, quote)
    /\ checkout db0 request_1A (attempt 0 "ABCDEF12" "0123456789ABCDEF" true) = (Ok r, db')
    /\ resp_price_paid r
       = round (quote * inject_Z (len (BookingRequest.passengers request_1A))) 2.
Proof.
  do 4 eexists.
  match goal with
  | |- ?A /\ ?B /\ _ =>
      assert (E1 : A) by (vm_compute; reflexivity);
      assert (E2 : B) by (vm_compute; reflexivity)
  end.
  split; [exact E1|]. split; [exact E2|].
  exact (quote_is_charged _ _ _ _ _ _ _ E1 E2).
Defined.
